(** * A shallow embedding of the starbreeder_sdk pipeline

    The routes [/initialize], [/generate] and [/evaluate] of
    [starbreeder_sdk/api/routes] and the transfer helpers of
    [starbreeder_sdk/api/routes/utils.py], written as programs of a small
    state and error monad.  The state records the trace of observable effects
    (configuration reads, directory creation and removal, HTTP GET and PUT
    requests, archive packing, calls into the plugged module), the file system
    as a map from paths to nodes, and two counters: the next [mkdtemp] handle
    and the number of [asyncio.gather] calls made so far.

    Everything the SDK does not compute itself (the module, the object store,
    the archive contents, the scheduling of concurrent tasks) is an explicit
    [env]ironment, so that every theorem below quantifies over all of them. *)

From Stdlib Require Import String Ascii List Bool ZArith Arith Lia.
Import ListNotations.
Open Scope string_scope.

(** ** Python strings and paths *)

Definition py_str_of_nat (n : nat) : string :=
  let fix go (fuel n : nat) (acc : string) : string :=
    match fuel with
    | O => acc
    | S f =>
        let acc' := String (ascii_of_nat (48 + n mod 10)) acc in
        if Nat.ltb n 10 then acc' else go f (n / 10) acc'
    end in
  go (S n) n "".

Definition py_str_of_Z (z : Z) : string :=
  match z with
  | Zneg p => "-" ++ py_str_of_nat (Pos.to_nat p)
  | _ => py_str_of_nat (Z.to_nat z)
  end.

Definition starts_with_slash (s : string) : bool :=
  match s with String "/"%char _ => true | _ => false end.

Fixpoint last_char (s : string) : option ascii :=
  match s with
  | EmptyString => None
  | String c EmptyString => Some c
  | String _ r => last_char r
  end.

(** [os.path.join(a, b)] (posixpath): an absolute [b] discards [a]. *)
Definition os_path_join (a b : string) : string :=
  if starts_with_slash b then b
  else if (a =? "") then b
  else match last_char a with
       | Some "/"%char => a ++ b
       | _ => a ++ "/" ++ b
       end.

(** [os.path.dirname(p)] (posixpath): the head up to the last slash, with
    trailing slashes removed unless the head consists of slashes only. *)
Definition os_path_dirname (p : string) : string :=
  let l := list_ascii_of_string p in
  let fix head_rev (r : list ascii) : list ascii :=
    match r with
    | [] => []
    | c :: r' => if (c =? "/")%char then r else head_rev r'
    end in
  let fix strip (r : list ascii) : list ascii :=
    match r with
    | c :: r' => if (c =? "/")%char then strip r' else r
    | [] => []
    end in
  let h := head_rev (rev l) in
  let h' := if forallb (fun c => (c =? "/")%char) h then h else strip h in
  string_of_list_ascii (rev h').

Definition is_prefix (p s : string) : bool := String.prefix p s.

(** Python [dict] with string keys, as an association list in insertion
    order; assigning an existing key keeps its position. *)
Definition dict (V : Type) := list (string * V).

Fixpoint dict_get {V} (d : dict V) (k : string) : option V :=
  match d with
  | [] => None
  | (k', v) :: d' => if k =? k' then Some v else dict_get d' k
  end.

Definition dict_mem {V} (d : dict V) (k : string) : bool :=
  match dict_get d k with Some _ => true | None => false end.

Fixpoint dict_set {V} (d : dict V) (k : string) (v : V) : dict V :=
  match d with
  | [] => [(k, v)]
  | (k', v') :: d' => if k =? k' then (k', v) :: d' else (k', v') :: dict_set d' k v
  end.

Definition dict_values {V} (d : dict V) : list V := map snd d.

(** [set(a) == set(b)] for lists of strings. *)
Definition str_mem (x : string) (l : list string) : bool :=
  existsb (fun y => x =? y) l.

Definition set_eqb (a b : list string) : bool :=
  forallb (fun x => str_mem x b) a && forallb (fun x => str_mem x a) b.

(** Python [list.__getitem__] with an [int] index: negative indices count
    from the end, anything else out of range raises [IndexError]. *)
Definition py_getitem {A} (l : list A) (k : Z) : option A :=
  let n := Z.of_nat (length l) in
  if Z.leb 0 k && Z.ltb k n then nth_error l (Z.to_nat k)
  else if Z.leb (- n) k && Z.ltb k 0 then nth_error l (Z.to_nat (n + k))
  else None.

(** ** Exceptions *)

Inductive exc : Type :=
| HTTPException (status_code : Z) (detail : string)   (* fastapi *)
| HTTPStatusError (message : string)                  (* httpx raise_for_status *)
| TransportError (message : string)                   (* httpx, no response *)
| ReadError (message : string)                        (* shutil.ReadError *)
| FileNotFoundError (message : string)
| FileExistsError (message : string)
| IsADirectoryError (message : string)
| NotADirectoryError (message : string)
| KeyError (message : string)
| IndexError (message : string)
| ModuleError (message : string).                     (* raised by the module *)

(** [str(e)]; Starlette formats an [HTTPException] as "code: detail". *)
Definition py_str_exc (e : exc) : string :=
  match e with
  | HTTPException c d => py_str_of_Z c ++ ": " ++ d
  | HTTPStatusError m | TransportError m | ReadError m | FileNotFoundError m
  | FileExistsError m | IsADirectoryError m | NotADirectoryError m | KeyError m | IndexError m
  | ModuleError m => m
  end.

(** ** Observable effects, file system and state *)

Inductive node : Type := Absent | File | Dir.

Definition node_eqb (a b : node) : bool :=
  match a, b with
  | Absent, Absent | File, File | Dir, Dir => true
  | _, _ => false
  end.

Inductive event : Type :=
| EvReadConfig (config_path : string)
| EvMkdtemp (handle : nat) (path : string)
| EvRmtree (handle : nat) (path : string)
| EvMakedirs (path : string)
| EvGet (url target : string)
| EvPut (url source : string) (headers : list (string * string))
| EvPack (root_dir archive : string)
| EvModuleInitialize (genotype_dirs_map : dict string)
| EvModuleGenerate (parents children : list string)
| EvModuleEvaluate (genotype_dirs phenotype_dirs : list string).

Record state : Type := mkstate {
  trace : list event;
  fs : string -> node;
  ntmp : nat;
  ngather : nat
}.

Inductive res (A : Type) : Type :=
| Ok (a : A)
| Err (e : exc).
Arguments Ok {A} a.
Arguments Err {A} e.

Definition M (A : Type) : Type := state -> res A * state.

Definition ret {A} (a : A) : M A := fun s => (Ok a, s).

Definition bind {A B} (m : M A) (f : A -> M B) : M B :=
  fun s => match m s with
           | (Ok a, s') => f a s'
           | (Err e, s') => (Err e, s')
           end.

Definition raise {A} (e : exc) : M A := fun s => (Err e, s).

(** [try: m except Exception as e: h(e)] *)
Definition catch {A} (m : M A) (h : exc -> M A) : M A :=
  fun s => match m s with
           | (Ok a, s') => (Ok a, s')
           | (Err e, s') => h e s'
           end.

(** [try: m finally: fin] *)
Definition try_finally {A} (m : M A) (fin : M unit) : M A :=
  fun s => let (r, s1) := m s in
           let (rf, s2) := fin s1 in
           match rf with
           | Ok _ => (r, s2)
           | Err e => (Err e, s2)
           end.

Notation "x <- m ;; k" := (bind m (fun x => k))
  (at level 61, m at next level, right associativity).
Notation "m ;; k" := (bind m (fun _ => k))
  (at level 61, right associativity).

Definition emit (ev : event) : M unit :=
  fun s => (Ok tt, mkstate (trace s ++ [ev]) (fs s) (ntmp s) (ngather s)).

Definition get_fs : M (string -> node) := fun s => (Ok (fs s), s).

Definition set_node (p : string) (n : node) : M unit :=
  fun s => (Ok tt, mkstate (trace s)
                     (fun q => if q =? p then n else fs s q) (ntmp s) (ngather s)).

Definition path_exists (p : string) : M bool :=
  fun s => (Ok (negb (node_eqb (fs s p) Absent)), s).

Definition path_isdir (p : string) : M bool :=
  fun s => (Ok (node_eqb (fs s p) Dir), s).

Fixpoint mapM {A B} (f : A -> M B) (l : list A) : M (list B) :=
  match l with
  | [] => ret []
  | x :: l' => y <- f x;; ys <- mapM f l';; ret (y :: ys)
  end.

Fixpoint iterM {A} (f : A -> M unit) (l : list A) : M unit :=
  match l with
  | [] => ret tt
  | x :: l' => f x;; iterM f l'
  end.

Definition write_files (ps : list string) : M unit := iterM (fun p => set_node p File) ps.

(** ** The environment: everything outside the SDK *)

Record phenotype_file_config : Type := mkpf {
  pf_name : string;
  pf_content_type : string
}.

(** The fields of [core/module_config.Config] the routes read:
    the keys of [initialize.root_individuals] and [evaluate.phenotype]. *)
Record config : Type := mkconfig {
  cfg_root_individuals : list string;
  cfg_phenotype : dict phenotype_file_config
}.

(** What [module.config(path)] does. *)
Inductive config_outcome : Type :=
| CfgLoaded (c : config)
| CfgNotFound
| CfgInvalid (message : string).

(** The response to a streamed GET: its status, then whether the body
    arrives in full ([None]) or the stream breaks ([Some e]); or no response. *)
Inductive get_outcome : Type :=
| GetResponse (status : Z) (body_error : option exc)
| GetNoResponse (e : exc).

(** The response to a PUT, or no response. *)
Inductive put_outcome : Type :=
| PutResponse (status : Z)
| PutNoResponse (e : exc).

(** The tar archive served at a URL: not a readable tar file, or its
    members (relative names and kinds) in archive order. *)
Inductive archive : Type :=
| BadArchive (message : string)
| Members (members : list (string * node)).

Record env : Type := mkenv {
  configs_dir : option string;                     (* app.state.configs_dir *)
  config_of : string -> config_outcome;            (* module.config *)
  get_of : string -> get_outcome;                  (* object store, GET *)
  archive_of : string -> archive;                  (* bytes served by a GET url *)
  put_of : string -> put_outcome;                  (* object store, PUT *)
  size_of : string -> nat;                         (* st_size of a file *)
  sched_of : nat -> nat -> list nat;               (* completion order of the k-th gather of n tasks *)
  initialize_of : dict string -> list string * option exc;
  generate_of : list string -> list string -> list string * res (list (list Z));
  evaluate_of : list string -> list string -> list string * option exc
}.

Section Transfers.
Variable E : env.

(** [get_config_from_request] *)
Definition get_config_from_request (config_name : string) : M config :=
  match configs_dir E with
  | None =>
      raise (HTTPException 500
        "Module is not properly configured. Missing app.state.configs_dir.")
  | Some dir =>
      let config_path := os_path_join dir config_name in
      emit (EvReadConfig config_path);;
      match config_of E config_path with
      | CfgLoaded c => ret c
      | CfgNotFound =>
          raise (HTTPException 404 ("Config file '" ++ config_name ++ "' not found."))
      | CfgInvalid m =>
          raise (HTTPException 400 ("Failed to load or validate config file: " ++ m))
      end
  end.

(** [httpx.Response.is_success] *)
Definition is_success (status : Z) : bool := Z.leb 200 status && Z.ltb status 300.

Definition raise_for_status (status : Z) : M unit :=
  if is_success status then ret tt
  else raise (HTTPStatusError ("HTTP status " ++ py_str_of_Z status)).

(** What the file system holds at the directory containing [p]; the root
    and the working directory (the parent [""] of a bare name) always exist. *)
Definition parent_node (f : string -> node) (p : string) : node :=
  let parent := os_path_dirname p in
  if (parent =? "") || (parent =? "/") then Dir else f parent.

(** [aiofiles.open(path, "wb")]: [open(2)] with [O_CREAT|O_TRUNC] fails
    with ENOENT when the parent directory is missing, with ENOTDIR when it is
    a file, and with EISDIR when [path] is a directory. *)
Definition open_for_write (p : string) : M unit :=
  f <- get_fs;;
  match parent_node f p, f p with
  | Absent, _ => raise (FileNotFoundError p)
  | File, _ => raise (NotADirectoryError p)
  | Dir, Dir => raise (IsADirectoryError p)
  | Dir, _ => set_node p File
  end.

(** [download_file_streamed] *)
Definition download_file_streamed (url target_path : string) : M unit :=
  emit (EvGet url target_path);;
  match get_of E url with
  | GetNoResponse e => raise e
  | GetResponse status body_error =>
      raise_for_status status;;
      open_for_write target_path;;
      match body_error with
      | None => ret tt
      | Some e => raise e
      end
  end.

(** [upload_file_streamed] *)
Definition upload_file_streamed (url source_path content_type : string) : M unit :=
  f <- get_fs;;
  match f source_path with
  | Absent => raise (FileNotFoundError source_path)
  | Dir => raise (IsADirectoryError source_path)
  | File =>
      let file_size := size_of E source_path in
      let headers := [("Content-Type", content_type);
                      ("Content-Length", py_str_of_nat file_size)] in
      emit (EvPut url source_path headers);;
      match put_of E url with
      | PutNoResponse e => raise e
      | PutResponse status => raise_for_status status
      end
  end.

Definition tmp_dir_name (k : nat) : string := "/tmp/tmp" ++ py_str_of_nat k.

(** [tempfile.mkdtemp]: a new, empty directory, with a fresh handle. The
    name is derived from the handle rather than drawn at random, and the
    model puts an empty directory there whatever it held before: the
    properties below do not rely on the directory being new or empty. *)
Definition mkdtemp : M (nat * string) :=
  fun s =>
    let k := ntmp s in
    let d := tmp_dir_name k in
    (Ok (k, d), mkstate (trace s ++ [EvMkdtemp k d])
                        (fun q => if q =? d then Dir
                                  else if is_prefix (d ++ "/") q then Absent
                                  else fs s q) (S k) (ngather s)).

(** [shutil.rmtree(d, ignore_errors=...)] on this file system: a directory
    is removed with everything under it; on a path that is missing or is not
    a directory the deletion fails ([FileNotFoundError] from [os.lstat],
    [NotADirectoryError] from [os.scandir]) and removes nothing. *)
Definition rmtree_fs (d : string) (f : string -> node) : string -> node :=
  match f d with
  | Dir => fun q => if (q =? d) || is_prefix (d ++ "/") q then Absent else f q
  | _ => f
  end.

Definition rmtree_error (d : string) (f : string -> node) : option exc :=
  match f d with
  | Dir => None
  | Absent => Some (FileNotFoundError d)
  | File => Some (NotADirectoryError d)
  end.

(** The failure is raised unless [ignore_errors] is set, in which case it
    is dropped. *)
Definition shutil_rmtree (ignore_errors : bool) (k : nat) (d : string) : M unit :=
  fun s =>
    let s' := mkstate (trace s ++ [EvRmtree k d]) (rmtree_fs d (fs s)) (ntmp s) (ngather s) in
    match rmtree_error d (fs s) with
    | None => (Ok tt, s')
    | Some e => if ignore_errors then (Ok tt, s') else (Err e, s')
    end.

(** [asyncio.to_thread(shutil.rmtree, tmp_dir, ignore_errors=True)] *)
Definition rmtree_ignore_errors (k : nat) (d : string) : M unit :=
  shutil_rmtree true k d.

(** [manage_tmp_dir]: [mkdtemp], then the block, then [rmtree] in [finally]. *)
Definition manage_tmp_dir {A} (body : string -> M A) : M A :=
  kd <- mkdtemp;;
  let '(k, d) := kd in
  try_finally (body d) (rmtree_ignore_errors k d).

(** The missing ancestors of a path, outermost first, as directories
    (the recursion of [os.makedirs] on [head]). *)
Fixpoint make_ancestors (fuel : nat) (p : string) : M unit :=
  match fuel with
  | O => ret tt
  | S fuel' =>
      if p =? "" then ret tt
      else
        f <- get_fs;;
        match f p with
        | Absent => make_ancestors fuel' (os_path_dirname p);; set_node p Dir
        | _ => ret tt
        end
  end.

(** [os.makedirs(p, exist_ok=...)] *)
Definition makedirs (p : string) (exist_ok : bool) : M unit :=
  f <- get_fs;;
  match f p with
  | Absent =>
      emit (EvMakedirs p);;
      make_ancestors (String.length p) (os_path_dirname p);;
      set_node p Dir
  | Dir => if exist_ok then ret tt else raise (FileExistsError p)
  | File => raise (FileExistsError p)
  end.

(** [os.remove] *)
Definition remove_file (p : string) : M unit :=
  f <- get_fs;;
  match f p with
  | Absent => raise (FileNotFoundError p)
  | Dir => raise (IsADirectoryError p)
  | File => set_node p Absent
  end.

(** Extraction of one tar member (Python 3.13 [tarfile]): missing parent
    directories are created first; then a directory over an existing
    directory is kept, over anything else [FileExistsError]; a regular file
    replaces a file and fails on a directory. *)
Definition extract_member (target_dir : string) (m : string * node) : M unit :=
  let '(name, kind) := m in
  let p := os_path_join target_dir name in
  let upperdirs := os_path_dirname p in
  make_ancestors (String.length upperdirs) upperdirs;;
  f <- get_fs;;
  match kind, f p with
  | Dir, Absent => set_node p Dir
  | Dir, Dir => ret tt
  | Dir, File => raise (FileExistsError p)
  | _, Dir => raise (IsADirectoryError p)
  | _, _ => set_node p File
  end.

(** [shutil.unpack_archive(archive, target_dir, "tar")] where [archive]
    holds what was downloaded from [url]. *)
Definition unpack_archive (url target_dir : string) : M unit :=
  match archive_of E url with
  | BadArchive m => raise (ReadError m)
  | Members ms => iterM (extract_member target_dir) ms
  end.

Definition missing_genotype_error : exc :=
  FileNotFoundError "'genotype/' directory not found in tar archive.".

Definition genotype_tmp_file (target_dir : string) : string :=
  os_path_join target_dir "genotype.tar.tmp".

(** Steps 1 and 2 of [download_and_unpack_genotype], its [try] block. *)
Definition fetch_and_unpack (get_url target_dir : string) : M unit :=
  download_file_streamed get_url (genotype_tmp_file target_dir);;
  unpack_archive get_url target_dir.

(** Step 3, its [finally] block. *)
Definition remove_tmp_archive (target_dir : string) : M unit :=
  let tmp_file := genotype_tmp_file target_dir in
  ex <- path_exists tmp_file;;
  if ex then remove_file tmp_file else ret tt.

(** [download_and_unpack_genotype] *)
Definition download_and_unpack_genotype (get_url target_dir : string) : M string :=
  try_finally (fetch_and_unpack get_url target_dir) (remove_tmp_archive target_dir);;
  let genotype_dir := os_path_join target_dir "genotype" in
  isdir <- path_isdir genotype_dir;;
  if negb isdir then raise missing_genotype_error else ret genotype_dir.

(** *** [asyncio.gather] over a list of tasks without [return_exceptions]

    The scheduler decides the order in which the tasks complete
    ([sched_of]; indices it omits complete last, in index order).  Each task
    is run to completion in that order.  The first task of that order that
    raises makes [gather] raise the same exception at once: the tasks not yet
    completed are not cancelled but go on in the background, outside the
    awaiting coroutine, so their effects are not part of the state [gather]
    returns.  When no task raises, the results come back in task order. *)

Fixpoint nodup_first (seen : list nat) (l : list nat) : list nat :=
  match l with
  | [] => []
  | i :: l' =>
      if existsb (Nat.eqb i) seen then nodup_first seen l'
      else i :: nodup_first (i :: seen) l'
  end.

Definition completion_order (n : nat) (o : list nat) : list nat :=
  nodup_first [] (filter (fun i => Nat.ltb i n) (o ++ seq 0 n)).

Fixpoint gather_run {A} (tasks : list (M A)) (order : list nat)
    (done : list (nat * A)) : M (list (nat * A)) :=
  match order with
  | [] => ret done
  | i :: order' =>
      match nth_error tasks i with
      | Some t => a <- t;; gather_run tasks order' ((i, a) :: done)
      | None => gather_run tasks order' done
      end
  end.

Fixpoint assoc_nat {A} (i : nat) (l : list (nat * A)) : option A :=
  match l with
  | [] => None
  | (j, a) :: l' => if Nat.eqb i j then Some a else assoc_nat i l'
  end.

Definition next_gather : M nat :=
  fun s => (Ok (ngather s), mkstate (trace s) (fs s) (ntmp s) (S (ngather s))).

Definition gather {A} (dflt : A) (tasks : list (M A)) : M (list A) :=
  k <- next_gather;;
  let n := length tasks in
  done <- gather_run tasks (completion_order n (sched_of E k n)) [];;
  ret (map (fun i => match assoc_nat i done with Some a => a | None => dflt end)
           (seq 0 n)).

(** [download_and_unpack_genotypes]: the annotated result type is
    [list[str | Exception]]; the values [gather] returns are the [str]s. *)
Definition download_and_unpack_genotypes (pairs : list (string * string))
    : M (list (string + exc)) :=
  let tasks := map (fun '(get_url, target_dir) =>
                      download_and_unpack_genotype get_url target_dir) pairs in
  vs <- gather "" tasks;;
  ret (map inl vs).

(** [shutil.make_archive(base_name, "tar", root_dir, base_dir="genotype")] *)
Definition make_archive (base_name root_dir : string) : M string :=
  let archive_path := base_name ++ ".tar" in
  f <- get_fs;;
  match f (os_path_join root_dir "genotype") with
  | Absent => raise (FileNotFoundError (os_path_join root_dir "genotype"))
  | _ =>
      emit (EvPack (os_path_join root_dir "genotype") archive_path);;
      set_node archive_path File;;
      ret archive_path
  end.

(** [pack_and_upload_genotype] *)
Definition pack_and_upload_genotype (source_dir put_url : string) : M unit :=
  manage_tmp_dir (fun tmp_dir =>
    let base_name := os_path_join tmp_dir "genotype" in
    archive_path <- make_archive base_name source_dir;;
    upload_file_streamed put_url archive_path "application/x-tar").

(** [pack_and_upload_genotypes] *)
Definition pack_and_upload_genotypes (pairs : list (string * string)) : M unit :=
  gather tt (map (fun '(source_dir, put_url) =>
                    pack_and_upload_genotype source_dir put_url) pairs);;
  ret tt.

(** The uploads [upload_phenotype] starts, as (url, file, content type),
    in the order of [config.evaluate.phenotype]. *)
Fixpoint phenotype_uploads_go (phenotype_dir : string) (put_urls : dict string)
    (items : dict phenotype_file_config) : M (list (string * string * string)) :=
  match items with
  | [] => ret []
  | (key, pfc) :: items' =>
      let file_path := os_path_join phenotype_dir (pf_name pfc) in
      present <- (match dict_get put_urls key with
                  | Some _ => path_exists file_path
                  | None => ret false
                  end);;
      rest <- phenotype_uploads_go phenotype_dir put_urls items';;
      match dict_get put_urls key with
      | Some url =>
          if present then ret ((url, file_path, pf_content_type pfc) :: rest)
          else ret rest
      | None => ret rest
      end
  end.

Definition phenotype_uploads (phenotype_dir : string) (put_urls : dict string)
    (c : config) : M (list (string * string * string)) :=
  phenotype_uploads_go phenotype_dir put_urls (cfg_phenotype c).

(** [upload_phenotype] *)
Definition upload_phenotype (phenotype_dir : string) (put_urls : dict string)
    (c : config) : M unit :=
  ups <- phenotype_uploads phenotype_dir put_urls c;;
  let tasks := map (fun '(url, file_path, ct) => upload_file_streamed url file_path ct) ups in
  match tasks with
  | [] => ret tt
  | _ => gather tt tasks;; ret tt
  end.

(** [upload_phenotypes] *)
Definition upload_phenotypes (pairs : list (string * dict string)) (c : config) : M unit :=
  let tasks := map (fun '(phenotype_dir, put_urls) =>
                      upload_phenotype phenotype_dir put_urls c) pairs in
  match tasks with
  | [] => ret tt
  | _ => gather tt tasks;; ret tt
  end.

End Transfers.

(** [try: x = m except ...]: the outcome of [m] as a value. *)
Definition attempt {A} (m : M A) : M (res A) :=
  fun s => let (r, s') := m s in (Ok r, s').

(** ** Requests and responses ([starbreeder_sdk/schemas.py]) *)

Record root_individual_input : Type := mkroot {
  root_id : string;
  root_key : string;
  root_genotype_put_url : string
}.

Record initialize_request : Type := mkinit {
  init_config_name : string;
  init_root_individuals : list root_individual_input
}.

Record individual_output : Type := mkout {
  out_id : string;
  out_parent_ids : list string
}.

Record parent_individual_input : Type := mkparent {
  parent_id : string;
  parent_genotype_get_url : string
}.

Record child_individual_input : Type := mkchild {
  child_id : string;
  child_genotype_put_url : string
}.

Record generate_request : Type := mkgen {
  gen_config_name : string;
  gen_parent_individuals : list parent_individual_input;
  gen_child_individuals : list child_individual_input
}.

Record evaluate_individual_input : Type := mkevin {
  ev_id : string;
  ev_genotype_get_url : string;
  ev_phenotype_put_urls : dict string
}.

Record evaluate_request : Type := mkeval {
  eval_config_name : string;
  eval_individuals : list evaluate_individual_input
}.

Record evaluate_individual_output : Type := mkevout {
  evo_id : string;
  evo_status : string;
  evo_message : option string
}.

Section Routes.
Variable E : env.

(** ** The plugged module, run through [asyncio.to_thread] *)

Definition module_initialize (genotype_dirs_map : dict string) : M unit :=
  emit (EvModuleInitialize genotype_dirs_map);;
  let '(written, err) := initialize_of E genotype_dirs_map in
  write_files written;;
  match err with None => ret tt | Some e => raise e end.

Definition module_generate (parents children : list string) : M (list (list Z)) :=
  emit (EvModuleGenerate parents children);;
  let '(written, r) := generate_of E parents children in
  write_files written;;
  match r with Ok p => ret p | Err e => raise e end.

Definition module_evaluate (genotype_dirs phenotype_dirs : list string) : M unit :=
  emit (EvModuleEvaluate genotype_dirs phenotype_dirs);;
  let '(written, err) := evaluate_of E genotype_dirs phenotype_dirs in
  write_files written;;
  match err with None => ret tt | Some e => raise e end.

(** ** [handle_initialize] *)

(** Step 3 of [handle_initialize]. *)
Fixpoint make_root_dirs (tmp_dir : string) (rs : list root_individual_input)
    (m : dict string) : M (dict string) :=
  match rs with
  | [] => ret m
  | r :: rs' =>
      let genotype_dir := os_path_join (os_path_join tmp_dir (root_key r)) "genotype" in
      makedirs genotype_dir false;;
      make_root_dirs tmp_dir rs' (dict_set m (root_key r) genotype_dir)
  end.

Definition initialize_body (c : config) (req : initialize_request) (tmp_dir : string)
    : M unit :=
  (* 3. Create directories for each root genotype *)
  genotype_dirs_map <- make_root_dirs tmp_dir (init_root_individuals req) [];;
  (* 4. Call core logic to generate root genotypes *)
  module_initialize genotype_dirs_map;;
  (* 5. Archive and upload all root genotypes concurrently *)
  pack_and_upload_genotypes E
    (map (fun r => (os_path_join tmp_dir (root_key r), root_genotype_put_url r))
         (init_root_individuals req)).

(** The detail of the 400 error goes on with the two sorted key lists. *)
Definition handle_initialize (req : initialize_request) : M (list individual_output) :=
  (* 1. Load config *)
  c <- get_config_from_request E (init_config_name req);;
  (* 2. Validate request against config *)
  let config_root_keys := cfg_root_individuals c in
  let request_root_keys := map root_key (init_root_individuals req) in
  if negb (set_eqb config_root_keys request_root_keys) then
    raise (HTTPException 400 "Mismatch between root keys in config and request. ")
  else
    manage_tmp_dir (fun tmp_dir =>
      catch (initialize_body c req tmp_dir)
        (fun e => raise (HTTPException 500
                   ("Failed to initialize root population: " ++ py_str_exc e))));;
    (* 6. Return the success response *)
    ret (map (fun r => mkout (root_id r) []) (init_root_individuals req)).

(** ** [handle_generate] *)

(** The loop "Filter out download failures" of [handle_generate]. *)
Fixpoint valid_parent_results (parents : list parent_individual_input) (i : nat)
    (rs : list (string + exc)) : M (list string) :=
  match rs with
  | [] => ret []
  | inr _ :: _ =>
      match nth_error parents i with
      | Some p =>
          raise (HTTPException 500
                   ("Failed to download genotype for parent " ++ parent_id p))
      | None => raise (IndexError "list index out of range")
      end
  | inl g :: rs' => vs <- valid_parent_results parents (S i) rs';; ret (g :: vs)
  end.

(** Step 3 of [handle_generate]. *)
Fixpoint make_child_dirs (tmp_dir : string) (cs : list child_individual_input)
    (m : dict string) : M (dict string) :=
  match cs with
  | [] => ret m
  | ch :: cs' =>
      let child_dir := os_path_join (os_path_join tmp_dir "children") (child_id ch) in
      let genotype_dir := os_path_join child_dir "genotype" in
      makedirs genotype_dir false;;
      make_child_dirs tmp_dir cs' (dict_set m (child_id ch) genotype_dir)
  end.

Definition parent_tmp_dir (tmp_dir : string) (p : parent_individual_input) : string :=
  os_path_join (os_path_join tmp_dir "parents") (parent_id p).

Definition generate_body (c : config) (req : generate_request) (tmp_dir : string)
    : M (list (list Z)) :=
  (* 2. Download and unpack parent genotypes concurrently *)
  pairs <- mapM (fun p =>
             let individual_tmp_dir := parent_tmp_dir tmp_dir p in
             makedirs individual_tmp_dir false;;
             ret (parent_genotype_get_url p, individual_tmp_dir))
           (gen_parent_individuals req);;
  download_results <- download_and_unpack_genotypes E pairs;;
  (* Filter out download failures *)
  valid_parent_dirs <- valid_parent_results (gen_parent_individuals req) 0 download_results;;
  (* 3. Create directories for each child genotype *)
  child_genotype_dirs_map <- make_child_dirs tmp_dir (gen_child_individuals req) [];;
  (* 4. Call core logic to generate child genotypes *)
  let child_dirs := dict_values child_genotype_dirs_map in
  parentage_indices <- module_generate valid_parent_dirs child_dirs;;
  (* 5. Archive and upload all child genotypes concurrently *)
  pack_and_upload_genotypes E
    (map (fun ch => (os_path_join (os_path_join tmp_dir "children") (child_id ch),
                     child_genotype_put_url ch))
         (gen_child_individuals req));;
  ret parentage_indices.

(** Step 6: [[parent_ids[p_idx] for p_idx in parentage_indices[i]]]. *)
Definition generate_response (parent_ids : list string) (parentage_indices : list (list Z))
    (children : list child_individual_input) : M (list individual_output) :=
  mapM (fun '(i, ch) =>
          match nth_error parentage_indices i with
          | None => raise (IndexError "list index out of range")
          | Some idxs =>
              pids <- mapM (fun p_idx =>
                              match py_getitem parent_ids p_idx with
                              | Some pid => ret pid
                              | None => raise (IndexError "list index out of range")
                              end) idxs;;
              ret (mkout (child_id ch) pids)
          end)
       (combine (seq 0 (length children)) children).

Definition handle_generate (req : generate_request) : M (list individual_output) :=
  (* 1. Load config *)
  rc <- attempt (get_config_from_request E (gen_config_name req));;
  match rc with
  | Err (HTTPException _ detail) =>
      raise (HTTPException 500 ("Configuration error: " ++ detail))
  | Err e => raise e
  | Ok c =>
      parentage_indices <- manage_tmp_dir (fun tmp_dir =>
        catch (generate_body c req tmp_dir)
          (fun e => raise (HTTPException 500
                     ("Failed to create new population: " ++ py_str_exc e))));;
      (* 6. Return the success response *)
      generate_response (map parent_id (gen_parent_individuals req))
        parentage_indices (gen_child_individuals req)
  end.

(** ** [handle_evaluate] *)

Definition download_failed_message : string := "Failed during download/unpack phase".

(** Step 3: split the individuals on their download results. *)
Fixpoint prepare_individuals
    (rs : list (evaluate_individual_input * (string + exc)))
    (to_eval : list evaluate_individual_input) (gdirs pdirs : list string)
    (statuses : dict evaluate_individual_output)
    : M (list evaluate_individual_input * list string * list string
         * dict evaluate_individual_output) :=
  match rs with
  | [] => ret (to_eval, gdirs, pdirs, statuses)
  | (ind, inr _) :: rs' =>
      prepare_individuals rs' to_eval gdirs pdirs
        (dict_set statuses (ev_id ind)
           (mkevout (ev_id ind) "error" (Some download_failed_message)))
  | (ind, inl genotype_dir) :: rs' =>
      let phenotype_dir := os_path_join (os_path_dirname genotype_dir) "phenotype" in
      makedirs phenotype_dir true;;
      prepare_individuals rs' (to_eval ++ [ind]) (gdirs ++ [genotype_dir])
        (pdirs ++ [phenotype_dir]) statuses
  end.

Definition evaluate_body (c : config) (req : evaluate_request) (tmp_dir : string)
    : M (list evaluate_individual_output) :=
  (* 2. Download and unpack all genotypes concurrently *)
  pairs <- mapM (fun ind =>
             let individual_tmp_dir := os_path_join tmp_dir (ev_id ind) in
             makedirs individual_tmp_dir false;;
             ret (ev_genotype_get_url ind, individual_tmp_dir))
           (eval_individuals req);;
  download_results <- download_and_unpack_genotypes E pairs;;
  (* 3. Prepare individuals for evaluation *)
  acc <- prepare_individuals (combine (eval_individuals req) download_results)
           [] [] [] [];;
  let '(individuals_to_eval, valid_genotype_dirs, valid_phenotype_dirs, eval_statuses) := acc in
  (* 4. Run batch evaluation if there are any valid individuals *)
  statuses <- (match individuals_to_eval with
               | [] => ret eval_statuses
               | _ =>
                   module_evaluate valid_genotype_dirs valid_phenotype_dirs;;
                   (* 5. Upload all phenotypes concurrently *)
                   upload_phenotypes E
                     (combine valid_phenotype_dirs
                              (map ev_phenotype_put_urls individuals_to_eval)) c;;
                   ret (fold_left (fun st ind =>
                                     dict_set st (ev_id ind) (mkevout (ev_id ind) "success" None))
                                  individuals_to_eval eval_statuses)
               end);;
  (* 6. Compile final responses *)
  mapM (fun ind => match dict_get statuses (ev_id ind) with
                   | Some o => ret o
                   | None => raise (KeyError (ev_id ind))
                   end)
       (eval_individuals req).

Definition handle_evaluate (req : evaluate_request) : M (list evaluate_individual_output) :=
  (* 1. Load config *)
  rc <- attempt (get_config_from_request E (eval_config_name req));;
  match rc with
  | Err (HTTPException _ detail) =>
      ret (map (fun ind => mkevout (ev_id ind) "error" (Some ("Configuration error: " ++ detail)))
               (eval_individuals req))
  | Err e => raise e
  | Ok c =>
      manage_tmp_dir (fun tmp_dir =>
        catch (evaluate_body c req tmp_dir)
          (fun e => ret (map (fun ind => mkevout (ev_id ind) "error" (Some (py_str_exc e)))
                             (eval_individuals req))))
  end.

End Routes.

(** ** A sample deployment

    A concrete environment for running the handlers: configs live under
    [/cfg], a GET of the url ["bad"] answers 404 and every other GET serves
    an archive holding [genotype/g.bin], every PUT answers 200, every file
    is 42 bytes, every [gather] completes its tasks in index order, and the
    module's [generate]/[evaluate] succeed, writing one file per output
    directory. *)

Definition sample_config : config :=
  mkconfig ["a"; "b"] [("img", mkpf "img.png" "image/png")].

Definition sample_env (cfg : config_outcome) : env :=
  mkenv (Some "/cfg") (fun _ => cfg)
    (fun u => if u =? "bad" then GetResponse 404 None else GetResponse 200 None)
    (fun _ => Members [("genotype/g.bin", File)])
    (fun _ => PutResponse 200) (fun _ => 42) (fun _ n => seq 0 n)
    (fun _ => ([], None))
    (fun ps cs => (map (fun c => c ++ "/x") cs, Ok [[0%Z]; [1%Z]; [0%Z; 1%Z]]))
    (fun gs ps => (map (fun p => p ++ "/img.png") ps, None)).

Definition sample_state : state := mkstate [] (fun _ => Absent) 0 0.

(** The same, with the directories [/w], [/w/a] and [/w/b] in place. *)
Definition sample_dirs_state : state :=
  mkstate [] (fun p => if (p =? "/w") || (p =? "/w/a") || (p =? "/w/b") then Dir else Absent)%bool 0 0.

(** An evaluate request for three individuals, the second of which has a
    genotype url that answers 404. *)
Definition sample_evaluate_request : evaluate_request :=
  mkeval "c" [mkevin "i1" "u1" [("img", "p1")];
              mkevin "i2" "bad" [("img", "p2")];
              mkevin "i3" "u3" [("img", "p3")]].

(** * Properties *)

Close Scope string_scope.
Open Scope list_scope.

(** ** Temporary directories are bracketed

    [wb m]: running [m] only appends to the trace, never decreases the
    [mkdtemp] counter, and every [mkdtemp]/[rmtree] event it appends carries
    a handle that [m] allocated itself. *)

Definition handle_of (ev : event) : option nat :=
  match ev with
  | EvMkdtemp k _ | EvRmtree k _ => Some k
  | _ => None
  end.

Definition handles_in (lo hi : nat) (ev : event) : Prop :=
  match handle_of ev with
  | Some k => lo <= k < hi
  | None => True
  end.

Definition wb {A} (m : M A) : Prop :=
  forall s, exists new,
    trace (snd (m s)) = trace s ++ new /\
    ntmp s <= ntmp (snd (m s)) /\
    Forall (handles_in (ntmp s) (ntmp (snd (m s)))) new.

(** [quiet m]: [m] appends no workspace event and allocates no handle. *)
Definition quiet {A} (m : M A) : Prop :=
  forall s, exists new,
    trace (snd (m s)) = trace s ++ new /\
    ntmp (snd (m s)) = ntmp s /\
    Forall (fun ev => handle_of ev = None) new.

(** [pure m]: [m] leaves the state as it is. *)
Definition pure {A} (m : M A) : Prop := forall s, snd (m s) = s.

Create HintDb wb.

Lemma handles_in_mono lo hi lo' hi' ev :
  lo' <= lo -> hi <= hi' -> handles_in lo hi ev -> handles_in lo' hi' ev.
Proof. unfold handles_in; destruct (handle_of ev); lia. Qed.

Lemma Forall_handles_in_mono lo hi lo' hi' l :
  lo' <= lo -> hi <= hi' -> Forall (handles_in lo hi) l -> Forall (handles_in lo' hi') l.
Proof.
  intros H1 H2 HF; eapply Forall_impl; [|exact HF].
  intros; eapply handles_in_mono; eauto.
Qed.

Lemma quiet_wb {A} (m : M A) : quiet m -> wb m.
Proof.
  intros Hq s; destruct (Hq s) as (new & Ht & Hn & HF).
  exists new; repeat split; [exact Ht | lia |].
  eapply Forall_impl; [|exact HF].
  intros ev Hev; unfold handles_in; now rewrite Hev.
Qed.

Lemma pure_quiet {A} (m : M A) : pure m -> quiet m.
Proof.
  intros Hp s; exists []; rewrite Hp; repeat split; auto using app_nil_r.
Qed.

Lemma wb_bind {A B} (m : M A) (f : A -> M B) :
  wb m -> (forall a, wb (f a)) -> wb (bind m f).
Proof.
  intros Hm Hf s; unfold bind.
  destruct (Hm s) as (n1 & Ht1 & Hn1 & HF1).
  destruct (m s) as [[a|e] s1]; simpl in *.
  - destruct (Hf a s1) as (n2 & Ht2 & Hn2 & HF2).
    exists (n1 ++ n2); repeat split.
    + rewrite Ht2, Ht1, app_assoc; reflexivity.
    + lia.
    + apply Forall_app; split.
      * eapply Forall_handles_in_mono; [| |exact HF1]; lia.
      * eapply Forall_handles_in_mono; [| |exact HF2]; lia.
  - exists n1; repeat split; auto.
Qed.

Lemma quiet_bind {A B} (m : M A) (f : A -> M B) :
  quiet m -> (forall a, quiet (f a)) -> quiet (bind m f).
Proof.
  intros Hm Hf s; unfold bind.
  destruct (Hm s) as (n1 & Ht1 & Hn1 & HF1).
  destruct (m s) as [[a|e] s1]; simpl in *.
  - destruct (Hf a s1) as (n2 & Ht2 & Hn2 & HF2).
    exists (n1 ++ n2); repeat split.
    + rewrite Ht2, Ht1, app_assoc; reflexivity.
    + lia.
    + apply Forall_app; auto.
  - exists n1; repeat split; auto.
Qed.

Lemma pure_bind {A B} (m : M A) (f : A -> M B) :
  pure m -> (forall a, pure (f a)) -> pure (bind m f).
Proof.
  intros Hm Hf s; unfold bind.
  specialize (Hm s); destruct (m s) as [[a|e] s1]; simpl in *; subst;
    [apply Hf | reflexivity].
Qed.

Lemma wb_catch {A} (m : M A) (h : exc -> M A) :
  wb m -> (forall e, wb (h e)) -> wb (catch m h).
Proof.
  intros Hm Hh s; unfold catch.
  destruct (Hm s) as (n1 & Ht1 & Hn1 & HF1).
  destruct (m s) as [[a|e] s1]; simpl in *.
  - exists n1; repeat split; auto.
  - destruct (Hh e s1) as (n2 & Ht2 & Hn2 & HF2).
    exists (n1 ++ n2); repeat split.
    + rewrite Ht2, Ht1, app_assoc; reflexivity.
    + lia.
    + apply Forall_app; split.
      * eapply Forall_handles_in_mono; [| |exact HF1]; lia.
      * eapply Forall_handles_in_mono; [| |exact HF2]; lia.
Qed.

Lemma wb_try_finally {A} (m : M A) (fin : M unit) :
  wb m -> wb fin -> wb (try_finally m fin).
Proof.
  intros Hm Hf s; unfold try_finally.
  destruct (Hm s) as (n1 & Ht1 & Hn1 & HF1).
  destruct (m s) as [r s1]; simpl in *.
  destruct (Hf s1) as (n2 & Ht2 & Hn2 & HF2).
  destruct (fin s1) as [rf s2]; simpl in *.
  assert (Hgoal : exists new, trace s2 = trace s ++ new /\ ntmp s <= ntmp s2 /\
                   Forall (handles_in (ntmp s) (ntmp s2)) new).
  { exists (n1 ++ n2); repeat split.
    + rewrite Ht2, Ht1, app_assoc; reflexivity.
    + lia.
    + apply Forall_app; split.
      * eapply Forall_handles_in_mono; [| |exact HF1]; lia.
      * eapply Forall_handles_in_mono; [| |exact HF2]; lia. }
  destruct rf; exact Hgoal.
Qed.

Lemma wb_attempt {A} (m : M A) : wb m -> wb (attempt m).
Proof.
  intros Hm s; unfold attempt; destruct (Hm s) as (n & H).
  destruct (m s) as [r s']; exists n; exact H.
Qed.

Lemma quiet_attempt {A} (m : M A) : quiet m -> quiet (attempt m).
Proof.
  intros Hm s; unfold attempt; destruct (Hm s) as (n & H).
  destruct (m s) as [r s']; exists n; exact H.
Qed.

Lemma pure_ret {A} (a : A) : pure (ret a).
Proof. intro; reflexivity. Qed.

Lemma pure_raise {A} (e : exc) : pure (@raise A e).
Proof. intro; reflexivity. Qed.

Lemma pure_get_fs : pure get_fs.
Proof. intro; reflexivity. Qed.

Lemma pure_path_exists p : pure (path_exists p).
Proof. intro; reflexivity. Qed.

Lemma pure_path_isdir p : pure (path_isdir p).
Proof. intro; reflexivity. Qed.

Lemma quiet_set_node p n : quiet (set_node p n).
Proof. intro s; exists []; simpl; rewrite app_nil_r; auto. Qed.

Lemma quiet_next_gather : quiet next_gather.
Proof. intro s; exists []; simpl; rewrite app_nil_r; auto. Qed.

Lemma quiet_emit ev : handle_of ev = None -> quiet (emit ev).
Proof. intros H s; exists [ev]; simpl; auto. Qed.

Lemma wb_ret {A} (a : A) : wb (ret a).
Proof. apply quiet_wb, pure_quiet, pure_ret. Qed.

Lemma wb_raise {A} (e : exc) : wb (@raise A e).
Proof. apply quiet_wb, pure_quiet, pure_raise. Qed.

Lemma wb_quiet_emit ev : handle_of ev = None -> wb (emit ev).
Proof. intro; apply quiet_wb, quiet_emit; assumption. Qed.

#[export] Hint Resolve pure_ret pure_raise pure_get_fs pure_path_exists pure_path_isdir
  quiet_set_node quiet_next_gather wb_ret wb_raise : wb.
#[export] Hint Resolve pure_quiet quiet_wb : wb.
#[export] Hint Extern 1 (handle_of _ = None) => reflexivity : wb.
#[export] Hint Extern 2 (quiet (emit _)) => apply quiet_emit; reflexivity : wb.
#[export] Hint Extern 2 (wb (emit _)) => apply wb_quiet_emit; reflexivity : wb.

Lemma wb_mapM {A B} (f : A -> M B) l : (forall x, wb (f x)) -> wb (mapM f l).
Proof.
  intros Hf; induction l; simpl; [apply wb_ret|].
  apply wb_bind; [apply Hf|intro; apply wb_bind; [exact IHl|intro; apply wb_ret]].
Qed.

Lemma pure_mapM {A B} (f : A -> M B) l : (forall x, pure (f x)) -> pure (mapM f l).
Proof.
  intros Hf; induction l; simpl; [apply pure_ret|].
  apply pure_bind; [apply Hf|intro; apply pure_bind; [exact IHl|intro; apply pure_ret]].
Qed.

Lemma wb_iterM {A} (f : A -> M unit) l : (forall x, wb (f x)) -> wb (iterM f l).
Proof.
  intros Hf; induction l; simpl; [apply wb_ret|].
  apply wb_bind; [apply Hf|intro; exact IHl].
Qed.

Lemma quiet_iterM {A} (f : A -> M unit) l : (forall x, quiet (f x)) -> quiet (iterM f l).
Proof.
  intros Hf; induction l; simpl; [apply pure_quiet, pure_ret|].
  apply quiet_bind; [apply Hf|intro; exact IHl].
Qed.

Ltac wb_solve :=
  repeat lazymatch goal with
  | |- wb (bind _ _) => apply wb_bind
  | |- quiet (bind _ _) => apply quiet_bind
  | |- pure (bind _ _) => apply pure_bind
  | |- wb (catch _ _) => apply wb_catch
  | |- wb (try_finally _ _) => apply wb_try_finally
  | |- wb (attempt _) => apply wb_attempt
  | |- quiet (attempt _) => apply quiet_attempt
  | |- wb (match ?x with _ => _ end) => destruct x
  | |- quiet (match ?x with _ => _ end) => destruct x
  | |- pure (match ?x with _ => _ end) => destruct x
  | |- wb (if ?b then _ else _) => destruct b
  | |- quiet (if ?b then _ else _) => destruct b
  | |- pure (if ?b then _ else _) => destruct b
  | |- wb (mapM _ _) => apply wb_mapM
  | |- pure (mapM _ _) => apply pure_mapM
  | |- wb (iterM _ _) => apply wb_iterM
  | |- quiet (iterM _ _) => apply quiet_iterM
  | |- wb _ => solve [eauto 3 with wb]
  | |- quiet _ => solve [eauto 3 with wb]
  | |- pure _ => solve [eauto 3 with wb]
  | |- forall _, _ => intro
  end.


(** Whatever the deletion runs into, [rmtree_ignore_errors] returns. *)
Lemma rmtree_ignore_errors_run k d s :
  rmtree_ignore_errors k d s =
    (Ok tt, mkstate (trace s ++ [EvRmtree k d]) (rmtree_fs d (fs s)) (ntmp s) (ngather s)).
Proof. unfold rmtree_ignore_errors, shutil_rmtree; destruct (rmtree_error d (fs s)); reflexivity. Qed.

Lemma manage_tmp_dir_trace {A} (body : string -> M A) :
  (forall d, wb (body d)) ->
  forall s, exists w mid,
    trace (snd (manage_tmp_dir body s))
      = trace s ++ [EvMkdtemp (ntmp s) w] ++ mid ++ [EvRmtree (ntmp s) w] /\
    S (ntmp s) <= ntmp (snd (manage_tmp_dir body s)) /\
    Forall (handles_in (S (ntmp s)) (ntmp (snd (manage_tmp_dir body s)))) mid.
Proof.
  intros Hb s; unfold manage_tmp_dir, bind, mkdtemp, try_finally.
  set (d := tmp_dir_name (ntmp s)).
  match goal with |- context [body d ?s1] => set (s1' := s1) end.
  destruct (Hb d s1') as (mid & Ht & Hn & HF).
  destruct (body d s1') as [r s2]; exists d, mid.
  rewrite rmtree_ignore_errors_run; simpl in *; rewrite Ht; repeat split.
  - rewrite <- !app_assoc; reflexivity.
  - exact Hn.
  - exact HF.
Qed.

Lemma wb_manage_tmp_dir {A} (body : string -> M A) :
  (forall d, wb (body d)) -> wb (manage_tmp_dir body).
Proof.
  intros Hb s; destruct (manage_tmp_dir_trace body Hb s) as (w & mid & Ht & Hn & HF).
  exists ([EvMkdtemp (ntmp s) w] ++ mid ++ [EvRmtree (ntmp s) w]); repeat split.
  - exact Ht.
  - lia.
  - apply Forall_app; split; [constructor; [unfold handles_in; simpl; lia | constructor]|].
    apply Forall_app; split.
    + eapply Forall_handles_in_mono; [| |exact HF]; lia.
    + constructor; [unfold handles_in; simpl; lia | constructor].
Qed.

#[export] Hint Resolve wb_manage_tmp_dir : wb.

Lemma quiet_make_ancestors fuel p : quiet (make_ancestors fuel p).
Proof. revert p; induction fuel; simpl; wb_solve. Qed.
#[export] Hint Resolve quiet_make_ancestors : wb.

Lemma quiet_makedirs p b : quiet (makedirs p b).
Proof. unfold makedirs; wb_solve. Qed.

Lemma quiet_write_files ps : quiet (write_files ps).
Proof. unfold write_files; induction ps; simpl; wb_solve. Qed.

Lemma quiet_remove_file p : quiet (remove_file p).
Proof. unfold remove_file; wb_solve. Qed.

Lemma quiet_raise_for_status st : quiet (raise_for_status st).
Proof. unfold raise_for_status; wb_solve. Qed.

Lemma quiet_open_for_write p : quiet (open_for_write p).
Proof. unfold open_for_write; wb_solve. Qed.

#[export] Hint Resolve quiet_makedirs quiet_write_files quiet_remove_file
  quiet_raise_for_status quiet_open_for_write : wb.



Lemma quiet_get_config E n : quiet (get_config_from_request E n).
Proof. unfold get_config_from_request; wb_solve. Qed.

Lemma quiet_download_file_streamed E u t : quiet (download_file_streamed E u t).
Proof. unfold download_file_streamed; wb_solve. Qed.

Lemma quiet_upload_file_streamed E u p c : quiet (upload_file_streamed E u p c).
Proof. unfold upload_file_streamed; wb_solve. Qed.

Lemma quiet_extract_member t m : quiet (extract_member t m).
Proof. unfold extract_member; wb_solve. Qed.
#[export] Hint Resolve quiet_get_config quiet_download_file_streamed
  quiet_upload_file_streamed quiet_extract_member : wb.

Lemma quiet_try_finally {A} (m : M A) (fin : M unit) :
  quiet m -> quiet fin -> quiet (try_finally m fin).
Proof.
  intros Hm Hf s; unfold try_finally.
  destruct (Hm s) as (n1 & Ht1 & Hn1 & HF1).
  destruct (m s) as [r s1]; simpl in *.
  destruct (Hf s1) as (n2 & Ht2 & Hn2 & HF2).
  destruct (fin s1) as [rf s2]; simpl in *.
  assert (Hgoal : exists new, trace s2 = trace s ++ new /\ ntmp s2 = ntmp s /\
                   Forall (fun ev => handle_of ev = None) new).
  { exists (n1 ++ n2); repeat split.
    + rewrite Ht2, Ht1, app_assoc; reflexivity.
    + lia.
    + apply Forall_app; auto. }
  destruct rf; exact Hgoal.
Qed.
#[export] Hint Resolve quiet_try_finally : wb.

Lemma quiet_download_and_unpack_genotype E u t : quiet (download_and_unpack_genotype E u t).
Proof.
  unfold download_and_unpack_genotype, fetch_and_unpack, remove_tmp_archive, unpack_archive.
  wb_solve; apply quiet_try_finally; wb_solve.
Qed.

Lemma wb_gather_run {A} (tasks : list (M A)) order done :
  Forall wb tasks -> wb (gather_run tasks order done).
Proof.
  intros Ht; revert done; induction order as [|i order IH]; intro done; simpl.
  - apply wb_ret.
  - destruct (nth_error tasks i) as [t|] eqn:Hi; [|apply IH].
    apply wb_bind; [|intro; apply IH].
    eapply Forall_forall; [exact Ht|]; eapply nth_error_In; exact Hi.
Qed.

Lemma wb_gather {A} E (dflt : A) tasks : Forall wb tasks -> wb (gather E dflt tasks).
Proof. intros Ht; unfold gather; wb_solve; apply wb_gather_run; exact Ht. Qed.

Lemma Forall_map_intro {A B} (P : B -> Prop) (f : A -> B) l :
  (forall x, P (f x)) -> Forall P (map f l).
Proof. intros H; induction l; simpl; constructor; auto. Qed.

Lemma wb_download_and_unpack_genotypes E pairs : wb (download_and_unpack_genotypes E pairs).
Proof.
  unfold download_and_unpack_genotypes; apply wb_bind; [|intro; apply wb_ret].
  apply wb_gather, Forall_map_intro; intros [u t].
  apply quiet_wb, quiet_download_and_unpack_genotype.
Qed.

Lemma wb_make_archive b r : wb (make_archive b r).
Proof. unfold make_archive; wb_solve. Qed.

Lemma wb_pack_and_upload_genotypes E pairs : wb (pack_and_upload_genotypes E pairs).
Proof.
  unfold pack_and_upload_genotypes; apply wb_bind; [|intro; apply wb_ret].
  apply wb_gather, Forall_map_intro; intros [src u].
  unfold pack_and_upload_genotype; apply wb_manage_tmp_dir; intro d.
  apply wb_bind; [apply wb_make_archive|intro; apply quiet_wb, quiet_upload_file_streamed].
Qed.

Lemma pure_phenotype_uploads_go d u items : pure (phenotype_uploads_go d u items).
Proof. induction items as [|[k pfc] items IH]; simpl; wb_solve. Qed.

Lemma wb_upload_phenotype E d u c : wb (upload_phenotype E d u c).
Proof.
  unfold upload_phenotype, phenotype_uploads; apply wb_bind.
  - apply quiet_wb, pure_quiet, pure_phenotype_uploads_go.
  - intro ups; destruct (map _ ups) eqn:Hm; [apply wb_ret|].
    apply wb_bind; [|intro; apply wb_ret]; apply wb_gather; rewrite <- Hm.
    apply Forall_map_intro; intros [[x y] z]; apply quiet_wb, quiet_upload_file_streamed.
Qed.

Lemma wb_upload_phenotypes E pairs c : wb (upload_phenotypes E pairs c).
Proof.
  unfold upload_phenotypes; destruct (map _ pairs) eqn:Hm; [apply wb_ret|].
  apply wb_bind; [|intro; apply wb_ret]; apply wb_gather; rewrite <- Hm.
  apply Forall_map_intro; intros [x y]; apply wb_upload_phenotype.
Qed.

#[export] Hint Resolve quiet_download_and_unpack_genotype wb_download_and_unpack_genotypes
  wb_pack_and_upload_genotypes wb_upload_phenotypes wb_make_archive : wb.

Lemma wb_make_root_dirs t rs m : wb (make_root_dirs t rs m).
Proof. revert m; induction rs; simpl; wb_solve. Qed.

Lemma wb_make_child_dirs t cs m : wb (make_child_dirs t cs m).
Proof. revert m; induction cs; simpl; wb_solve. Qed.

Lemma pure_valid_parent_results ps i rs : pure (valid_parent_results ps i rs).
Proof. revert i; induction rs as [|[g|e] rs IH]; simpl; wb_solve. Qed.

Lemma wb_prepare_individuals rs a b c d : wb (prepare_individuals rs a b c d).
Proof. revert a b c d; induction rs as [|[ind [g|e]] rs IH]; simpl; wb_solve. Qed.

Lemma pure_generate_response pids pm cs : pure (generate_response pids pm cs).
Proof.
  unfold generate_response; apply pure_mapM; intros [i ch]; simpl; wb_solve.
Qed.

#[export] Hint Resolve wb_make_root_dirs wb_make_child_dirs pure_valid_parent_results
  wb_prepare_individuals pure_generate_response : wb.

Lemma wb_initialize_body E c req t : wb (initialize_body E c req t).
Proof. unfold initialize_body, module_initialize; wb_solve. Qed.

Lemma wb_generate_body E c req t : wb (generate_body E c req t).
Proof. unfold generate_body, module_generate; wb_solve. Qed.

Lemma wb_evaluate_body E c req t : wb (evaluate_body E c req t).
Proof. unfold evaluate_body, module_evaluate; wb_solve. Qed.

#[export] Hint Resolve wb_initialize_body wb_generate_body wb_evaluate_body : wb.

(** *** The request workspace *)








Lemma bind_Ok {A B} (m : M A) (f : A -> M B) s a s1 :
  m s = (Ok a, s1) -> bind m f s = f a s1.
Proof. intro H; unfold bind; rewrite H; reflexivity. Qed.

Lemma bind_Err {A B} (m : M A) (f : A -> M B) s e s1 :
  m s = (Err e, s1) -> bind m f s = (Err e, s1).
Proof. intro H; unfold bind; rewrite H; reflexivity. Qed.

Lemma attempt_run {A} (m : M A) s : attempt m s = (Ok (fst (m s)), snd (m s)).
Proof. unfold attempt; destruct (m s); reflexivity. Qed.





(** *** Set equality of key lists *)

Lemma str_mem_In x l : str_mem x l = true <-> In x l.
Proof.
  unfold str_mem; rewrite existsb_exists; split.
  - intros (y & Hy & Heq); apply String.eqb_eq in Heq; subst; exact Hy.
  - intro H; exists x; split; [exact H | apply String.eqb_refl].
Qed.

Lemma set_eqb_spec a b : set_eqb a b = true <-> (forall k, In k a <-> In k b).
Proof.
  unfold set_eqb; rewrite andb_true_iff, !forallb_forall; split.
  - intros [Ha Hb] k; split; intro H.
    + apply str_mem_In, Ha, H.
    + apply str_mem_In, Hb, H.
  - intro H; split; intros x Hx; apply str_mem_In, H, Hx.
Qed.

(** *** The phenotype uploads *)

Lemma node_eqb_eq a b : node_eqb a b = true <-> a = b.
Proof. destruct a, b; simpl; split; intro H; congruence. Qed.

(** The files [upload_phenotype] selects, read off the file system as it is. *)
Lemma phenotype_uploads_go_spec d pu items s :
  exists ups, phenotype_uploads_go d pu items s = (Ok ups, s) /\
    (forall url path ct, In (url, path, ct) ups <->
       exists key pfc, In (key, pfc) items /\ dict_get pu key = Some url /\
         path = os_path_join d (pf_name pfc) /\ fs s path <> Absent /\
         ct = pf_content_type pfc).
Proof.
  induction items as [|[key pfc] items IH].
  - exists []; split; [reflexivity|]; intros url path ct; split; [intros []|].
    intros (k & p & [] & _).
  - destruct IH as (rest & Hr & Hi).
    cbn [phenotype_uploads_go].
    destruct (dict_get pu key) as [url0|] eqn:Hk.
    + destruct (node_eqb (fs s (os_path_join d (pf_name pfc))) Absent) eqn:Hn.
      * exists rest; split.
        { unfold bind, path_exists; rewrite Hn; simpl; rewrite Hr; reflexivity. }
        intros url path ct; rewrite Hi; split.
        { intros (k & p & Hin & H); exists k, p; split; [right; exact Hin | exact H]. }
        intros (k & p & [Heq | Hin] & Hg & Hp & Hf & Hc).
        { inversion Heq; subst k p; apply node_eqb_eq in Hn; subst path; contradiction. }
        exists k, p; repeat split; assumption.
      * exists ((url0, os_path_join d (pf_name pfc), pf_content_type pfc) :: rest); split.
        { unfold bind, path_exists; rewrite Hn; simpl; rewrite Hr; reflexivity. }
        intros url path ct; simpl; rewrite Hi; split.
        { intros [Heq | (k & p & Hin & H)].
          - inversion Heq; subst; exists key, pfc.
            split; [left; reflexivity|]; split; [exact Hk|]; split; [reflexivity|].
            split; [intro Ha; rewrite Ha in Hn; discriminate Hn | reflexivity].
          - exists k, p; split; [right; exact Hin | exact H]. }
        intros (k & p & [Heq | Hin] & Hg & Hp & Hf & Hc).
        { inversion Heq; subst k p; left; congruence. }
        right; exists k, p; repeat split; assumption.
    + exists rest; split.
      { unfold bind, ret; simpl; rewrite Hr; reflexivity. }
      intros url path ct; rewrite Hi; split.
      { intros (k & p & Hin & H); exists k, p; split; [right; exact Hin | exact H]. }
      intros (k & p & [Heq | Hin] & Hg & Hp & Hf & Hc).
      { inversion Heq; subst k p; congruence. }
      exists k, p; repeat split; assumption.
Qed.

(** [emits P m]: every event [m] appends satisfies [P]. *)
Definition emits {A} (P : event -> Prop) (m : M A) : Prop :=
  forall s, exists new, trace (snd (m s)) = trace s ++ new /\ Forall P new.

(** [delivers ev m]: whenever [m] returns normally it has appended [ev]. *)
Definition delivers {A} (ev : event) (m : M A) : Prop :=
  forall s a s', m s = (Ok a, s') -> exists new, trace s' = trace s ++ new /\ In ev new.

Lemma emits_ret {A} P (a : A) : emits P (ret a).
Proof. intro s; exists []; split; [symmetry; apply app_nil_r | constructor]. Qed.

Lemma emits_raise {A} P e : emits P (@raise A e).
Proof. intro s; exists []; split; [symmetry; apply app_nil_r | constructor]. Qed.

Lemma emits_bind {A B} P (m : M A) (f : A -> M B) :
  emits P m -> (forall a, emits P (f a)) -> emits P (bind m f).
Proof.
  intros Hm Hf s; unfold bind.
  destruct (Hm s) as (n1 & Ht1 & HF1); destruct (m s) as [[a|e] s1]; simpl in *.
  - destruct (Hf a s1) as (n2 & Ht2 & HF2); exists (n1 ++ n2).
    rewrite Ht2, Ht1, app_assoc; split; [reflexivity | apply Forall_app; auto].
  - exists n1; auto.
Qed.

Lemma emits_next_gather P : emits P next_gather.
Proof. intro s; exists []; split; [symmetry; apply app_nil_r | constructor]. Qed.

Lemma emits_gather_run {A} P (tasks : list (M A)) order done :
  Forall (emits P) tasks -> emits P (gather_run tasks order done).
Proof.
  intros Ht; revert done; induction order as [|i order IH]; intro done; simpl.
  - apply emits_ret.
  - destruct (nth_error tasks i) as [t|] eqn:Hi; [|apply IH].
    apply emits_bind; [|intro; apply IH].
    eapply Forall_forall; [exact Ht|]; eapply nth_error_In; exact Hi.
Qed.

Lemma emits_gather {A} P E (dflt : A) tasks :
  Forall (emits P) tasks -> emits P (gather E dflt tasks).
Proof.
  intros Ht; unfold gather; apply emits_bind; [apply emits_next_gather|]; intro k.
  apply emits_bind; [apply emits_gather_run, Ht | intro; apply emits_ret].
Qed.

Lemma delivers_bind_l {A B} ev (m : M A) (f : A -> M B) :
  delivers ev m -> (forall a, emits (fun _ => True) (f a)) -> delivers ev (bind m f).
Proof.
  intros Hm Hf s b s' Hr; unfold bind in Hr.
  destruct (m s) as [[a|e] s1] eqn:Hs; [|discriminate Hr].
  destruct (Hm s a s1 Hs) as (n1 & Ht1 & Hi1).
  destruct (Hf a s1) as (n2 & Ht2 & _); rewrite Hr in Ht2; simpl in Ht2.
  exists (n1 ++ n2); rewrite Ht2, Ht1, app_assoc; split; [reflexivity|].
  apply in_or_app; left; exact Hi1.
Qed.

Lemma delivers_bind_r {A B} ev (m : M A) (f : A -> M B) :
  emits (fun _ => True) m -> (forall a, delivers ev (f a)) -> delivers ev (bind m f).
Proof.
  intros Hm Hf s b s' Hr; unfold bind in Hr.
  destruct (Hm s) as (n1 & Ht1 & _).
  destruct (m s) as [[a|e] s1] eqn:Hs; [|discriminate Hr]; simpl in Ht1.
  destruct (Hf a s1 b s' Hr) as (n2 & Ht2 & Hi2).
  exists (n1 ++ n2); rewrite Ht2, Ht1, app_assoc; split; [reflexivity|].
  apply in_or_app; right; exact Hi2.
Qed.

(** A task that [gather_run] is scheduled to run has run once the run
    returns normally. *)
Lemma delivers_gather_run {A} ev (tasks : list (M A)) order done i t :
  Forall (emits (fun _ => True)) tasks -> In i order -> nth_error tasks i = Some t ->
  delivers ev t -> delivers ev (gather_run tasks order done).
Proof.
  intros Ht Hin Hi Hd; revert done; induction order as [|j order IH]; intro done;
    [destruct Hin|]; simpl.
  destruct (Nat.eq_dec j i) as [<-|Hne].
  - rewrite Hi; apply delivers_bind_l; [exact Hd|].
    intro; apply emits_gather_run, Ht.
  - destruct Hin as [Heq|Hin]; [contradiction|].
    destruct (nth_error tasks j) as [t'|] eqn:Hj; [|apply IH, Hin].
    apply delivers_bind_r; [|intro; apply IH, Hin].
    eapply Forall_forall; [exact Ht|]; eapply nth_error_In; exact Hj.
Qed.

Lemma nodup_first_In i seen l : In i l -> ~ In i seen -> In i (nodup_first seen l).
Proof.
  revert seen; induction l as [|j l IH]; intros seen Hin Hs; [destruct Hin|]; simpl.
  destruct (existsb (Nat.eqb j) seen) eqn:He.
  - destruct Hin as [<-|Hin]; [|apply IH; assumption].
    exfalso; apply Hs; apply existsb_exists in He as (x & Hx & Heq).
    apply Nat.eqb_eq in Heq; subst; exact Hx.
  - destruct (Nat.eq_dec j i) as [<-|Hne]; [left; reflexivity|right].
    destruct Hin as [Heq|Hin]; [contradiction|].
    apply IH; [exact Hin|]; intros [Heq|Hs']; [contradiction | exact (Hs Hs')].
Qed.

(** Every task of a [gather] is scheduled, whatever the scheduler says. *)
Lemma completion_order_complete n o i : i < n -> In i (completion_order n o).
Proof.
  intro Hi; unfold completion_order; apply nodup_first_In; [|intros []].
  apply filter_In; split; [apply in_or_app; right; apply in_seq; lia|].
  apply Nat.ltb_lt, Hi.
Qed.

Lemma delivers_gather {A} ev E (dflt : A) tasks i t :
  Forall (emits (fun _ => True)) tasks -> nth_error tasks i = Some t ->
  delivers ev t -> delivers ev (gather E dflt tasks).
Proof.
  intros Ht Hi Hd; unfold gather; apply delivers_bind_r; [apply emits_next_gather|].
  intro k; apply delivers_bind_l; [|intro; apply emits_ret].
  eapply delivers_gather_run; [exact Ht| |exact Hi|exact Hd].
  apply completion_order_complete, nth_error_Some; rewrite Hi; discriminate.
Qed.

Lemma emits_get_fs P : emits P get_fs.
Proof. intro s; exists []; split; [symmetry; apply app_nil_r | constructor]. Qed.

Lemma emits_emit (P : event -> Prop) ev : P ev -> emits P (emit ev).
Proof. intros H s; exists [ev]; split; [reflexivity | constructor; auto]. Qed.

Lemma emits_mono {A} (P Q : event -> Prop) (m : M A) :
  (forall ev, P ev -> Q ev) -> emits P m -> emits Q m.
Proof.
  intros HPQ Hm s; destruct (Hm s) as (n & Ht & HF); exists n; split; [exact Ht|].
  eapply Forall_impl; [exact HPQ | exact HF].
Qed.

Lemma emits_upload_file_streamed E url path ct :
  emits (fun ev => ev = EvPut url path [("Content-Type"%string, ct);
          ("Content-Length"%string, py_str_of_nat (size_of E path))])
    (upload_file_streamed E url path ct).
Proof.
  unfold upload_file_streamed; apply emits_bind; [apply emits_get_fs|]; intro f.
  destruct (f path); try apply emits_raise.
  apply emits_bind; [apply emits_emit; reflexivity|]; intros _.
  destruct (put_of E url) as [st|e]; [|apply emits_raise].
  unfold raise_for_status; destruct (is_success st); [apply emits_ret | apply emits_raise].
Qed.

Lemma delivers_upload_file_streamed E url path ct :
  delivers (EvPut url path [("Content-Type"%string, ct);
             ("Content-Length"%string, py_str_of_nat (size_of E path))])
    (upload_file_streamed E url path ct).
Proof.
  intros s a s' Hr; unfold upload_file_streamed, bind, get_fs in Hr; simpl in Hr.
  destruct (fs s path); try discriminate Hr.
  unfold emit in Hr; simpl in Hr.
  set (s1 := mkstate _ _ _ _) in Hr.
  assert (Hs1 : trace s1 = trace s ++ [EvPut url path [("Content-Type"%string, ct);
             ("Content-Length"%string, py_str_of_nat (size_of E path))]]) by reflexivity.
  assert (Hq : trace s' = trace s1).
  { destruct (put_of E url) as [st|e]; [|discriminate Hr].
    unfold raise_for_status in Hr; destruct (is_success st); inversion Hr; reflexivity. }
  eexists; rewrite Hq, Hs1; split; [reflexivity | left; reflexivity].
Qed.

(** *** Unpacking a genotype *)

Lemma bind_get_fs {B} (f : (string -> node) -> M B) s : bind get_fs f s = f (fs s) s.
Proof. reflexivity. Qed.

Lemma make_ancestors_spec fuel p s :
  fst (make_ancestors fuel p s) = Ok tt /\
  forall q, fs s q <> Absent -> fs (snd (make_ancestors fuel p s)) q = fs s q.
Proof.
  revert p s; induction fuel as [|fuel IH]; intros p s; [split; reflexivity|].
  cbn [make_ancestors]; destruct (p =? "")%string; [split; reflexivity|].
  rewrite bind_get_fs.
  destruct (fs s p) eqn:Hp; try (split; reflexivity).
  destruct (IH (os_path_dirname p) s) as [Hr Hk].
  unfold bind; destruct (make_ancestors fuel (os_path_dirname p) s) as [r s1]; simpl in *; subst r.
  split; [reflexivity|]; intros q Hq; simpl.
  destruct (q =? p)%string eqn:Hqp.
  - apply String.eqb_eq in Hqp; subst; contradiction.
  - apply Hk, Hq.
Qed.

(** [keeps_file q m]: [m] never turns a regular file at [q] into anything
    else, whether it returns or raises. *)
Definition keeps_file {A} (q : string) (m : M A) : Prop :=
  forall s, fs s q = File -> fs (snd (m s)) q = File.

(** [raises_no_fnf m]: [m] never raises [FileNotFoundError]. *)
Definition raises_no_fnf {A} (m : M A) : Prop :=
  forall s e s', m s = (Err e, s') -> match e with FileNotFoundError _ => False | _ => True end.

Lemma extract_member_spec t q mb :
  keeps_file q (extract_member t mb) /\ raises_no_fnf (extract_member t mb).
Proof.
  destruct mb as [name kind]; unfold extract_member.
  set (p := os_path_join t name).
  set (u := os_path_dirname p).
  split.
  - intros s Hq.
    destruct (make_ancestors_spec (String.length u) u s) as [Hr Hk].
    unfold bind at 1; destruct (make_ancestors (String.length u) u s) as [r s1]; simpl in Hr, Hk; subst r.
    assert (Hq1 : fs s1 q = File) by (rewrite Hk; [exact Hq | rewrite Hq; discriminate]).
    rewrite bind_get_fs.
    destruct kind, (fs s1 p) eqn:Hp; simpl; try exact Hq1;
      destruct (q =? p)%string eqn:Hqp; try exact Hq1; try reflexivity;
      apply String.eqb_eq in Hqp; subst; congruence.
  - intros s e s' Hr.
    destruct (make_ancestors_spec (String.length u) u s) as [Ha _].
    unfold bind at 1 in Hr; destruct (make_ancestors (String.length u) u s) as [r s1];
      simpl in Ha; subst r.
    rewrite bind_get_fs in Hr.
    destruct kind, (fs s1 p); inversion Hr; exact I.
Qed.

Lemma iterM_extract_spec t q ms :
  keeps_file q (iterM (extract_member t) ms) /\ raises_no_fnf (iterM (extract_member t) ms).
Proof.
  induction ms as [|mb ms [IHk IHr]]; simpl.
  - split; [intros s H; exact H | intros s e s' H; discriminate H].
  - destruct (extract_member_spec t q mb) as [Hk Hr]; split.
    + intros s Hq; unfold bind; specialize (Hk s Hq).
      destruct (extract_member t mb s) as [[[]|e] s1]; simpl in *; [apply IHk|]; exact Hk.
    + intros s e s' H; unfold bind in H.
      destruct (extract_member t mb s) as [[[]|e1] s1] eqn:He.
      * exact (IHr _ _ _ H).
      * inversion H; subst; exact (Hr _ _ _ He).
Qed.

Lemma unpack_archive_spec E url t q :
  keeps_file q (unpack_archive E url t) /\ raises_no_fnf (unpack_archive E url t).
Proof.
  unfold unpack_archive; destruct (archive_of E url) as [m|ms].
  - split; [intros s H; exact H | intros s e s' H; inversion H; exact I].
  - apply iterM_extract_spec.
Qed.

Lemma str_app_assoc (a b c : string) : (a ++ b ++ c)%string = ((a ++ b) ++ c)%string.
Proof. induction a as [|x a IH]; simpl; [reflexivity | rewrite IH; reflexivity]. Qed.

Lemma str_app_cancel (a b c : string) : (a ++ b)%string = (a ++ c)%string -> b = c.
Proof. induction a as [|x a IH]; simpl; [auto | intro H; inversion H; auto]. Qed.

(** [os.path.join(a, b)] for a relative [b] is [b] behind a prefix that
    depends on [a] only. *)
Lemma os_path_join_relative a b :
  starts_with_slash b = false ->
  os_path_join a b =
    ((if (a =? "")%string then ""
      else match last_char a with Some "/"%char => a | _ => a ++ "/" end) ++ b)%string.
Proof.
  intro Hb; unfold os_path_join; rewrite Hb.
  destruct (a =? "")%string; [reflexivity|].
  destruct (last_char a) as [[[] [] [] [] [] [] [] []]|];
    first [reflexivity | apply str_app_assoc].
Qed.

Lemma genotype_dir_not_tmp_file t : os_path_join t "genotype" <> genotype_tmp_file t.
Proof.
  unfold genotype_tmp_file; rewrite !os_path_join_relative by reflexivity.
  intro H; apply str_app_cancel in H; discriminate H.
Qed.

Lemma download_file_streamed_spec E url p s :
  fs s p <> Dir ->
  fs (snd (download_file_streamed E url p s)) p <> Dir /\
  (fst (download_file_streamed E url p s) = Ok tt ->
   fs (snd (download_file_streamed E url p s)) p = File).
Proof.
  intro Hd; unfold download_file_streamed, emit, raise_for_status, open_for_write,
    get_fs, set_node, ret, raise, bind; simpl.
  destruct (get_of E url) as [st be|e]; simpl; [|split; [exact Hd | discriminate]].
  destruct (is_success st); simpl; [|split; [exact Hd | discriminate]].
  destruct (parent_node (fs s) p); simpl; try (split; [exact Hd | discriminate]; fail).
  destruct (fs s p) eqn:Hp; simpl; try contradiction;
    destruct be; simpl; rewrite String.eqb_refl; split; congruence.
Qed.

Lemma remove_tmp_archive_spec t s :
  fs s (genotype_tmp_file t) <> Dir ->
  fst (remove_tmp_archive t s) = Ok tt /\
  fs (snd (remove_tmp_archive t s)) (genotype_tmp_file t) = Absent /\
  (forall q, q <> genotype_tmp_file t -> fs (snd (remove_tmp_archive t s)) q = fs s q).
Proof.
  intro Hd; unfold remove_tmp_archive, remove_file, path_exists, get_fs, set_node, ret, raise, bind;
    simpl.
  destruct (fs s (genotype_tmp_file t)) eqn:Hp; simpl; [| |contradiction].
  - split; [reflexivity | split; [exact Hp | reflexivity]].
  - rewrite Hp; simpl; rewrite String.eqb_refl; split; [reflexivity | split; [reflexivity|]].
    intros q Hq; apply String.eqb_neq in Hq; simpl; rewrite Hq; reflexivity.
Qed.

Lemma fetch_and_unpack_spec E url t s :
  fs s (genotype_tmp_file t) <> Dir ->
  fs (snd (fetch_and_unpack E url t s)) (genotype_tmp_file t) <> Dir /\
  (fst (fetch_and_unpack E url t s) = Ok tt ->
   fs (snd (fetch_and_unpack E url t s)) (genotype_tmp_file t) = File).
Proof.
  intro Hd; unfold fetch_and_unpack, bind.
  pose proof (download_file_streamed_spec E url (genotype_tmp_file t) s Hd) as [Hd1 Hf1].
  destruct (download_file_streamed E url (genotype_tmp_file t) s) as [[[]|e] s0];
    simpl in Hd1, Hf1; [|split; [exact Hd1 | discriminate]].
  destruct (unpack_archive_spec E url t (genotype_tmp_file t)) as [Hk _].
  rewrite (Hk s0 (Hf1 eq_refl)); split; [discriminate | reflexivity].
Qed.

Lemma download_and_unpack_genotype_eq E url t s :
  download_and_unpack_genotype E url t s =
    match try_finally (fetch_and_unpack E url t) (remove_tmp_archive t) s with
    | (Ok _, s2) =>
        if node_eqb (fs s2 (os_path_join t "genotype")) Dir
        then (Ok (os_path_join t "genotype"), s2)
        else (Err missing_genotype_error, s2)
    | (Err e, s2) => (Err e, s2)
    end.
Proof.
  unfold download_and_unpack_genotype, bind at 1.
  destruct (try_finally _ _ s) as [[[]|e] s2]; [|reflexivity].
  unfold bind, path_isdir, ret, raise; simpl.
  destruct (node_eqb _ _); reflexivity.
Qed.

(** *** Runs that neither call the module nor pack or upload anything *)

Definition no_module_call_or_upload (ev : event) : Prop :=
  match ev with
  | EvModuleInitialize _ | EvModuleGenerate _ _ | EvModuleEvaluate _ _
  | EvPack _ _ | EvPut _ _ _ => False
  | _ => True
  end.

Lemma emits_pure {A} P (m : M A) : pure m -> emits P m.
Proof. intros H s; exists []; rewrite H; split; [symmetry; apply app_nil_r | constructor]. Qed.

Lemma emits_set_node P p n : emits P (set_node p n).
Proof. intro s; exists []; split; [symmetry; apply app_nil_r | constructor]. Qed.

Lemma emits_catch {A} P (m : M A) h :
  emits P m -> (forall e, emits P (h e)) -> emits P (catch m h).
Proof.
  intros Hm Hh s; unfold catch.
  destruct (Hm s) as (n1 & Ht1 & HF1); destruct (m s) as [[a|e] s1]; simpl in *.
  - exists n1; auto.
  - destruct (Hh e s1) as (n2 & Ht2 & HF2); exists (n1 ++ n2).
    rewrite Ht2, Ht1, app_assoc; split; [reflexivity | apply Forall_app; auto].
Qed.

Lemma emits_try_finally {A} P (m : M A) fin :
  emits P m -> emits P fin -> emits P (try_finally m fin).
Proof.
  intros Hm Hf s; unfold try_finally.
  destruct (Hm s) as (n1 & Ht1 & HF1); destruct (m s) as [r s1]; simpl in *.
  destruct (Hf s1) as (n2 & Ht2 & HF2); destruct (fin s1) as [[[]|e] s2]; simpl in *;
    exists (n1 ++ n2); rewrite Ht2, Ht1, app_assoc; (split; [reflexivity | apply Forall_app; auto]).
Qed.

Lemma emits_mapM {A B} P (f : A -> M B) l : (forall x, emits P (f x)) -> emits P (mapM f l).
Proof.
  intros Hf; induction l; simpl; [apply emits_ret|].
  apply emits_bind; [apply Hf|intro; apply emits_bind; [exact IHl|intro; apply emits_ret]].
Qed.

Lemma emits_iterM {A} P (f : A -> M unit) l : (forall x, emits P (f x)) -> emits P (iterM f l).
Proof.
  intros Hf; induction l; simpl; [apply emits_ret|].
  apply emits_bind; [apply Hf|intro; exact IHl].
Qed.

Create HintDb emits.

Ltac emits_solve :=
  repeat lazymatch goal with
  | |- emits _ (bind _ _) => apply emits_bind
  | |- emits _ (catch _ _) => apply emits_catch
  | |- emits _ (try_finally _ _) => apply emits_try_finally
  | |- emits _ (match ?x with _ => _ end) => destruct x
  | |- emits _ (if ?b then _ else _) => destruct b
  | |- emits _ (mapM _ _) => apply emits_mapM
  | |- emits _ (iterM _ _) => apply emits_iterM
  | |- emits _ (emit _) => apply emits_emit; exact I
  | |- emits _ (set_node _ _) => apply emits_set_node
  | |- emits _ (ret _) => apply emits_ret
  | |- emits _ (raise _) => apply emits_raise
  | |- emits _ _ => first [solve [eauto 3 with emits] | apply emits_pure; solve [eauto 3 with wb]]
  | |- forall _, _ => intro
  end.

Lemma ng_make_ancestors fuel p : emits no_module_call_or_upload (make_ancestors fuel p).
Proof. revert p; induction fuel; simpl; emits_solve. Qed.
#[export] Hint Resolve ng_make_ancestors : emits.

Lemma ng_makedirs p b : emits no_module_call_or_upload (makedirs p b).
Proof. unfold makedirs; emits_solve. Qed.

Lemma ng_remove_file p : emits no_module_call_or_upload (remove_file p).
Proof. unfold remove_file; emits_solve. Qed.

Lemma ng_extract_member t mb : emits no_module_call_or_upload (extract_member t mb).
Proof. unfold extract_member; emits_solve. Qed.
#[export] Hint Resolve ng_makedirs ng_remove_file ng_extract_member : emits.

Lemma ng_get_config E n : emits no_module_call_or_upload (get_config_from_request E n).
Proof. unfold get_config_from_request; emits_solve. Qed.

Lemma ng_download_file_streamed E u p : emits no_module_call_or_upload (download_file_streamed E u p).
Proof. unfold download_file_streamed, raise_for_status, open_for_write; emits_solve. Qed.
#[export] Hint Resolve ng_get_config ng_download_file_streamed : emits.

Lemma ng_download_and_unpack_genotype E u t :
  emits no_module_call_or_upload (download_and_unpack_genotype E u t).
Proof.
  unfold download_and_unpack_genotype, fetch_and_unpack, remove_tmp_archive, unpack_archive;
    emits_solve.
Qed.

Lemma ng_download_and_unpack_genotypes E pairs :
  emits no_module_call_or_upload (download_and_unpack_genotypes E pairs).
Proof.
  unfold download_and_unpack_genotypes; apply emits_bind; [|intro; apply emits_ret].
  apply emits_gather, Forall_map_intro; intros [u t]; apply ng_download_and_unpack_genotype.
Qed.

Lemma ng_mkdtemp : emits no_module_call_or_upload mkdtemp.
Proof. intro s; exists [EvMkdtemp (ntmp s) (tmp_dir_name (ntmp s))]; split; [reflexivity|]; repeat constructor. Qed.

Lemma ng_rmtree k d : emits no_module_call_or_upload (rmtree_ignore_errors k d).
Proof.
  intro s; exists [EvRmtree k d]; rewrite rmtree_ignore_errors_run; split; [reflexivity|].
  repeat constructor.
Qed.

(** *** Values of [mapM]; errors of the config load *)

Lemma mapM_values {A B} (f : A -> M B) (g : A -> B) l s r s' :
  (forall x s0 b s1, f x s0 = (Ok b, s1) -> b = g x) ->
  mapM f l s = (Ok r, s') -> r = map g l.
Proof.
  intros Hf; revert s r; induction l as [|x l IH]; intros s r H; simpl in H.
  - inversion H; reflexivity.
  - unfold bind in H; destruct (f x s) as [[b|e] s1] eqn:Hx; [|discriminate H].
    destruct (mapM f l s1) as [[bs|e] s2] eqn:Hl; [|discriminate H].
    inversion H; subst; simpl; f_equal; [eapply Hf; exact Hx | eapply IH; exact Hl].
Qed.

Lemma get_config_raises_http E n s e s' :
  get_config_from_request E n s = (Err e, s') -> exists code d, e = HTTPException code d.
Proof.
  unfold get_config_from_request, bind, emit, ret, raise.
  destruct (configs_dir E); [destruct (config_of E _)|]; intro H; inversion H; eauto.
Qed.

(** *** Successful runs *)

Lemma bind_Ok_inv {A B} (m : M A) (f : A -> M B) s b s' :
  bind m f s = (Ok b, s') -> exists a s1, m s = (Ok a, s1) /\ f a s1 = (Ok b, s').
Proof. unfold bind; destruct (m s) as [[a|e] s1]; intro H; [eauto | discriminate H]. Qed.

Lemma mapM_Ok_Forall2 {A B} (f : A -> M B) l s r s' :
  mapM f l s = (Ok r, s') -> Forall2 (fun x y => exists s0 s1, f x s0 = (Ok y, s1)) l r.
Proof.
  revert s r; induction l as [|x l IH]; intros s r H; simpl in H.
  - inversion H; constructor.
  - apply bind_Ok_inv in H as (y & s1 & Hx & H).
    apply bind_Ok_inv in H as (ys & s2 & Hl & H).
    inversion H; subst; constructor; [eauto | eapply IH; exact Hl].
Qed.

Lemma nth_error_combine_seq {X} (l : list X) k i x :
  nth_error l i = Some x -> nth_error (combine (seq k (length l)) l) i = Some (k + i, x).
Proof.
  revert k i; induction l as [|y l IH]; intros k i H; [destruct i; discriminate H|].
  destruct i as [|i]; simpl in *.
  - inversion H; rewrite Nat.add_0_r; reflexivity.
  - rewrite (IH (S k) i H); f_equal; f_equal; lia.
Qed.

Lemma Forall2_nth_error {X Y} (R : X -> Y -> Prop) l r i x :
  Forall2 R l r -> nth_error l i = Some x -> exists y, nth_error r i = Some y /\ R x y.
Proof.
  intro H; revert i; induction H as [|a b l r Hab H IH]; intros i Hi;
    [destruct i; discriminate Hi|].
  destruct i; simpl in *; [inversion Hi; subst; eauto | apply IH, Hi].
Qed.

(** The response of [handle_generate], child by child. *)
Lemma generate_response_spec pids pm children s outs s' :
  generate_response pids pm children s = (Ok outs, s') ->
  length outs = length children /\
  forall i ch, nth_error children i = Some ch ->
    exists idxs ps, nth_error pm i = Some idxs /\
      Forall2 (fun k pid => py_getitem pids k = Some pid) idxs ps /\
      nth_error outs i = Some (mkout (child_id ch) ps).
Proof.
  unfold generate_response; intro H.
  pose proof (mapM_Ok_Forall2 _ _ _ _ _ H) as HF.
  split.
  - apply Forall2_length in HF; rewrite <- HF, length_combine, length_seq; lia.
  - intros i ch Hi.
    destruct (Forall2_nth_error _ _ _ i _ HF (nth_error_combine_seq children 0 i ch Hi))
      as (y & Hy & s0 & s1 & Hf); simpl in Hf.
    destruct (nth_error pm i) as [idxs|] eqn:Hpm; [|discriminate Hf].
    apply bind_Ok_inv in Hf as (ps & s2 & Hps & Hr); inversion Hr; subst y.
    exists idxs, ps; split; [reflexivity | split; [|exact Hy]].
    eapply Forall2_impl; [|exact (mapM_Ok_Forall2 _ _ _ _ _ Hps)].
    intros k pid (s3 & s4 & Hk); destruct (py_getitem pids k); inversion Hk; reflexivity.
Qed.

Lemma wb_trace {A} (m : M A) s r s1 : wb m -> m s = (r, s1) -> exists n, trace s1 = trace s ++ n.
Proof. intros Hm H; destruct (Hm s) as (n & Ht & _); rewrite H in Ht; eauto. Qed.

(** A successful [generate_body] returns what the module's [generate] returned
    for the call it made. *)
Lemma generate_body_reports E c req d s pm s' :
  generate_body E c req d s = (Ok pm, s') ->
  exists gds cds written new,
    generate_of E gds cds = (written, Ok pm) /\
    trace s' = trace s ++ new /\ In (EvModuleGenerate gds cds) new.
Proof.
  unfold generate_body; intro H.
  apply bind_Ok_inv in H as (pairs & s1 & H1 & H).
  apply bind_Ok_inv in H as (rs & s2 & H2 & H).
  apply bind_Ok_inv in H as (vs & s3 & H3 & H).
  apply bind_Ok_inv in H as (cm & s4 & H4 & H).
  apply bind_Ok_inv in H as (pm0 & s5 & H5 & H).
  apply bind_Ok_inv in H as (u & s6 & H6 & H).
  unfold ret in H; inversion H; subst pm0 s6; clear H.
  assert (Hw1 : exists n, trace s1 = trace s ++ n)
    by (eapply wb_trace; [|exact H1]; apply wb_mapM; intro; wb_solve).
  destruct Hw1 as (n1 & Ht1).
  destruct (wb_trace _ _ _ _ (wb_download_and_unpack_genotypes E pairs) H2) as (n2 & Ht2).
  destruct (wb_trace _ _ _ _ (quiet_wb _ (pure_quiet _ (pure_valid_parent_results _ _ _))) H3)
    as (n3 & Ht3).
  destruct (wb_trace _ _ _ _ (wb_make_child_dirs _ _ _) H4) as (n4 & Ht4).
  destruct (wb_trace _ _ _ _ (wb_pack_and_upload_genotypes E _) H6) as (n6 & Ht6).
  unfold module_generate in H5.
  apply bind_Ok_inv in H5 as ([] & s5e & He & H5); unfold emit in He; inversion He; subst s5e; clear He.
  destruct (generate_of E vs (dict_values cm)) as [written r] eqn:Hg.
  apply bind_Ok_inv in H5 as ([] & s5w & Hw & H5).
  destruct (wb_trace _ _ _ _ (quiet_wb _ (quiet_write_files written)) Hw) as (nw & Htw).
  destruct r as [p|e]; inversion H5; subst p s5w; clear H5.
  exists vs, (dict_values cm), written,
    (n1 ++ n2 ++ n3 ++ n4 ++ [EvModuleGenerate vs (dict_values cm)] ++ nw ++ n6).
  split; [exact Hg | split].
  - rewrite Ht6, Htw; simpl; rewrite Ht4, Ht3, Ht2, Ht1, <- !app_assoc; reflexivity.
  - apply in_or_app; right; apply in_or_app; right; apply in_or_app; right.
    apply in_or_app; right; apply in_or_app; left; left; reflexivity.
Qed.

(** *** Evaluate runs without survivors *)

Lemma gather_run_nil {A} order (done : list (nat * A)) :
  gather_run [] order done = ret done.
Proof.
  revert done; induction order as [|i order IH]; intro done; [reflexivity|].
  simpl; destruct i; apply IH.
Qed.

(** Whatever the body does, the guarded body answers one entry per individual. *)
Lemma evaluate_guarded_length E c req d s :
  exists outs s',
    catch (evaluate_body E c req d)
      (fun e => ret (map (fun ind => mkevout (ev_id ind) "error" (Some (py_str_exc e)))
                         (eval_individuals req))) s = (Ok outs, s') /\
    length outs = length (eval_individuals req).
Proof.
  unfold catch.
  destruct (evaluate_body E c req d s) as [[outs|e] s1] eqn:Hb.
  - exists outs, s1; split; [reflexivity|].
    unfold evaluate_body in Hb.
    apply bind_Ok_inv in Hb as (pairs & s2 & _ & Hb).
    apply bind_Ok_inv in Hb as (rs & s3 & _ & Hb).
    apply bind_Ok_inv in Hb as ([[[te gd] pd] st] & s4 & _ & Hb).
    apply bind_Ok_inv in Hb as (sts & s5 & _ & Hb).
    apply mapM_Ok_Forall2, Forall2_length in Hb; symmetry; exact Hb.
  - eexists; eexists; split; [reflexivity|]; apply length_map.
Qed.

(** ** Auxiliary definitions for the further properties *)

(** The update of [eval_statuses] for an individual that was evaluated (evaluate.py, step 5). *)
Definition mark_success (st : dict evaluate_individual_output) (ind : evaluate_individual_input)
    : dict evaluate_individual_output :=
  dict_set st (ev_id ind) (mkevout (ev_id ind) "success" None).

(** [os.path.join(tmp_dir, individual.key, "genotype")] of [handle_initialize]. *)
Definition root_genotype_dir (tmp_dir : string) (r : root_individual_input) : string :=
  os_path_join (os_path_join tmp_dir (root_key r)) "genotype".

(** [os.path.join(tmp_dir, "children", individual.id)] joined with ["genotype"], of [handle_generate]. *)
Definition child_genotype_dir (tmp_dir : string) (ch : child_individual_input) : string :=
  os_path_join (os_path_join (os_path_join tmp_dir "children") (child_id ch)) "genotype".

(** A computation that raises from every state, calling no module and uploading nothing on the way. *)
Definition body_fails_quietly {A} (m : M A) : Prop :=
  forall s, exists e s', m s = (Err e, s') /\
    exists new, trace s' = trace s ++ new /\ Forall no_module_call_or_upload new.

(** The sample environment with a scheduler that completes the tasks of every gather in reverse order. *)
Definition reversed_sched_env : env :=
  let e := sample_env (CfgLoaded sample_config) in
  mkenv (configs_dir e) (config_of e) (get_of e) (archive_of e) (put_of e) (size_of e)
    (fun _ n => rev (seq 0 n)) (initialize_of e) (generate_of e) (evaluate_of e).

(** A computation that, whenever it returns, has emitted an event satisfying [P]. *)
Definition delivers_P {A} (P : event -> Prop) (m : M A) : Prop :=
  forall s a s', m s = (Ok a, s') -> exists new, trace s' = trace s ++ new /\ Exists P new.

(** A tar upload to [url], with the headers [upload_file_streamed] sends. *)
Definition tar_put_to (E : env) (url : string) (ev : event) : Prop :=
  exists a, ev = EvPut url a [("Content-Type", "application/x-tar");
                             ("Content-Length", py_str_of_nat (size_of E a))]%string.

(** *** [config.handle_config]

    The exceptions it lets through, which are not HTTPExceptions: the
    [AttributeError] of a missing [app.state.configs_dir], re-raised by the
    bare [raise], and whatever [module.config] raises. *)
Inductive config_route_error : Type :=
| ConfigAttributeError
| ConfigFileNotFoundError
| ConfigLoadError (message : string).

Definition handle_config (E : env) (config_name : string) (s : state)
    : (config + config_route_error) * state :=
  match configs_dir E with
  | None => (inr ConfigAttributeError, s)
  | Some configs_dir =>
      let config_path := os_path_join configs_dir config_name in
      let s1 := snd (emit (EvReadConfig config_path) s) in
      match config_of E config_path with
      | CfgLoaded c => (inl c, s1)
      | CfgNotFound => (inr ConfigFileNotFoundError, s1)
      | CfgInvalid m => (inr (ConfigLoadError m), s1)
      end
  end.


(** *** The download phase of generate and evaluate *)

(** Step 2 of [handle_generate]: a directory per parent, then the download
    and unpacking of the parents' genotypes (generate.py, lines 69-86). *)
Definition generate_parent_downloads (E : env) (req : generate_request) (tmp_dir : string)
    : M (list (string + exc)) :=
  pairs <- mapM (fun p =>
             let individual_tmp_dir := parent_tmp_dir tmp_dir p in
             makedirs individual_tmp_dir false;;
             ret (parent_genotype_get_url p, individual_tmp_dir))
           (gen_parent_individuals req);;
  download_and_unpack_genotypes E pairs.

(** Step 2 of [handle_evaluate]: a directory per individual, then the
    download and unpacking of their genotypes (evaluate.py, lines 79-92). *)
Definition evaluate_downloads (E : env) (req : evaluate_request) (tmp_dir : string)
    : M (list (string + exc)) :=
  pairs <- mapM (fun ind =>
             let individual_tmp_dir := os_path_join tmp_dir (ev_id ind) in
             makedirs individual_tmp_dir false;;
             ret (ev_genotype_get_url ind, individual_tmp_dir))
           (eval_individuals req);;
  download_and_unpack_genotypes E pairs.

(** The sample deployment, where the url ["nogeno"] serves a tar archive
    with no [genotype/] directory (only [other/x.bin]). *)
Definition nogeno_env : env :=
  let e := sample_env (CfgLoaded sample_config) in
  mkenv (configs_dir e) (config_of e) (get_of e)
    (fun u => if String.eqb u "nogeno"%string then Members [("other/x.bin"%string, File)]
              else archive_of e u)
    (put_of e) (size_of e) (sched_of e) (initialize_of e) (generate_of e) (evaluate_of e).

Lemma generate_parent_downloads_quiet E req d :
  emits no_module_call_or_upload (generate_parent_downloads E req d).
Proof.
  unfold generate_parent_downloads; apply emits_bind;
    [apply emits_mapM; intro; cbv beta; emits_solve | intro; apply ng_download_and_unpack_genotypes].
Qed.

Lemma evaluate_downloads_quiet E req d :
  emits no_module_call_or_upload (evaluate_downloads E req d).
Proof.
  unfold evaluate_downloads; apply emits_bind;
    [apply emits_mapM; intro; cbv beta; emits_solve | intro; apply ng_download_and_unpack_genotypes].
Qed.

Lemma generate_body_downloads_fail E c req d s e s2 :
  generate_parent_downloads E req d s = (Err e, s2) -> generate_body E c req d s = (Err e, s2).
Proof.
  unfold generate_parent_downloads, generate_body; intro H.
  match type of H with bind (mapM ?F ?L) ?K s = _ =>
    destruct (mapM F L s) as [[pairs|e'] s1] eqn:Hm end.
  - rewrite (bind_Ok _ _ _ _ _ Hm) in H; rewrite (bind_Ok _ _ _ _ _ Hm).
    rewrite (bind_Err _ _ _ _ _ H); reflexivity.
  - rewrite (bind_Err _ _ _ _ _ Hm) in H; rewrite (bind_Err _ _ _ _ _ Hm).
    inversion H; reflexivity.
Qed.

Lemma evaluate_body_downloads_fail E c req d s e s2 :
  evaluate_downloads E req d s = (Err e, s2) -> evaluate_body E c req d s = (Err e, s2).
Proof.
  unfold evaluate_downloads, evaluate_body; intro H.
  match type of H with bind (mapM ?F ?L) ?K s = _ =>
    destruct (mapM F L s) as [[pairs|e'] s1] eqn:Hm end.
  - rewrite (bind_Ok _ _ _ _ _ Hm) in H; rewrite (bind_Ok _ _ _ _ _ Hm).
    rewrite (bind_Err _ _ _ _ _ H); reflexivity.
  - rewrite (bind_Err _ _ _ _ _ Hm) in H; rewrite (bind_Err _ _ _ _ _ Hm).
    inversion H; reflexivity.
Qed.

Lemma Forall_combine_snd {A B} (P : B -> Prop) (l1 : list A) (l2 : list B) :
  Forall P l2 -> Forall (fun x => P (snd x)) (combine l1 l2).
Proof.
  revert l2; induction l1 as [|a l1 IH]; intros [|b l2] H; simpl; try constructor.
  - inversion H; assumption.
  - apply IH; inversion H; assumption.
Qed.

(** When every download result is an exception, preparing the individuals
    only records errors: nobody is left to evaluate and nothing happens. *)
Lemma prepare_individuals_all_failed rs te gd pd sts s :
  Forall (fun x => exists e, snd x = inr e) rs ->
  exists sts', prepare_individuals rs te gd pd sts s = (Ok (te, gd, pd, sts'), s).
Proof.
  revert sts; induction rs as [|[ind r] rs IH]; intros sts H; simpl.
  - eexists; reflexivity.
  - inversion H as [|? ? (e & He) Hrs]; subst; simpl in He; subst r.
    apply IH, Hrs.
Qed.

Lemma evaluate_body_downloads_all_failed E c req d s rs s2 :
  evaluate_downloads E req d s = (Ok rs, s2) ->
  Forall (fun r => exists e, r = inr e) rs ->
  snd (evaluate_body E c req d s) = s2.
Proof.
  unfold evaluate_downloads, evaluate_body; intros H Hrs.
  match type of H with bind (mapM ?F ?L) ?K s = _ =>
    destruct (mapM F L s) as [[pairs|e'] s1] eqn:Hm end;
    [|rewrite (bind_Err _ _ _ _ _ Hm) in H; discriminate H].
  rewrite (bind_Ok _ _ _ _ _ Hm) in H; rewrite (bind_Ok _ _ _ _ _ Hm).
  rewrite (bind_Ok _ _ _ _ _ H).
  destruct (prepare_individuals_all_failed (combine (eval_individuals req) rs) [] [] [] []
              s2 (Forall_combine_snd _ _ _ Hrs)) as (sts & Hp).
  rewrite (bind_Ok _ _ _ _ _ Hp); cbv iota beta.
  unfold bind at 1, ret at 1.
  apply pure_mapM; intro ind; destruct (dict_get _ _); [apply pure_ret | apply pure_raise].
Qed.

(** When the download phase fails, or leaves nobody to evaluate, the
    guarded body of [handle_evaluate] neither calls the module nor uploads. *)
Lemma evaluate_guarded_quiet E c req d (h : exc -> M (list evaluate_individual_output)) s :
  (forall e s0, exists l, h e s0 = (Ok l, s0)) ->
  ((exists e s2, evaluate_downloads E req d s = (Err e, s2)) \/
   (exists rs s2, evaluate_downloads E req d s = (Ok rs, s2) /\
                  Forall (fun r => exists e, r = inr e) rs)) ->
  exists new, trace (snd (catch (evaluate_body E c req d) h s)) = trace s ++ new /\
    Forall no_module_call_or_upload new.
Proof.
  intros Hh Hph.
  assert (Hs : exists s2, snd (evaluate_body E c req d s) = s2 /\
                          snd (evaluate_downloads E req d s) = s2).
  { destruct Hph as [(e & s2 & Hd) | (rs & s2 & Hd & Hrs)]; exists s2.
    - rewrite (evaluate_body_downloads_fail E c req d s e s2 Hd), Hd; split; reflexivity.
    - rewrite (evaluate_body_downloads_all_failed E c req d s rs s2 Hd Hrs), Hd;
        split; reflexivity. }
  destruct Hs as (s2 & Hb & Hd).
  destruct (evaluate_downloads_quiet E req d s) as (n & Ht & HF); rewrite Hd in Ht.
  exists n; split; [|exact HF].
  unfold catch; destruct (evaluate_body E c req d s) as [[outs|e] s3]; simpl in Hb; subst s3.
  - exact Ht.
  - destruct (Hh e s2) as (l & Hl); rewrite Hl; exact Ht.
Qed.

(** ** The claims *)

Section Samples.
Local Open Scope string_scope.

(** C1 (the batch download does not capture per-item failures): on the
    sample deployment, a batch of two items whose first url answers 404 does
    not return two per-item outcomes; the whole call raises the first item's
    [HTTPStatusError], because [asyncio.gather] is awaited without
    [return_exceptions=True]. *)
Lemma download_batch_raises_first_failure :
  fst (download_and_unpack_genotypes (sample_env (CfgLoaded sample_config))
         [("bad", "/w/a"); ("u1", "/w/b")] sample_dirs_state)
  = Err (HTTPStatusError "HTTP status 404").
Proof. vm_compute. reflexivity. Qed.

(** C2 (a download failure is not per-individual): on the sample
    deployment, evaluating three individuals of which only the second one's
    download fails marks all three as errors, with the HTTP error's message
    rather than the download-phase message, and the module's [evaluate] is
    never called. *)
Lemma evaluate_one_failed_download_fails_all :
  fst (handle_evaluate (sample_env (CfgLoaded sample_config)) sample_evaluate_request
         sample_state)
  = Ok [mkevout "i1" "error" (Some "HTTP status 404");
        mkevout "i2" "error" (Some "HTTP status 404");
        mkevout "i3" "error" (Some "HTTP status 404")] /\
  trace (snd (handle_evaluate (sample_env (CfgLoaded sample_config))
                sample_evaluate_request sample_state))
  = [EvReadConfig "/cfg/c"; EvMkdtemp 0 "/tmp/tmp0";
     EvMakedirs "/tmp/tmp0/i1"; EvMakedirs "/tmp/tmp0/i2"; EvMakedirs "/tmp/tmp0/i3";
     EvGet "u1" "/tmp/tmp0/i1/genotype.tar.tmp";
     EvGet "bad" "/tmp/tmp0/i2/genotype.tar.tmp";
     EvRmtree 0 "/tmp/tmp0"].
Proof. split; vm_compute; reflexivity. Qed.


End Samples.


(** C4: an initialize request whose root keys differ, as a set, from the
    root keys of its loaded config fails with [HTTPException 400]; its only
    effect is reading the config: no directory is created (the file system
    and the [mkdtemp] counter are unchanged) and no GET or PUT is made. *)
Theorem initialize_key_mismatch_rejected E req s dir c :
  configs_dir E = Some dir ->
  config_of E (os_path_join dir (init_config_name req)) = CfgLoaded c ->
  ~ (forall k, In k (cfg_root_individuals c) <-> In k (map root_key (init_root_individuals req))) ->
  fst (handle_initialize E req s) =
    Err (HTTPException 400 "Mismatch between root keys in config and request. ") /\
  trace (snd (handle_initialize E req s)) =
    trace s ++ [EvReadConfig (os_path_join dir (init_config_name req))] /\
  fs (snd (handle_initialize E req s)) = fs s /\
  ntmp (snd (handle_initialize E req s)) = ntmp s.
Proof.
  intros Hd Hc Hne.
  assert (Hs : set_eqb (cfg_root_individuals c) (map root_key (init_root_individuals req)) = false).
  { destruct (set_eqb _ _) eqn:H; [|reflexivity].
    exfalso; apply Hne, set_eqb_spec, H. }
  unfold handle_initialize, get_config_from_request.
  rewrite Hd; unfold bind, emit; simpl; rewrite Hc; simpl.
  rewrite Hs; simpl; repeat split; reflexivity.
Qed.

Lemma initialize_key_mismatch_rejected_witness :
  let E := sample_env (CfgLoaded sample_config) in
  let req := mkinit "c" [mkroot "r1" "a" "q1"; mkroot "r2" "c" "q2"] in
  configs_dir E = Some "/cfg"%string /\
  config_of E (os_path_join "/cfg" (init_config_name req)) = CfgLoaded sample_config /\
  ~ (forall k, In k (cfg_root_individuals sample_config) <->
               In k (map root_key (init_root_individuals req))) /\
  fst (handle_initialize E req sample_state) =
    Err (HTTPException 400 "Mismatch between root keys in config and request. ").
Proof.
  intros E req.
  assert (H1 : configs_dir E = Some "/cfg"%string) by reflexivity.
  assert (H2 : config_of E (os_path_join "/cfg" (init_config_name req)) = CfgLoaded sample_config)
    by reflexivity.
  assert (H3 : ~ (forall k, In k (cfg_root_individuals sample_config) <->
                            In k (map root_key (init_root_individuals req)))).
  { intro H; destruct (H "b"%string) as [Hb _]; simpl in Hb.
    destruct (Hb (or_intror (or_introl eq_refl))) as [X|[X|[]]]; discriminate X. }
  split; [exact H1 | split; [exact H2 | split; [exact H3 |]]].
  exact (proj1 (initialize_key_mismatch_rejected E req sample_state "/cfg" sample_config H1 H2 H3)).
Defined.

(** C9: uploading an existing regular file sends exactly one PUT, whose
    headers are [Content-Type] set to the given content type and
    [Content-Length] set to the decimal size of the file ([st_size]); the
    file system is left as it was. When the server answers, the upload
    succeeds exactly when the status is a 2xx one, and otherwise fails with
    [HTTPStatusError]. *)
Theorem upload_file_streamed_put E url src ct s :
  fs s src = File ->
  trace (snd (upload_file_streamed E url src ct s)) =
    trace s ++ [EvPut url src [("Content-Type"%string, ct);
                               ("Content-Length"%string, py_str_of_nat (size_of E src))]] /\
  fs (snd (upload_file_streamed E url src ct s)) = fs s /\
  (forall status, put_of E url = PutResponse status ->
     (is_success status = true -> fst (upload_file_streamed E url src ct s) = Ok tt) /\
     (is_success status = false ->
        fst (upload_file_streamed E url src ct s) =
          Err (HTTPStatusError ("HTTP status " ++ py_str_of_Z status)%string))).
Proof.
  intro Hf.
  unfold upload_file_streamed, bind, get_fs, emit; rewrite Hf; simpl.
  destruct (put_of E url) as [st|e] eqn:Hp.
  - unfold raise_for_status; destruct (is_success st) eqn:Hs; simpl;
      (split; [reflexivity | split; [reflexivity |]]);
      intros st' Heq; inversion Heq; subst; split; intro; congruence.
  - split; [reflexivity | split; [reflexivity |]].
    intros st' Heq; discriminate Heq.
Qed.

Lemma upload_file_streamed_put_witness :
  let E := sample_env (CfgLoaded sample_config) in
  let s := mkstate [] (fun p => if (p =? "/w/img.png")%string then File else Absent) 0 0 in
  fs s "/w/img.png"%string = File /\
  trace (snd (upload_file_streamed E "u" "/w/img.png" "image/png" s)) =
    [EvPut "u" "/w/img.png" [("Content-Type"%string, "image/png"%string);
                             ("Content-Length"%string, "42"%string)]].
Proof.
  intros E s.
  assert (Hf : fs s "/w/img.png"%string = File) by reflexivity.
  split; [exact Hf|].
  exact (proj1 (upload_file_streamed_put E "u" "/w/img.png" "image/png" s Hf)).
Defined.

(** C7: for one individual's phenotype directory [pdir], [upload_phenotype]
    selects, without changing the state, exactly the triples (url, file,
    content type) of the keys of [config.evaluate.phenotype] that are also
    keys of [put_urls] (url = [put_urls[key]]) and whose configured file
    [pdir/name] exists at that point, with the config's content type for the
    key. Every event the upload appends is a PUT of a selected file, whose
    [Content-Type] is that content type; and when the upload returns
    normally, every selected file has been PUT. *)
Theorem upload_phenotype_selects E pdir put_urls c s :
  exists ups,
    phenotype_uploads pdir put_urls c s = (Ok ups, s) /\
    (forall url path ct, In (url, path, ct) ups <->
       exists key pfc, In (key, pfc) (cfg_phenotype c) /\
         dict_get put_urls key = Some url /\
         path = os_path_join pdir (pf_name pfc) /\ fs s path <> Absent /\
         ct = pf_content_type pfc) /\
    exists new,
      trace (snd (upload_phenotype E pdir put_urls c s)) = trace s ++ new /\
      Forall (fun ev => exists url path ct, In (url, path, ct) ups /\
                ev = EvPut url path [("Content-Type"%string, ct);
                       ("Content-Length"%string, py_str_of_nat (size_of E path))]) new /\
      (fst (upload_phenotype E pdir put_urls c s) = Ok tt ->
       forall url path ct, In (url, path, ct) ups ->
         In (EvPut url path [("Content-Type"%string, ct);
               ("Content-Length"%string, py_str_of_nat (size_of E path))]) new).
Proof.
  destruct (phenotype_uploads_go_spec pdir put_urls (cfg_phenotype c) s) as (ups & Hr & Hi).
  exists ups; split; [exact Hr | split; [exact Hi|]].
  unfold upload_phenotype, phenotype_uploads.
  rewrite (bind_Ok _ _ _ _ _ Hr).
  set (f := fun '(url, file_path, ct) => upload_file_streamed E url file_path ct).
  assert (Hem : Forall (emits (fun ev => exists url path ct, In (url, path, ct) ups /\
                ev = EvPut url path [("Content-Type"%string, ct);
                       ("Content-Length"%string, py_str_of_nat (size_of E path))]))
                  (map f ups)).
  { apply Forall_forall; intros t Ht; apply in_map_iff in Ht as ([[u p] ct] & <- & Hin).
    eapply emits_mono; [|apply emits_upload_file_streamed].
    intros ev ->; exists u, p, ct; split; [exact Hin | reflexivity]. }
  assert (Htrue : Forall (emits (fun _ => True)) (map f ups)).
  { eapply Forall_impl; [|exact Hem]; intros t; apply emits_mono; auto. }
  destruct (map f ups) as [|t0 ts] eqn:Hm.
  - exists []; split; [symmetry; apply app_nil_r | split; [constructor|]].
    intros _ url path ct Hin; destruct ups; [destruct Hin | discriminate Hm].
  - set (run := bind (gather E tt (t0 :: ts)) (fun _ => ret tt)).
    assert (Hrun : emits (fun ev => exists url path ct, In (url, path, ct) ups /\
                ev = EvPut url path [("Content-Type"%string, ct);
                       ("Content-Length"%string, py_str_of_nat (size_of E path))]) run).
    { apply emits_bind; [apply emits_gather, Hem | intro; apply emits_ret]. }
    destruct (Hrun s) as (new & Ht & HF); exists new; split; [exact Ht | split; [exact HF|]].
    intros Hok url path ct Hin.
    destruct (In_nth_error _ _ Hin) as (i & Hi').
    assert (Hd : delivers (EvPut url path [("Content-Type"%string, ct);
               ("Content-Length"%string, py_str_of_nat (size_of E path))]) run).
    { apply delivers_bind_l; [|intro; apply emits_ret].
      eapply delivers_gather; [exact Htrue| |apply delivers_upload_file_streamed].
      rewrite <- Hm, nth_error_map, Hi'; reflexivity. }
    destruct (run s) as [r s'] eqn:Hs; simpl in Hok; subst r.
    destruct (Hd s tt s' Hs) as (new' & Ht' & Hin').
    simpl in Ht; rewrite Ht' in Ht; apply app_inv_head in Ht; subst; exact Hin'.
Qed.

(** C5: when the temporary archive path [target/genotype.tar.tmp] is not a
    directory to begin with, [download_and_unpack_genotype]
    - always removes the temporary archive, whether it returns or raises;
    - returns only [target/genotype], and only when it is a directory;
    - when downloading and extracting succeeded but left no directory at
      [target/genotype], raises the "'genotype/' directory not found"
      [FileNotFoundError];
    - when downloading or extracting failed, raises that same error; and no
      error of the extraction is the missing-genotype error. *)
Theorem download_and_unpack_genotype_checks E url t s :
  fs s (genotype_tmp_file t) <> Dir ->
  fs (snd (download_and_unpack_genotype E url t s)) (genotype_tmp_file t) = Absent /\
  (forall g, fst (download_and_unpack_genotype E url t s) = Ok g ->
     g = os_path_join t "genotype" /\
     fs (snd (download_and_unpack_genotype E url t s)) g = Dir) /\
  (forall s1, fetch_and_unpack E url t s = (Ok tt, s1) ->
     fs s1 (os_path_join t "genotype") <> Dir ->
     fst (download_and_unpack_genotype E url t s) = Err missing_genotype_error) /\
  (forall e s1, fetch_and_unpack E url t s = (Err e, s1) ->
     fst (download_and_unpack_genotype E url t s) = Err e) /\
  (forall s1 e s2, unpack_archive E url t s1 = (Err e, s2) -> e <> missing_genotype_error).
Proof.
  intro Hd.
  pose proof (fetch_and_unpack_spec E url t s Hd) as [Hd1 _].
  pose proof (genotype_dir_not_tmp_file t) as Hne.
  rewrite !download_and_unpack_genotype_eq; unfold try_finally.
  destruct (fetch_and_unpack E url t s) as [r1 s1] eqn:Hf; simpl in Hd1.
  pose proof (remove_tmp_archive_spec t s1 Hd1) as (Hr & Ha & Ho).
  destruct (remove_tmp_archive t s1) as [rf s2]; simpl in Hr, Ha, Ho; subst rf.
  split; [|split; [|split; [|split]]].
  - destruct r1; [destruct (node_eqb _ _)|]; exact Ha.
  - intros g Hg; destruct r1 as [[]|e]; [|discriminate Hg].
    destruct (node_eqb (fs s2 (os_path_join t "genotype")) Dir) eqn:Hn; [|discriminate Hg].
    simpl in Hg; inversion Hg; subst g; split; [reflexivity|].
    apply node_eqb_eq, Hn.
  - intros s1' Hs1 Hnd; inversion Hs1; subst r1 s1'.
    rewrite (Ho _ Hne).
    destruct (node_eqb (fs s1 (os_path_join t "genotype")) Dir) eqn:Hn; [|reflexivity].
    apply node_eqb_eq in Hn; contradiction.
  - intros e s1' Hs1; inversion Hs1; subst; reflexivity.
  - intros s0 e s3 Hu Heq.
    destruct (unpack_archive_spec E url t "") as [_ Hrf].
    specialize (Hrf _ _ _ Hu); subst e; exact Hrf.
Qed.

Lemma download_and_unpack_genotype_checks_witness :
  fs sample_dirs_state (genotype_tmp_file "/w/a") <> Dir /\
  fs (snd (download_and_unpack_genotype (sample_env (CfgLoaded sample_config)) "u1" "/w/a"
             sample_dirs_state)) (genotype_tmp_file "/w/a") = Absent.
Proof.
  assert (H : fs sample_dirs_state (genotype_tmp_file "/w/a") <> Dir) by (vm_compute; discriminate).
  split; [exact H|].
  exact (proj1 (download_and_unpack_genotype_checks (sample_env (CfgLoaded sample_config))
                  "u1" "/w/a" sample_dirs_state H)).
Defined.

(** C6: a generate request whose download phase fails (making the
    parents' directories, or downloading or unpacking any parent's genotype:
    no response, a non-2xx status, a broken body, an archive that is not a
    tar file, one without [genotype/], ...) fails as a whole with an
    [HTTPException] of status 500; on the way the module is never called
    (its [generate] in particular) and nothing is packed or uploaded. The
    download phase is run where the request runs it: in the workspace
    created right after the config was loaded. A request whose config fails
    to load ends the same way. *)
Theorem generate_parent_failure_aborts E req s :
  (forall c, fst (get_config_from_request E (gen_config_name req) s) = Ok c ->
     let s1 := snd (get_config_from_request E (gen_config_name req) s) in
     exists e s2,
       generate_parent_downloads E req (tmp_dir_name (ntmp s1)) (snd (mkdtemp s1)) = (Err e, s2)) ->
  (exists detail, fst (handle_generate E req s) = Err (HTTPException 500 detail)) /\
  exists new, trace (snd (handle_generate E req s)) = trace s ++ new /\
    Forall no_module_call_or_upload new.
Proof.
  intros Hph; unfold handle_generate.
  rewrite (bind_Ok _ _ _ _ _ (attempt_run _ s)).
  pose proof (ng_get_config E (gen_config_name req) s) as (n1 & Ht1 & HF1).
  pose proof (get_config_raises_http E (gen_config_name req) s) as Hhttp.
  destruct (get_config_from_request E (gen_config_name req) s) as [[c|e] s1];
    cbn [fst snd] in *.
  - destruct (Hph c eq_refl) as (e & s3 & Hd); cbv zeta in Hd.
    set (body := fun tmp_dir => catch (generate_body E c req tmp_dir)
           (fun e => raise (HTTPException 500
                      ("Failed to create new population: " ++ py_str_exc e)%string))).
    set (s1' := snd (mkdtemp s1)) in Hd.
    assert (Hk : mkdtemp s1 = (Ok (ntmp s1, tmp_dir_name (ntmp s1)), s1')) by reflexivity.
    assert (Htk : trace s1' = trace s1 ++ [EvMkdtemp (ntmp s1) (tmp_dir_name (ntmp s1))])
      by reflexivity.
    pose proof (generate_body_downloads_fail E c req _ _ _ _ Hd) as Hb.
    destruct (generate_parent_downloads_quiet E req (tmp_dir_name (ntmp s1)) s1')
      as (n3 & Ht3 & HF3); rewrite Hd in Ht3; simpl in Ht3.
    set (msg := ("Failed to create new population: " ++ py_str_exc e)%string).
    assert (Hm : manage_tmp_dir body s1 =
                 (Err (HTTPException 500 msg),
                  snd (rmtree_ignore_errors (ntmp s1) (tmp_dir_name (ntmp s1)) s3))).
    { unfold manage_tmp_dir; rewrite (bind_Ok _ _ _ _ _ Hk); cbv beta iota.
      unfold try_finally, body, catch; rewrite Hb; cbv beta iota zeta delta [raise].
      rewrite rmtree_ignore_errors_run; reflexivity. }
    unfold body in Hm; rewrite (bind_Err _ _ _ _ _ Hm); split; [eexists; reflexivity|].
    exists (n1 ++ [EvMkdtemp (ntmp s1) (tmp_dir_name (ntmp s1))] ++ n3 ++
            [EvRmtree (ntmp s1) (tmp_dir_name (ntmp s1))]).
    rewrite rmtree_ignore_errors_run; simpl; rewrite Ht3, Ht1, <- !app_assoc;
      split; [reflexivity|].
    apply Forall_app; split; [exact HF1|]; simpl; constructor; [exact I|].
    apply Forall_app; split; [exact HF3 | repeat constructor].
  - destruct (Hhttp e s1 eq_refl) as (code & d & ->); simpl.
    split; [eexists; reflexivity | exists n1; auto].
Qed.

Section Generate_failure_witness.
Local Open Scope string_scope.

(** Two parents; the archive of the second one has no [genotype/] directory,
    so its unpacking fails: the request fails with status 500. *)
Lemma generate_parent_failure_aborts_witness :
  let req := mkgen "c" [mkparent "p1" "u1"; mkparent "p2" "nogeno"]
                       [mkchild "c1" "q1"; mkchild "c2" "q2"; mkchild "c3" "q3"] in
  (forall c, fst (get_config_from_request nogeno_env (gen_config_name req) sample_state) = Ok c ->
     let s1 := snd (get_config_from_request nogeno_env (gen_config_name req) sample_state) in
     exists e s2,
       generate_parent_downloads nogeno_env req (tmp_dir_name (ntmp s1)) (snd (mkdtemp s1))
         = (Err e, s2)) /\
  (exists detail, fst (handle_generate nogeno_env req sample_state)
                  = Err (HTTPException 500 detail)) /\
  fst (handle_generate nogeno_env req sample_state)
    = Err (HTTPException 500 ("Failed to create new population: " ++
                              py_str_exc missing_genotype_error)).
Proof.
  intro req.
  assert (H : forall c, fst (get_config_from_request nogeno_env (gen_config_name req) sample_state)
                        = Ok c ->
     let s1 := snd (get_config_from_request nogeno_env (gen_config_name req) sample_state) in
     exists e s2,
       generate_parent_downloads nogeno_env req (tmp_dir_name (ntmp s1)) (snd (mkdtemp s1))
         = (Err e, s2)).
  { intros c _; vm_compute; eexists; eexists; reflexivity. }
  split; [exact H | split].
  - exact (proj1 (generate_parent_failure_aborts nogeno_env req sample_state H)).
  - vm_compute; reflexivity.
Defined.

End Generate_failure_witness.

(** C8: a generate request that succeeds answers one entry per requested
    child, in request order: the i-th entry is the i-th child's id together
    with the parent ids found, in order, at the indices of entry i of the
    parentage map that the module's [generate] returned for its one call of
    this request ([py_getitem] is Python's [list[int]] indexing of the
    request's parent ids). *)
Theorem generate_response_follows_parentage E req s outs s' :
  handle_generate E req s = (Ok outs, s') ->
  exists gds cds written pm new,
    generate_of E gds cds = (written, Ok pm) /\
    trace s' = trace s ++ new /\ In (EvModuleGenerate gds cds) new /\
    length outs = length (gen_child_individuals req) /\
    forall i ch, nth_error (gen_child_individuals req) i = Some ch ->
      exists idxs ps, nth_error pm i = Some idxs /\
        Forall2 (fun k pid =>
                   py_getitem (map parent_id (gen_parent_individuals req)) k = Some pid)
                idxs ps /\
        nth_error outs i = Some (mkout (child_id ch) ps).
Proof.
  unfold handle_generate; intro H.
  rewrite (bind_Ok _ _ _ _ _ (attempt_run _ s)) in H.
  pose proof (ng_get_config E (gen_config_name req) s) as (n1 & Ht1 & _).
  destruct (get_config_from_request E (gen_config_name req) s) as [[c|e] s1]; simpl in H, Ht1;
    [|destruct e; discriminate H].
  apply bind_Ok_inv in H as (pm & s2 & Hm & Hr).
  unfold manage_tmp_dir in Hm; apply bind_Ok_inv in Hm as ([k d] & s1' & Hk & Hm).
  unfold mkdtemp in Hk; inversion Hk; subst k d s1'; clear Hk.
  unfold try_finally in Hm.
  match type of Hm with context [catch ?B ?Hd ?S] =>
    destruct (catch B Hd S) as [r3 s3] eqn:Hc end.
  rewrite rmtree_ignore_errors_run in Hm; simpl in Hm; inversion Hm; subst r3 s2; clear Hm.
  unfold catch in Hc.
  match type of Hc with context [generate_body ?E' ?C ?R ?D ?S] =>
    destruct (generate_body E' C R D S) as [[pm'|e] s5] eqn:Hb end;
    [inversion Hc; subst pm' s5; clear Hc | discriminate Hc].
  destruct (generate_body_reports _ _ _ _ _ _ _ Hb) as (gds & cds & written & nb & Hg & Htb & Hin).
  match type of Hr with ?m ?S = _ =>
    pose proof (pure_generate_response (map parent_id (gen_parent_individuals req)) pm
                  (gen_child_individuals req) S) as Hp end.
  rewrite Hr in Hp; simpl in Hp; subst s'.
  destruct (generate_response_spec _ _ _ _ _ _ Hr) as [Hlen Hnth].
  exists gds, cds, written, pm,
    (n1 ++ [EvMkdtemp (ntmp s1) (tmp_dir_name (ntmp s1))] ++ nb ++
     [EvRmtree (ntmp s1) (tmp_dir_name (ntmp s1))]).
  split; [exact Hg | split; [| split; [| split; [exact Hlen | exact Hnth]]]].
  - simpl; rewrite Htb; simpl; rewrite Ht1, <- !app_assoc; reflexivity.
  - rewrite !in_app_iff; simpl; tauto.
Qed.

Section Generate_witness.
Local Open Scope string_scope.

Lemma generate_response_follows_parentage_witness :
  let req := mkgen "c" [mkparent "p1" "u1"; mkparent "p2" "u2"]
                       [mkchild "c1" "q1"; mkchild "c2" "q2"; mkchild "c3" "q3"] in
  exists s',
    handle_generate (sample_env (CfgLoaded sample_config)) req sample_state =
      (Ok [mkout "c1" ["p1"]; mkout "c2" ["p2"]; mkout "c3" ["p1"; "p2"]], s') /\
    exists gds cds written pm new,
      generate_of (sample_env (CfgLoaded sample_config)) gds cds = (written, Ok pm) /\
      In (EvModuleGenerate gds cds) new.
Proof.
  intro req.
  set (r := handle_generate (sample_env (CfgLoaded sample_config)) req sample_state).
  assert (H : r = (Ok [mkout "c1" ["p1"]; mkout "c2" ["p2"]; mkout "c3" ["p1"; "p2"]], snd r)).
  { rewrite (surjective_pairing r) at 1; f_equal; vm_compute; reflexivity. }
  exists (snd r); split; [exact H|].
  destruct (generate_response_follows_parentage _ _ _ _ _ H)
    as (gds & cds & written & pm & new & Hg & _ & Hin & _).
  exists gds, cds, written, pm, new; split; [exact Hg | exact Hin].
Defined.

End Generate_witness.

(** C10: an evaluate request none of whose individuals survives the
    download phase, which the request runs in the workspace created right
    after its config was loaded (the phase fails: making a directory, or
    downloading or unpacking any genotype; or it returns only exceptions,
    as for a request with no individuals at all), still answers normally
    with exactly one entry per requested individual, and never calls the
    module (its [evaluate] in particular) nor uploads any phenotype. A
    request whose config fails to load ends the same way. *)
Theorem evaluate_without_survivors E req s :
  (forall c, fst (get_config_from_request E (eval_config_name req) s) = Ok c ->
     let s1 := snd (get_config_from_request E (eval_config_name req) s) in
     let d := tmp_dir_name (ntmp s1) in
     (exists e s2, evaluate_downloads E req d (snd (mkdtemp s1)) = (Err e, s2)) \/
     (exists rs s2, evaluate_downloads E req d (snd (mkdtemp s1)) = (Ok rs, s2) /\
                    Forall (fun r => exists e, r = inr e) rs)) ->
  (exists outs, fst (handle_evaluate E req s) = Ok outs /\
                length outs = length (eval_individuals req)) /\
  exists new, trace (snd (handle_evaluate E req s)) = trace s ++ new /\
    Forall no_module_call_or_upload new.
Proof.
  intro Hph; unfold handle_evaluate.
  rewrite (bind_Ok _ _ _ _ _ (attempt_run _ s)).
  pose proof (ng_get_config E (eval_config_name req) s) as (n1 & Ht1 & HF1).
  pose proof (get_config_raises_http E (eval_config_name req) s) as Hhttp.
  destruct (get_config_from_request E (eval_config_name req) s) as [[c|e] s1];
    cbn [fst snd] in *.
  - specialize (Hph c eq_refl); cbv zeta in Hph.
    set (s1' := snd (mkdtemp s1)) in Hph.
    assert (Hk : mkdtemp s1 = (Ok (ntmp s1, tmp_dir_name (ntmp s1)), s1')) by reflexivity.
    assert (Htk : trace s1' = trace s1 ++ [EvMkdtemp (ntmp s1) (tmp_dir_name (ntmp s1))])
      by reflexivity.
    unfold manage_tmp_dir; rewrite (bind_Ok _ _ _ _ _ Hk); cbv beta iota.
    unfold try_finally.
    match goal with |- context [catch ?B ?H s1'] =>
      destruct (evaluate_guarded_quiet E c req (tmp_dir_name (ntmp s1)) H s1')
        as (nb & Ht3 & HF3);
      [intros e0 s0; eexists; reflexivity | exact Hph |];
      destruct (evaluate_guarded_length E c req (tmp_dir_name (ntmp s1)) s1')
        as (outs & s3 & Hc & Hlen);
      rewrite Hc in Ht3 |- * end.
    rewrite rmtree_ignore_errors_run; cbn [fst snd trace].
    split; [exists outs; split; [reflexivity | exact Hlen]|].
    exists (n1 ++ [EvMkdtemp (ntmp s1) (tmp_dir_name (ntmp s1))] ++ nb ++
            [EvRmtree (ntmp s1) (tmp_dir_name (ntmp s1))]).
    cbn [snd] in Ht3; rewrite Ht3, Htk, Ht1, <- !app_assoc; split; [reflexivity|].
    apply Forall_app; split; [exact HF1|]; simpl; constructor; [exact I|].
    apply Forall_app; split; [exact HF3 | repeat constructor].
  - destruct (Hhttp e s1 eq_refl) as (code & d & ->); simpl.
    split; [eexists; split; [reflexivity | apply length_map] | exists n1; auto].
Qed.

Section Evaluate_witness.
Local Open Scope string_scope.

(** Three individuals: the genotype url of the first answers 404, the
    archive of the second has no [genotype/] directory, and the third is
    fine; and a request with no individuals. Both answer one entry per
    individual. *)
Lemma evaluate_without_survivors_witness :
  let req := mkeval "c" [mkevin "i1" "bad" [("img", "p1")];
                         mkevin "i2" "nogeno" [("img", "p2")];
                         mkevin "i3" "u3" [("img", "p3")]] in
  let req0 := mkeval "c" [] in
  (exists outs, fst (handle_evaluate nogeno_env req sample_state) = Ok outs /\
                length outs = 3) /\
  (exists outs, fst (handle_evaluate nogeno_env req0 sample_state) = Ok outs /\
                length outs = 0).
Proof.
  intros req req0; split.
  - refine (proj1 (evaluate_without_survivors nogeno_env req sample_state _)).
    intros c _; left; vm_compute; eexists; eexists; reflexivity.
  - refine (proj1 (evaluate_without_survivors nogeno_env req0 sample_state _)).
    intros c _; right; vm_compute; eexists; eexists; split; [reflexivity | constructor].
Defined.

End Evaluate_witness.

(** ** Further properties of the routes and their helpers *)

Lemma assoc_nat_In {A} i (l : list (nat * A)) a : assoc_nat i l = Some a -> In (i, a) l.
Proof.
  induction l as [|[j b] l IH]; simpl; [discriminate|].
  destruct (Nat.eqb_spec i j) as [->|]; [intro H; inversion H; left; reflexivity|].
  intro H; right; apply IH, H.
Qed.

Lemma assoc_nat_found {A} i (l : list (nat * A)) a : In (i, a) l -> exists a', assoc_nat i l = Some a'.
Proof.
  induction l as [|[j b] l IH]; simpl; [intros []|].
  destruct (Nat.eqb_spec i j) as [->|Hne]; [eauto|].
  intros [Heq|Hin]; [inversion Heq; subst; exfalso; apply Hne; reflexivity | apply IH, Hin].
Qed.

Section Gather_values.
Context {A : Type} (tasks : list (M A)) (G : nat -> A).
Hypothesis HG : forall i t s0 a s1, nth_error tasks i = Some t -> t s0 = (Ok a, s1) -> a = G i.

Lemma gather_run_values order : forall done s done' s',
  gather_run tasks order done s = (Ok done', s') ->
  (forall i a, In (i, a) done -> a = G i) ->
  (forall i a, In (i, a) done' -> a = G i) /\
  (forall i, (In i order /\ i < length tasks) \/ (exists a, In (i, a) done) ->
     exists a, In (i, a) done').
Proof.
  induction order as [|j order IH]; intros done s done' s' H Hd; simpl in H.
  - inversion H; subst; split; [exact Hd|]; intros i [[[] _]|Hi]; exact Hi.
  - destruct (nth_error tasks j) as [t|] eqn:Hj.
    + apply bind_Ok_inv in H as (a & s1 & Ht & H).
      destruct (IH _ _ _ _ H) as [H1 H2].
      { intros i b [Heq|Hin]; [inversion Heq; subst; eapply HG; eauto | apply Hd, Hin]. }
      split; [exact H1|]; intros i Hi; apply H2.
      destruct Hi as [[[<-|Hin] Hlt]|(b & Hb)].
      * right; exists a; left; reflexivity.
      * left; split; assumption.
      * right; exists b; right; exact Hb.
    + destruct (IH _ _ _ _ H Hd) as [H1 H2]; split; [exact H1|]; intros i Hi; apply H2.
      destruct Hi as [[[<-|Hin] Hlt]|Hb]; [| left; split; assumption | right; exact Hb].
      apply nth_error_None in Hj; lia.
Qed.

Lemma gather_values E (dflt : A) s vs s' :
  gather E dflt tasks s = (Ok vs, s') -> vs = map G (seq 0 (length tasks)).
Proof.
  unfold gather; intro H.
  apply bind_Ok_inv in H as (k & s1 & _ & H).
  apply bind_Ok_inv in H as (done & s2 & Hr & H).
  inversion H; subst; clear H.
  destruct (gather_run_values _ _ _ _ _ Hr) as [H1 H2]; [intros ? ? []|].
  apply map_ext_in; intros i Hi; apply in_seq in Hi.
  destruct (H2 i) as (a & Ha); [left; split; [apply completion_order_complete|]; lia|].
  destruct (assoc_nat_found _ _ _ Ha) as (a' & Ha'); rewrite Ha'.
  apply H1, assoc_nat_In, Ha'.
Qed.

End Gather_values.

Lemma map_nth_error_seq {X Y} (f : X -> Y) (d : Y) l :
  map (fun i => match nth_error l i with Some x => f x | None => d end) (seq 0 (length l))
  = map f l.
Proof.
  induction l as [|x l IH]; [reflexivity|]; simpl; f_equal.
  rewrite <- seq_shift, map_map; exact IH.
Qed.

Lemma download_and_unpack_genotype_value E u t s0 a s1 :
  download_and_unpack_genotype E u t s0 = (Ok a, s1) -> a = os_path_join t "genotype".
Proof.
  rewrite download_and_unpack_genotype_eq.
  destruct (try_finally _ _ s0) as [[[]|e] s2]; [|discriminate].
  destruct (node_eqb _ _); intro H; inversion H; reflexivity.
Qed.

Lemma valid_parent_results_inl ps i gs s :
  valid_parent_results ps i (map inl gs) s = (Ok gs, s).
Proof.
  revert i; induction gs as [|g gs IH]; intro i; [reflexivity|]; simpl.
  unfold bind; rewrite IH; reflexivity.
Qed.

Lemma download_genotypes_Ok E pairs s rs s' :
  download_and_unpack_genotypes E pairs s = (Ok rs, s') ->
  rs = map (fun '(u, t) => inl (os_path_join t "genotype")) pairs /\
  forall ps s0, valid_parent_results ps 0 rs s0 =
                (Ok (map (fun '(u, t) => os_path_join t "genotype") pairs), s0).
Proof.
  unfold download_and_unpack_genotypes; intro H.
  apply bind_Ok_inv in H as (vs & s1 & Hg & H); inversion H; subst; clear H.
  set (G := fun i => match nth_error pairs i with
                     | Some p => (fun '(u, t) => os_path_join t "genotype") p
                     | None => ""%string end).
  assert (Hv : vs = map (fun '(u, t) => os_path_join t "genotype") pairs).
  { assert (HG : forall i t s0 a s2,
              nth_error (map (fun '(get_url, target_dir) =>
                                download_and_unpack_genotype E get_url target_dir) pairs) i
                = Some t -> t s0 = (Ok a, s2) -> a = G i).
    { intros i t s0 a s2 Hi Ht; rewrite nth_error_map in Hi; unfold G.
      destruct (nth_error pairs i) as [[u tg]|]; inversion Hi; subst.
      eapply download_and_unpack_genotype_value; exact Ht. }
    rewrite (gather_values _ G HG E _ _ _ _ Hg), length_map; apply map_nth_error_seq. }
  subst vs; split.
  - rewrite map_map; apply map_ext; intros [u t]; reflexivity.
  - intros ps s0; apply valid_parent_results_inl.
Qed.

Lemma dict_get_set {V} (d : dict V) k v k' :
  dict_get (dict_set d k v) k' = if (k' =? k)%string then Some v else dict_get d k'.
Proof.
  induction d as [|[k0 v0] d IH]; simpl; [reflexivity|].
  destruct (String.eqb_spec k k0) as [->|Hne]; simpl.
  - destruct (String.eqb_spec k' k0); reflexivity.
  - rewrite IH; destruct (String.eqb_spec k' k0) as [->|]; [|reflexivity].
    destruct (String.eqb_spec k0 k); [congruence | reflexivity].
Qed.

Lemma mapM_values_In {A B} (f : A -> M B) (g : A -> B) l s r s' :
  (forall x s0 b s1, In x l -> f x s0 = (Ok b, s1) -> b = g x) ->
  mapM f l s = (Ok r, s') -> r = map g l.
Proof.
  revert s r; induction l as [|x l IH]; intros s r Hf H; simpl in H.
  - inversion H; reflexivity.
  - apply bind_Ok_inv in H as (b & s1 & Hx & H).
    apply bind_Ok_inv in H as (bs & s2 & Hl & H).
    inversion H; subst; simpl; f_equal.
    + eapply Hf; [left; reflexivity | exact Hx].
    + eapply IH; [intros; eapply Hf; [right; eassumption | eassumption] | exact Hl].
Qed.

Lemma map_fst_combine {X Y} (l1 : list X) (l2 : list Y) :
  length l1 = length l2 -> map fst (combine l1 l2) = l1.
Proof.
  revert l2; induction l1 as [|x l1 IH]; intros [|y l2] H; simpl in *; try discriminate;
    [reflexivity | f_equal; apply IH; lia].
Qed.

Lemma prepare_individuals_all_ok rs te gd pd st s acc s' :
  Forall (fun x => exists g, snd x = inl g) rs ->
  prepare_individuals rs te gd pd st s = (Ok acc, s') ->
  exists gd' pd', acc = (te ++ map fst rs, gd', pd', st).
Proof.
  revert te gd pd s; induction rs as [|[ind r] rs IH]; intros te gd pd s HF H; simpl in H.
  - inversion H; subst; exists gd, pd; rewrite app_nil_r; reflexivity.
  - inversion HF as [|? ? (g & Hg) HF']; subst; simpl in Hg; subst r.
    apply bind_Ok_inv in H as ([] & s1 & _ & H).
    destruct (IH _ _ _ _ HF' H) as (gd' & pd' & ->).
    exists gd', pd'; rewrite <- app_assoc; reflexivity.
Qed.

Lemma fold_mark_success_get_gen l st k :
  dict_get (fold_left mark_success l st) k =
  if existsb (fun ind => (k =? ev_id ind)%string) l
  then Some (mkevout k "success" None) else dict_get st k.
Proof.
  revert st; induction l as [|x l IH]; intro st; simpl; [reflexivity|].
  rewrite IH; unfold mark_success; rewrite dict_get_set.
  destruct (existsb _ l); [rewrite orb_true_r; reflexivity|rewrite orb_false_r].
  destruct (String.eqb_spec k (ev_id x)) as [->|]; reflexivity.
Qed.

Lemma fold_mark_success_get l st ind :
  In ind l ->
  dict_get (fold_left mark_success l st) (ev_id ind) = Some (mkevout (ev_id ind) "success" None).
Proof.
  intro Hin; rewrite fold_mark_success_get_gen.
  replace (existsb _ l) with true; [reflexivity|].
  symmetry; apply existsb_exists; exists ind; split; [exact Hin | apply String.eqb_refl].
Qed.

Lemma evaluate_body_success E c req d s outs s' :
  evaluate_body E c req d s = (Ok outs, s') ->
  outs = map (fun ind => mkevout (ev_id ind) "success" None) (eval_individuals req).
Proof.
  unfold evaluate_body; intro H.
  apply bind_Ok_inv in H as (pairs & s1 & Hm & H).
  apply bind_Ok_inv in H as (rs & s2 & Hd & H).
  apply bind_Ok_inv in H as ([[[te gd] pd] st] & s3 & Hp & H).
  apply bind_Ok_inv in H as (sts & s4 & Hs & H).
  assert (Hpairs : pairs = map (fun ind => (ev_genotype_get_url ind, os_path_join d (ev_id ind)))
                               (eval_individuals req)).
  { eapply mapM_values; [|exact Hm].
    intros x s0 b s5 Hx; unfold bind, ret in Hx.
    destruct (makedirs _ _ s0) as [[[]|e] s6]; inversion Hx; reflexivity. }
  destruct (download_genotypes_Ok E pairs s1 rs s2 Hd) as [Hrs _].
  assert (Hlen : length (eval_individuals req) = length rs)
    by (rewrite Hrs, Hpairs, !length_map; reflexivity).
  assert (Hok : Forall (fun x => exists g, snd x = inl g) (combine (eval_individuals req) rs)).
  { apply Forall_forall; intros [ind r] Hin; apply in_combine_r in Hin.
    rewrite Hrs, in_map_iff in Hin; destruct Hin as ([u t] & Hr & _); simpl; eauto. }
  destruct (prepare_individuals_all_ok _ _ _ _ _ _ _ _ Hok Hp)
    as (gd' & pd' & Hacc).
  inversion Hacc; subst te gd pd st; clear Hacc.
  rewrite (map_fst_combine _ _ Hlen) in Hs; simpl in Hs.
  eapply mapM_values_In; [|exact H].
  intros ind s0 b s5 Hin Hb.
  destruct (eval_individuals req) as [|i0 inds] eqn:Hn; [destruct Hin|].
  simpl in Hs.
  apply bind_Ok_inv in Hs as ([] & s6 & _ & Hs).
  apply bind_Ok_inv in Hs as ([] & s7 & _ & Hs).
  unfold ret in Hs; inversion Hs; subst sts; clear Hs.
  pose proof (fold_mark_success_get (i0 :: inds) [] ind Hin) as Hg.
  unfold mark_success in Hg; simpl in Hg; rewrite Hg in Hb.
  inversion Hb; reflexivity.
Qed.

(** X1: [handle_evaluate] always answers normally, with one entry per
    requested individual in request order, and the entries are either all
    "success" with no message or all "error" with one and the same message:
    a single failed download makes every individual an error. *)
Theorem evaluate_response_uniform E req s :
  exists outs, fst (handle_evaluate E req s) = Ok outs /\
    (outs = map (fun ind => mkevout (ev_id ind) "success" None) (eval_individuals req) \/
     exists msg, outs = map (fun ind => mkevout (ev_id ind) "error" (Some msg))
                            (eval_individuals req)).
Proof.
  unfold handle_evaluate.
  rewrite (bind_Ok _ _ _ _ _ (attempt_run _ s)).
  pose proof (get_config_raises_http E (eval_config_name req) s) as Hhttp.
  destruct (get_config_from_request E (eval_config_name req) s) as [[c|e] s1]; simpl.
  - set (s1' := snd (mkdtemp s1)).
    assert (Hk : mkdtemp s1 = (Ok (ntmp s1, tmp_dir_name (ntmp s1)), s1')) by reflexivity.
    unfold manage_tmp_dir; rewrite (bind_Ok _ _ _ _ _ Hk); cbv beta iota.
    unfold try_finally, catch.
    destruct (evaluate_body E c req (tmp_dir_name (ntmp s1)) s1') as [[outs|e] s3] eqn:Hb;
      simpl; rewrite rmtree_ignore_errors_run.
    + exists outs; split; [reflexivity | left; exact (evaluate_body_success _ _ _ _ _ _ _ Hb)].
    + eexists; split; [reflexivity | right; exists (py_str_exc e); reflexivity].
  - destruct (Hhttp e s1 eq_refl) as (code & d & ->); simpl.
    eexists; split; [reflexivity | right; eexists; reflexivity].
Qed.

Lemma makedirs_Ok_spec p b s u s' :
  makedirs p b s = (Ok u, s') ->
  fs s' p = Dir /\ forall q, fs s q <> Absent -> fs s' q = fs s q.
Proof.
  unfold makedirs; rewrite bind_get_fs; destruct (fs s p) eqn:Hp; intro H.
  - unfold bind in H; simpl in H.
    set (se := mkstate (trace s ++ [EvMakedirs p]) (fs s) (ntmp s) (ngather s)) in H.
    destruct (make_ancestors_spec (String.length p) (os_path_dirname p) se) as [Hr Hk].
    destruct (make_ancestors (String.length p) (os_path_dirname p) se) as [r s2];
      simpl in Hr, Hk; subst r.
    unfold set_node in H; inversion H; subst; simpl.
    rewrite String.eqb_refl; split; [reflexivity|].
    intros q Hq; destruct (q =? p)%string eqn:Hqp.
    + apply String.eqb_eq in Hqp; subst; contradiction.
    + apply (Hk q Hq).
  - discriminate H.
  - destruct b; [|discriminate H]; inversion H; subst; split; auto.
Qed.

Lemma makedirs_false_Err p s e s' :
  makedirs p false s = (Err e, s') -> e = FileExistsError p /\ s' = s.
Proof.
  unfold makedirs; rewrite bind_get_fs; destruct (fs s p) eqn:Hp; intro H.
  - unfold bind in H; simpl in H.
    set (se := mkstate (trace s ++ [EvMakedirs p]) (fs s) (ntmp s) (ngather s)) in H.
    destruct (make_ancestors_spec (String.length p) (os_path_dirname p) se) as [Hr _].
    destruct (make_ancestors (String.length p) (os_path_dirname p) se) as [r s2];
      simpl in Hr; subst r; discriminate H.
  - inversion H; auto.
  - inversion H; auto.
Qed.

Lemma makedirs_on_dir p s : fs s p = Dir -> makedirs p false s = (Err (FileExistsError p), s).
Proof. intro Hp; unfold makedirs; rewrite bind_get_fs, Hp; reflexivity. Qed.

Section Makedirs_chain.
Context {X A B : Type} (P : X -> string) (upd : A -> X -> A) (F : list X -> A -> M B).
Hypothesis HF_err : forall x xs a s e s1,
  makedirs (P x) false s = (Err e, s1) -> fst (F (x :: xs) a s) = Err e.
Hypothesis HF_ok : forall x xs a s u s1 e,
  makedirs (P x) false s = (Ok u, s1) -> fst (F xs (upd a x) s1) = Err e ->
  fst (F (x :: xs) a s) = Err e.

(** A run of [makedirs (P x) false] over the items, in order, fails with
    [FileExistsError] as soon as one path is already a directory: in
    particular when two items have the same path. *)
Lemma makedirs_chain_fails l : forall a s,
  (exists x, In x l /\ fs s (P x) = Dir) \/ ~ NoDup (map P l) ->
  exists p, fst (F l a s) = Err (FileExistsError p).
Proof.
  induction l as [|x l IH]; intros a s H.
  - exfalso; destruct H as [(x & [] & _)|H]; apply H; constructor.
  - destruct (makedirs (P x) false s) as [[u|e] s1] eqn:Hm.
    + destruct (makedirs_Ok_spec _ _ _ _ _ Hm) as [Hd Hk].
      destruct (IH (upd a x) s1) as (p & Hp).
      * destruct H as [(y & [<-|Hy] & Hdy)|Hnd].
        -- rewrite (makedirs_on_dir _ _ Hdy) in Hm; discriminate Hm.
        -- left; exists y; split; [exact Hy|]; rewrite Hk; [exact Hdy | congruence].
        -- simpl in Hnd; destruct (in_dec string_dec (P x) (map P l)) as [Hin|Hnin].
           ++ left; apply in_map_iff in Hin as (y & Hy & Hyl).
              exists y; split; [exact Hyl | rewrite Hy; exact Hd].
           ++ right; intro Hn; apply Hnd; constructor; assumption.
      * exists p; exact (HF_ok _ _ _ _ _ _ _ Hm Hp).
    + destruct (makedirs_false_Err _ _ _ _ Hm) as [-> _].
      exists (P x); exact (HF_err _ _ _ _ _ _ Hm).
Qed.
End Makedirs_chain.

Lemma mapM_makedirs_fails {X B} (P : X -> string) (g : X -> B) l s :
  (exists x, In x l /\ fs s (P x) = Dir) \/ ~ NoDup (map P l) ->
  exists p, fst (mapM (fun x => makedirs (P x) false;; ret (g x)) l s)
            = Err (FileExistsError p).
Proof.
  apply (makedirs_chain_fails P (fun (a : unit) _ => a)
           (fun l _ => mapM (fun x => makedirs (P x) false;; ret (g x)) l) ) with (a := tt).
  - intros x xs a s0 e s1 Hm; cbn [mapM].
    rewrite (bind_Err _ _ _ _ _ (bind_Err _ _ _ _ _ Hm)); reflexivity.
  - intros x xs a s0 u s1 e Hm Hp; cbn [mapM].
    rewrite (bind_Ok _ _ _ _ _ (bind_Ok _ _ _ _ _ Hm)).
    unfold bind at 1; destruct (mapM _ xs s1) as [[bs|e'] s2]; simpl in Hp |- *;
      [discriminate Hp | exact Hp].
Qed.

Lemma make_root_dirs_fails d rs m s :
  (exists r, In r rs /\ fs s (root_genotype_dir d r) = Dir) \/
  ~ NoDup (map (root_genotype_dir d) rs) ->
  exists p, fst (make_root_dirs d rs m s) = Err (FileExistsError p).
Proof.
  apply (makedirs_chain_fails (root_genotype_dir d)
           (fun m r => dict_set m (root_key r) (root_genotype_dir d r))
           (fun rs m => make_root_dirs d rs m)).
  - intros x xs a s0 e s1 Hm; cbn [make_root_dirs].
    rewrite (bind_Err _ _ _ _ _ Hm); reflexivity.
  - intros x xs a s0 u s1 e Hm Hp; cbn [make_root_dirs].
    rewrite (bind_Ok _ _ _ _ _ Hm); exact Hp.
Qed.

Lemma make_child_dirs_fails d cs m s :
  (exists ch, In ch cs /\ fs s (child_genotype_dir d ch) = Dir) \/
  ~ NoDup (map (child_genotype_dir d) cs) ->
  exists p, fst (make_child_dirs d cs m s) = Err (FileExistsError p).
Proof.
  apply (makedirs_chain_fails (child_genotype_dir d)
           (fun m ch => dict_set m (child_id ch) (child_genotype_dir d ch))
           (fun cs m => make_child_dirs d cs m)).
  - intros x xs a s0 e s1 Hm; cbn [make_child_dirs].
    rewrite (bind_Err _ _ _ _ _ Hm); reflexivity.
  - intros x xs a s0 u s1 e Hm Hp; cbn [make_child_dirs].
    rewrite (bind_Ok _ _ _ _ _ Hm); exact Hp.
Qed.

Lemma not_NoDup_map {X Y} (f : X -> Y) l : ~ NoDup l -> ~ NoDup (map f l).
Proof. intros H Hn; apply H; exact (NoDup_map_inv f l Hn). Qed.

Lemma ng_make_root_dirs d rs m : emits no_module_call_or_upload (make_root_dirs d rs m).
Proof. revert m; induction rs; simpl; emits_solve. Qed.

Lemma ng_make_child_dirs d cs m : emits no_module_call_or_upload (make_child_dirs d cs m).
Proof. revert m; induction cs; simpl; emits_solve. Qed.

Lemma evaluate_body_dup_fails E c req d s :
  ~ NoDup (map ev_id (eval_individuals req)) ->
  exists e s', evaluate_body E c req d s = (Err e, s') /\
    exists new, trace s' = trace s ++ new /\ Forall no_module_call_or_upload new.
Proof.
  intro Hnd; unfold evaluate_body.
  match goal with |- context [bind (mapM ?F ?L) ?K s] =>
    pose proof (emits_mapM no_module_call_or_upload F L) as HmF;
    destruct (mapM F L s) as [[pairs|e] s1] eqn:Hm end.
  - exfalso.
    destruct (mapM_makedirs_fails (fun ind => os_path_join d (ev_id ind))
                (fun ind => (ev_genotype_get_url ind, os_path_join d (ev_id ind)))
                (eval_individuals req) s) as (p & Hp).
    { right; rewrite <- map_map; apply not_NoDup_map, Hnd. }
    cbv beta in Hp; rewrite Hm in Hp; discriminate Hp.
  - rewrite (bind_Err _ _ _ _ _ Hm); exists e, s1; split; [reflexivity|].
    destruct (HmF ltac:(intro; cbv beta; emits_solve) s) as (n1 & Ht1 & HF1); rewrite Hm in Ht1.
    exists n1; auto.
Qed.

Lemma initialize_body_dup_fails E c req d s :
  ~ NoDup (map root_key (init_root_individuals req)) ->
  exists e s', initialize_body E c req d s = (Err e, s') /\
    exists new, trace s' = trace s ++ new /\ Forall no_module_call_or_upload new.
Proof.
  intro Hnd; unfold initialize_body.
  destruct (make_root_dirs_fails d (init_root_individuals req) [] s) as (p & Hp).
  { right; unfold root_genotype_dir.
    rewrite <- (map_map root_key (fun k => os_path_join (os_path_join d k) "genotype")).
    apply not_NoDup_map, Hnd. }
  destruct (ng_make_root_dirs d (init_root_individuals req) [] s) as (n1 & Ht1 & HF1).
  destruct (make_root_dirs d (init_root_individuals req) [] s) as [r s1] eqn:Hm;
    simpl in Hp, Ht1; subst r.
  rewrite (bind_Err _ _ _ _ _ Hm); eexists _, s1; split; [reflexivity|].
  exists n1; auto.
Qed.

Lemma generate_body_dup_fails E c req d s :
  ~ NoDup (map parent_id (gen_parent_individuals req)) \/
  ~ NoDup (map child_id (gen_child_individuals req)) ->
  exists e s', generate_body E c req d s = (Err e, s') /\
    exists new, trace s' = trace s ++ new /\ Forall no_module_call_or_upload new.
Proof.
  intro Hnd; unfold generate_body.
  match goal with |- context [bind (mapM ?F ?L) ?K s] =>
    pose proof (emits_mapM no_module_call_or_upload F L) as HmF;
    destruct (mapM F L s) as [[pairs|e] s1] eqn:Hm end.
  2:{ rewrite (bind_Err _ _ _ _ _ Hm); exists e, s1; split; [reflexivity|].
      destruct (HmF ltac:(intro; cbv beta; emits_solve) s) as (n1 & Ht1 & HF1);
        rewrite Hm in Ht1; exists n1; auto. }
  rewrite (bind_Ok _ _ _ _ _ Hm).
  destruct (HmF ltac:(intro; cbv beta; emits_solve) s) as (n1 & Ht1 & HF1);
    rewrite Hm in Ht1; simpl in Ht1.
  destruct Hnd as [Hnd|Hnd].
  { exfalso.
    destruct (mapM_makedirs_fails (parent_tmp_dir d)
                (fun p => (parent_genotype_get_url p, parent_tmp_dir d p))
                (gen_parent_individuals req) s) as (q & Hq).
    { right; unfold parent_tmp_dir.
      rewrite <- (map_map parent_id (fun k => os_path_join (os_path_join d "parents") k)).
      apply not_NoDup_map, Hnd. }
    cbv beta in Hq; rewrite Hm in Hq; discriminate Hq. }
  destruct (ng_download_and_unpack_genotypes E pairs s1) as (n2 & Ht2 & HF2).
  destruct (download_and_unpack_genotypes E pairs s1) as [[rs|e] s2] eqn:Hd;
    simpl in Ht2.
  2:{ rewrite (bind_Err _ _ _ _ _ Hd); exists e, s2; split; [reflexivity|].
      exists (n1 ++ n2); rewrite Ht2, Ht1, app_assoc; split; [reflexivity|].
      apply Forall_app; auto. }
  rewrite (bind_Ok _ _ _ _ _ Hd).
  destruct (download_genotypes_Ok E pairs s1 rs s2 Hd) as [_ Hv].
  rewrite (bind_Ok _ _ _ _ _ (Hv (gen_parent_individuals req) s2)).
  destruct (make_child_dirs_fails d (gen_child_individuals req) [] s2) as (p & Hp).
  { right; unfold child_genotype_dir.
    rewrite <- (map_map child_id
                  (fun k => os_path_join (os_path_join (os_path_join d "children") k) "genotype")).
    apply not_NoDup_map, Hnd. }
  destruct (ng_make_child_dirs d (gen_child_individuals req) [] s2) as (n3 & Ht3 & HF3).
  destruct (make_child_dirs d (gen_child_individuals req) [] s2) as [r s3] eqn:Hc;
    simpl in Hp, Ht3; subst r.
  rewrite (bind_Err _ _ _ _ _ Hc); eexists _, s3; split; [reflexivity|].
  exists (n1 ++ n2 ++ n3); rewrite Ht3, Ht2, Ht1, !app_assoc; split; [reflexivity|].
  repeat (apply Forall_app; split); auto.
Qed.

Lemma handle_generate_body_fails E req s :
  (forall c d, body_fails_quietly (generate_body E c req d)) ->
  (exists detail, fst (handle_generate E req s) = Err (HTTPException 500 detail)) /\
  exists new, trace (snd (handle_generate E req s)) = trace s ++ new /\
    Forall no_module_call_or_upload new.
Proof.
  intros Hbf; unfold handle_generate.
  rewrite (bind_Ok _ _ _ _ _ (attempt_run _ s)).
  pose proof (ng_get_config E (gen_config_name req) s) as (n1 & Ht1 & HF1).
  pose proof (get_config_raises_http E (gen_config_name req) s) as Hhttp.
  destruct (get_config_from_request E (gen_config_name req) s) as [[c|e] s1]; simpl in *.
  - set (s1' := snd (mkdtemp s1)).
    assert (Hk : mkdtemp s1 = (Ok (ntmp s1, tmp_dir_name (ntmp s1)), s1')) by reflexivity.
    assert (Htk : trace s1' = trace s1 ++ [EvMkdtemp (ntmp s1) (tmp_dir_name (ntmp s1))])
      by reflexivity.
    destruct (Hbf c (tmp_dir_name (ntmp s1)) s1') as (e & s3 & Hb & n3 & Ht3 & HF3).
    match goal with |- context [bind (manage_tmp_dir ?B) ?K s1] =>
      assert (Hm : manage_tmp_dir B s1 =
                   (Err (HTTPException 500 ("Failed to create new population: " ++ py_str_exc e)),
                    snd (rmtree_ignore_errors (ntmp s1) (tmp_dir_name (ntmp s1)) s3)))
        by (unfold manage_tmp_dir; rewrite (bind_Ok _ _ _ _ _ Hk); cbv beta iota;
            unfold try_finally, catch; rewrite Hb; cbv beta iota zeta delta [raise];
            rewrite rmtree_ignore_errors_run; reflexivity);
      rewrite (bind_Err _ _ _ _ _ Hm) end.
    split; [eexists; reflexivity|].
    exists (n1 ++ [EvMkdtemp (ntmp s1) (tmp_dir_name (ntmp s1))] ++ n3 ++
            [EvRmtree (ntmp s1) (tmp_dir_name (ntmp s1))]).
    rewrite rmtree_ignore_errors_run; simpl; rewrite Ht3, Htk, Ht1, <- !app_assoc; split; [reflexivity|].
    apply Forall_app; split; [exact HF1|]; simpl; constructor; [exact I|].
    apply Forall_app; split; [exact HF3 | repeat constructor].
  - destruct (Hhttp e s1 eq_refl) as (code & d & ->); simpl.
    split; [eexists; reflexivity | exists n1; auto].
Qed.

Lemma handle_initialize_body_fails E req s :
  (forall c d, body_fails_quietly (initialize_body E c req d)) ->
  (exists code detail, fst (handle_initialize E req s) = Err (HTTPException code detail)) /\
  exists new, trace (snd (handle_initialize E req s)) = trace s ++ new /\
    Forall no_module_call_or_upload new.
Proof.
  intros Hbf; unfold handle_initialize.
  pose proof (ng_get_config E (init_config_name req) s) as (n1 & Ht1 & HF1).
  pose proof (get_config_raises_http E (init_config_name req) s) as Hhttp.
  destruct (get_config_from_request E (init_config_name req) s) as [[c|e] s1] eqn:Hg;
    simpl in Ht1.
  2:{ rewrite (bind_Err _ _ _ _ _ Hg); destruct (Hhttp e s1 eq_refl) as (code & d & ->).
      split; [do 2 eexists; reflexivity | exists n1; auto]. }
  rewrite (bind_Ok _ _ _ _ _ Hg).
  destruct (set_eqb _ _); simpl.
  2:{ split; [do 2 eexists; reflexivity | exists n1; auto]. }
  set (s1' := snd (mkdtemp s1)).
  assert (Hk : mkdtemp s1 = (Ok (ntmp s1, tmp_dir_name (ntmp s1)), s1')) by reflexivity.
  assert (Htk : trace s1' = trace s1 ++ [EvMkdtemp (ntmp s1) (tmp_dir_name (ntmp s1))])
    by reflexivity.
  destruct (Hbf c (tmp_dir_name (ntmp s1)) s1') as (e & s3 & Hb & n3 & Ht3 & HF3).
  match goal with |- context [bind (manage_tmp_dir ?B) ?K s1] =>
    assert (Hm : manage_tmp_dir B s1 =
                 (Err (HTTPException 500
                         ("Failed to initialize root population: " ++ py_str_exc e)),
                  snd (rmtree_ignore_errors (ntmp s1) (tmp_dir_name (ntmp s1)) s3)))
      by (unfold manage_tmp_dir; rewrite (bind_Ok _ _ _ _ _ Hk); cbv beta iota;
          unfold try_finally, catch; rewrite Hb; cbv beta iota zeta delta [raise];
            rewrite rmtree_ignore_errors_run; reflexivity);
    rewrite (bind_Err _ _ _ _ _ Hm) end.
  split; [do 2 eexists; reflexivity|].
  exists (n1 ++ [EvMkdtemp (ntmp s1) (tmp_dir_name (ntmp s1))] ++ n3 ++
          [EvRmtree (ntmp s1) (tmp_dir_name (ntmp s1))]).
  rewrite rmtree_ignore_errors_run; simpl; rewrite Ht3, Htk, Ht1, <- !app_assoc; split; [reflexivity|].
  apply Forall_app; split; [exact HF1|]; simpl; constructor; [exact I|].
  apply Forall_app; split; [exact HF3 | repeat constructor].
Qed.

Lemma handle_evaluate_body_fails E req s :
  (forall c d, body_fails_quietly (evaluate_body E c req d)) ->
  (exists msg, fst (handle_evaluate E req s) =
     Ok (map (fun ind => mkevout (ev_id ind) "error" (Some msg)) (eval_individuals req))) /\
  exists new, trace (snd (handle_evaluate E req s)) = trace s ++ new /\
    Forall no_module_call_or_upload new.
Proof.
  intros Hbf; unfold handle_evaluate.
  rewrite (bind_Ok _ _ _ _ _ (attempt_run _ s)).
  pose proof (ng_get_config E (eval_config_name req) s) as (n1 & Ht1 & HF1).
  pose proof (get_config_raises_http E (eval_config_name req) s) as Hhttp.
  destruct (get_config_from_request E (eval_config_name req) s) as [[c|e] s1]; simpl in *.
  - set (s1' := snd (mkdtemp s1)).
    assert (Hk : mkdtemp s1 = (Ok (ntmp s1, tmp_dir_name (ntmp s1)), s1')) by reflexivity.
    assert (Htk : trace s1' = trace s1 ++ [EvMkdtemp (ntmp s1) (tmp_dir_name (ntmp s1))])
      by reflexivity.
    destruct (Hbf c (tmp_dir_name (ntmp s1)) s1') as (e & s3 & Hb & n3 & Ht3 & HF3).
    unfold manage_tmp_dir; rewrite (bind_Ok _ _ _ _ _ Hk); cbv beta iota.
    unfold try_finally, catch; rewrite Hb; simpl; rewrite rmtree_ignore_errors_run; simpl.
    split; [eexists; reflexivity|].
    exists (n1 ++ [EvMkdtemp (ntmp s1) (tmp_dir_name (ntmp s1))] ++ n3 ++
            [EvRmtree (ntmp s1) (tmp_dir_name (ntmp s1))]).
    rewrite Ht3, Htk, Ht1, <- !app_assoc; split; [reflexivity|].
    apply Forall_app; split; [exact HF1|]; simpl; constructor; [exact I|].
    apply Forall_app; split; [exact HF3 | repeat constructor].
  - destruct (Hhttp e s1 eq_refl) as (code & d & ->); simpl.
    split; [eexists; reflexivity | exists n1; auto].
Qed.

(** X2: an evaluate request in which two individuals share an id answers
    "error", with one common message, for every individual, and neither
    calls the module nor uploads anything. *)
Theorem evaluate_duplicate_ids_all_error E req s :
  ~ NoDup (map ev_id (eval_individuals req)) ->
  (exists msg, fst (handle_evaluate E req s) =
     Ok (map (fun ind => mkevout (ev_id ind) "error" (Some msg)) (eval_individuals req))) /\
  exists new, trace (snd (handle_evaluate E req s)) = trace s ++ new /\
    Forall no_module_call_or_upload new.
Proof.
  intro Hnd; apply handle_evaluate_body_fails.
  intros c d s0; exact (evaluate_body_dup_fails E c req d s0 Hnd).
Qed.

(** X3: an initialize request in which two root individuals share a key is
    rejected with an HTTPException, and neither calls the module nor uploads
    anything. *)
Theorem initialize_duplicate_keys_rejected E req s :
  ~ NoDup (map root_key (init_root_individuals req)) ->
  (exists code detail, fst (handle_initialize E req s) = Err (HTTPException code detail)) /\
  exists new, trace (snd (handle_initialize E req s)) = trace s ++ new /\
    Forall no_module_call_or_upload new.
Proof.
  intro Hnd; apply handle_initialize_body_fails.
  intros c d s0; exact (initialize_body_dup_fails E c req d s0 Hnd).
Qed.

(** X4: a generate request in which two parents or two children share an id
    is rejected with an HTTPException of status 500, and neither calls the
    module nor uploads anything. *)
Theorem generate_duplicate_ids_rejected E req s :
  ~ NoDup (map parent_id (gen_parent_individuals req)) \/
  ~ NoDup (map child_id (gen_child_individuals req)) ->
  (exists detail, fst (handle_generate E req s) = Err (HTTPException 500 detail)) /\
  exists new, trace (snd (handle_generate E req s)) = trace s ++ new /\
    Forall no_module_call_or_upload new.
Proof.
  intro Hnd; apply handle_generate_body_fails.
  intros c d s0; exact (generate_body_dup_fails E c req d s0 Hnd).
Qed.

Lemma not_NoDup_twice {X} (x : X) l : ~ NoDup (x :: x :: l).
Proof. intro Hn; inversion Hn as [|? ? Hx _]; apply Hx; left; reflexivity. Qed.

Section Duplicate_witnesses.
Local Open Scope string_scope.

Lemma evaluate_duplicate_ids_all_error_witness :
  let req := mkeval "c" [mkevin "i1" "u1" [("img", "p1")]; mkevin "i1" "u2" [("img", "p2")]] in
  ~ NoDup (map ev_id (eval_individuals req)) /\
  exists msg, fst (handle_evaluate (sample_env (CfgLoaded sample_config)) req sample_state) =
    Ok [mkevout "i1" "error" (Some msg); mkevout "i1" "error" (Some msg)].
Proof.
  intro req.
  assert (H : ~ NoDup (map ev_id (eval_individuals req))) by apply not_NoDup_twice.
  split; [exact H|].
  exact (proj1 (evaluate_duplicate_ids_all_error (sample_env (CfgLoaded sample_config)) req
                  sample_state H)).
Defined.

Lemma initialize_duplicate_keys_rejected_witness :
  let req := mkinit "c" [mkroot "r1" "a" "q1"; mkroot "r2" "a" "q2"; mkroot "r3" "b" "q3"] in
  ~ NoDup (map root_key (init_root_individuals req)) /\
  exists code detail,
    fst (handle_initialize (sample_env (CfgLoaded sample_config)) req sample_state)
    = Err (HTTPException code detail).
Proof.
  intro req.
  assert (H : ~ NoDup (map root_key (init_root_individuals req))) by apply not_NoDup_twice.
  split; [exact H|].
  exact (proj1 (initialize_duplicate_keys_rejected (sample_env (CfgLoaded sample_config)) req
                  sample_state H)).
Defined.

Lemma generate_duplicate_ids_rejected_witness :
  let req := mkgen "c" [mkparent "p1" "u1"] [mkchild "c1" "q1"; mkchild "c1" "q2"] in
  (~ NoDup (map parent_id (gen_parent_individuals req)) \/
   ~ NoDup (map child_id (gen_child_individuals req))) /\
  exists detail,
    fst (handle_generate (sample_env (CfgLoaded sample_config)) req sample_state)
    = Err (HTTPException 500 detail).
Proof.
  intro req.
  assert (H : ~ NoDup (map parent_id (gen_parent_individuals req)) \/
              ~ NoDup (map child_id (gen_child_individuals req)))
    by (right; apply not_NoDup_twice).
  split; [exact H|].
  exact (proj1 (generate_duplicate_ids_rejected (sample_env (CfgLoaded sample_config)) req
                  sample_state H)).
Defined.

End Duplicate_witnesses.

Section Mapm_outcome.
Context {X Y : Type} (f : X -> M Y) (P : X -> Prop) (e : exc).
Hypothesis Hf_out : forall x s, (exists y, f x s = (Ok y, s)) \/ f x s = (Err e, s).
Hypothesis Hf_ok : forall x s y s', f x s = (Ok y, s') -> P x.
Hypothesis Hf_P : forall x s, P x -> exists y, f x s = (Ok y, s).

(** A [mapM] of a step that leaves the state alone and either answers or
    raises [e] leaves the state alone and either answers or raises [e]; it
    answers exactly when every item satisfies [P]. *)
Lemma mapM_outcome l s :
  ((exists ys, mapM f l s = (Ok ys, s)) \/ mapM f l s = (Err e, s)) /\
  ((exists ys s', mapM f l s = (Ok ys, s')) <-> Forall P l).
Proof.
  induction l as [|x l IH]; simpl.
  - split; [left; exists []; reflexivity | split; [intros _; constructor | intros _; exists [], s; reflexivity]].
  - destruct IH as [IHo IHi].
    destruct (Hf_out x s) as [(y & Hy)|Hy].
    + rewrite (bind_Ok _ _ _ _ _ Hy).
      destruct IHo as [(ys & Hys)|Hys].
      * rewrite (bind_Ok _ _ _ _ _ Hys); split; [left; exists (y :: ys); reflexivity|].
        split; [intros _; constructor; [exact (Hf_ok _ _ _ _ Hy) | apply IHi; eauto]
               | intros _; exists (y :: ys), s; reflexivity].
      * rewrite (bind_Err _ _ _ _ _ Hys); split; [right; reflexivity|].
        split; [intros (ys & s' & H); discriminate H|].
        intros HF; inversion HF as [|? ? _ HFl]; subst.
        destruct (proj2 IHi HFl) as (ys & s' & H); rewrite Hys in H; discriminate H.
    + rewrite (bind_Err _ _ _ _ _ Hy); split; [right; reflexivity|].
      split; [intros (ys & s' & H); discriminate H|].
      intros HF; inversion HF as [|? ? Hx _]; subst.
      destruct (Hf_P x s Hx) as (y & H); rewrite Hy in H; discriminate H.
Qed.
End Mapm_outcome.

(** X5: building the generate response leaves the state alone and either
    raises IndexError or returns; it returns exactly when, for every child
    index, the module gave a parentage list at that index and each of its
    entries is a valid (possibly negative) index into the parent ids. *)
Theorem generate_response_outcome pids pm children s :
  snd (generate_response pids pm children s) = s /\
  (fst (generate_response pids pm children s) = Err (IndexError "list index out of range") \/
   exists outs, fst (generate_response pids pm children s) = Ok outs) /\
  ((exists outs, fst (generate_response pids pm children s) = Ok outs) <->
   forall i, i < length children ->
     exists idxs, nth_error pm i = Some idxs /\ Forall (fun k => py_getitem pids k <> None) idxs).
Proof.
  set (Pk := fun k => py_getitem pids k <> None).
  set (Pc := fun (ic : nat * child_individual_input) =>
               exists idxs, nth_error pm (fst ic) = Some idxs /\ Forall Pk idxs).
  assert (Hin : forall idxs s0,
    ((exists ys, mapM (fun p_idx => match py_getitem pids p_idx with
                                     | Some pid => ret pid
                                     | None => raise (IndexError "list index out of range")
                                     end) idxs s0 = (Ok ys, s0)) \/
     mapM (fun p_idx => match py_getitem pids p_idx with
                         | Some pid => ret pid
                         | None => raise (IndexError "list index out of range")
                         end) idxs s0 = (Err (IndexError "list index out of range"), s0)) /\
    ((exists ys s', mapM (fun p_idx => match py_getitem pids p_idx with
                                        | Some pid => ret pid
                                        | None => raise (IndexError "list index out of range")
                                        end) idxs s0 = (Ok ys, s')) <-> Forall Pk idxs)).
  { intros idxs s0; apply mapM_outcome.
    - intros k s1; destruct (py_getitem pids k); [left; eexists; reflexivity | right; reflexivity].
    - intros k s1 y s' H; unfold Pk; destruct (py_getitem pids k); [discriminate | discriminate H].
    - intros k s1 H; unfold Pk in H; destruct (py_getitem pids k); [eexists; reflexivity|].
      exfalso; apply H; reflexivity. }
  assert (Hout := mapM_outcome
    (fun '(i, ch) =>
       match nth_error pm i with
       | None => raise (IndexError "list index out of range")
       | Some idxs =>
           pids0 <- mapM (fun p_idx => match py_getitem pids p_idx with
                                       | Some pid => ret pid
                                       | None => raise (IndexError "list index out of range")
                                       end) idxs;;
           ret (mkout (child_id ch) pids0)
       end) Pc (IndexError "list index out of range")).
  destruct (Hout ltac:(
      intros [i ch] s0; cbv beta iota; destruct (nth_error pm i) as [idxs|];
      [destruct (proj1 (Hin idxs s0)) as [(ys & Hys)|Hys];
       [left; rewrite (bind_Ok _ _ _ _ _ Hys); eexists; reflexivity
       | right; rewrite (bind_Err _ _ _ _ _ Hys); reflexivity]
      | right; reflexivity]) ltac:(
      intros [i ch] s0 y s' H; cbv beta iota in H; unfold Pc; simpl;
      destruct (nth_error pm i) as [idxs|]; [|discriminate H];
      apply bind_Ok_inv in H as (ys & s1 & Hys & _);
      exists idxs; split; [reflexivity | apply (proj2 (Hin idxs s0)); eauto]) ltac:(
      intros [i ch] s0 (idxs & Hi & Hk); simpl in Hi; cbv beta iota; rewrite Hi;
      destruct (proj1 (Hin idxs s0)) as [(ys & Hys)|Hys];
      [rewrite (bind_Ok _ _ _ _ _ Hys); eexists; reflexivity|];
      destruct (proj2 (proj2 (Hin idxs s0)) Hk) as (ys & s' & H);
      rewrite Hys in H; discriminate H)
      (combine (seq 0 (length children)) children) s) as [Ho Hiff].
  unfold generate_response.
  split; [destruct Ho as [(ys & ->) | ->]; reflexivity|].
  split; [destruct Ho as [(ys & ->) | ->]; [right; eexists; reflexivity | left; reflexivity]|].
  split.
  - intros (outs & Hr) i Hi.
    destruct (nth_error children i) as [ch|] eqn:Hc;
      [|apply nth_error_None in Hc; lia].
    assert (HF : Forall Pc (combine (seq 0 (length children)) children)).
    { apply Hiff; destruct Ho as [(ys & Hys)|Hys]; rewrite Hys in Hr; [eauto | discriminate Hr]. }
    rewrite Forall_forall in HF.
    assert (Hic : In (0 + i, ch) (combine (seq 0 (length children)) children))
      by (apply nth_error_In with i; apply nth_error_combine_seq, Hc).
    destruct (HF _ Hic) as (idxs & Hidx & Hk).
    simpl in Hidx; exists idxs; split; [exact Hidx | exact Hk].
  - intros Hall.
    assert (HF : Forall Pc (combine (seq 0 (length children)) children)).
    { apply Forall_forall; intros [i ch] Hic.
      apply in_combine_l, in_seq in Hic; unfold Pc; simpl; apply Hall; lia. }
    destruct (proj2 Hiff HF) as (ys & s' & H); rewrite H; exists ys; reflexivity.
Qed.

(** X6: when [get_config_from_request] fails with an HTTPException, the
    initialize route re-raises it unchanged, the generate route raises a 500
    whose detail is "Configuration error: " followed by the original detail,
    and the evaluate route answers normally with that message as an error for
    every individual; all three end in the same state as the failed load. *)
Theorem config_failure_responses E n s code d s1 :
  get_config_from_request E n s = (Err (HTTPException code d), s1) ->
  (forall roots, handle_initialize E (mkinit n roots) s = (Err (HTTPException code d), s1)) /\
  (forall parents children,
     handle_generate E (mkgen n parents children) s =
       (Err (HTTPException 500 ("Configuration error: " ++ d)%string), s1)) /\
  (forall inds,
     handle_evaluate E (mkeval n inds) s =
       (Ok (map (fun ind => mkevout (ev_id ind) "error" (Some ("Configuration error: " ++ d)%string))
                inds), s1)).
Proof.
  intro H; split; [|split].
  - intro roots; unfold handle_initialize; simpl; rewrite (bind_Err _ _ _ _ _ H); reflexivity.
  - intros parents children; unfold handle_generate; simpl.
    rewrite (bind_Ok _ _ _ _ _ (attempt_run _ s)), H; reflexivity.
  - intro inds; unfold handle_evaluate; simpl.
    rewrite (bind_Ok _ _ _ _ _ (attempt_run _ s)), H; reflexivity.
Qed.

Section Config_failure_witness.
Local Open Scope string_scope.

Lemma config_failure_responses_witness :
  let E := sample_env CfgNotFound in
  get_config_from_request E "c" sample_state =
    (Err (HTTPException 404 "Config file 'c' not found."),
     snd (get_config_from_request E "c" sample_state)) /\
  handle_generate E (mkgen "c" [] [mkchild "c1" "q1"]) sample_state =
    (Err (HTTPException 500 "Configuration error: Config file 'c' not found."),
     snd (get_config_from_request E "c" sample_state)).
Proof.
  intro E.
  assert (H : get_config_from_request E "c" sample_state =
                (Err (HTTPException 404 "Config file 'c' not found."),
                 snd (get_config_from_request E "c" sample_state))) by reflexivity.
  split; [exact H|].
  exact (proj1 (proj2 (config_failure_responses E "c" sample_state _ _ _ H)) [] _).
Defined.

End Config_failure_witness.

(** X13: when [download_and_unpack_genotypes] succeeds, its results are the
    [genotype] subdirectories of the target directories in request order,
    whatever order the downloads complete in, and the parent filter of
    [handle_generate] keeps all of them, in that order. *)
Theorem download_genotypes_in_request_order E pairs s rs s' :
  download_and_unpack_genotypes E pairs s = (Ok rs, s') ->
  rs = map (fun '(u, t) => inl (os_path_join t "genotype")) pairs /\
  forall ps s0, valid_parent_results ps 0 rs s0 =
                (Ok (map (fun '(u, t) => os_path_join t "genotype") pairs), s0).
Proof. apply download_genotypes_Ok. Qed.

Section Order_witness.
Local Open Scope string_scope.
Lemma download_genotypes_in_request_order_witness :
  let pairs := [("u1", "/w/a"); ("u2", "/w/b")] in
  let r := download_and_unpack_genotypes reversed_sched_env pairs sample_dirs_state in
  fst r = Ok [inl "/w/a/genotype"; inl "/w/b/genotype"] /\
  map (fun ev => match ev with EvGet u _ => u | _ => "" end)
      (filter (fun ev => match ev with EvGet _ _ => true | _ => false end) (trace (snd r)))
    = ["u2"; "u1"] /\
  fst r = Ok (map (fun '(u, t) => inl (os_path_join t "genotype")) pairs).
Proof.
  intros pairs r.
  split; [vm_compute; reflexivity|].
  split; [vm_compute; reflexivity|].
  destruct r as [res s'] eqn:Hr; simpl.
  destruct res as [rs|e]; [|vm_compute in Hr; discriminate Hr].
  f_equal; exact (proj1 (download_genotypes_in_request_order _ _ _ _ _ Hr)).
Defined.
End Order_witness.

Lemma emits_True_wb {A} (m : M A) : wb m -> emits (fun _ => True) m.
Proof.
  intros Hm s; destruct (Hm s) as (n & Ht & _); exists n; split; [exact Ht|].
  apply Forall_forall; auto.
Qed.

Lemma delivers_P_bind_l {A B} P (m : M A) (f : A -> M B) :
  delivers_P P m -> (forall a, emits (fun _ => True) (f a)) -> delivers_P P (bind m f).
Proof.
  intros Hm Hf s b s' Hr; unfold bind in Hr.
  destruct (m s) as [[a|e] s1] eqn:Hs; [|discriminate Hr].
  destruct (Hm s a s1 Hs) as (n1 & Ht1 & Hi1).
  destruct (Hf a s1) as (n2 & Ht2 & _); rewrite Hr in Ht2; simpl in Ht2.
  exists (n1 ++ n2); rewrite Ht2, Ht1, app_assoc; split; [reflexivity|].
  apply Exists_app; left; exact Hi1.
Qed.

Lemma delivers_P_bind_r {A B} P (m : M A) (f : A -> M B) :
  emits (fun _ => True) m -> (forall a, delivers_P P (f a)) -> delivers_P P (bind m f).
Proof.
  intros Hm Hf s b s' Hr; unfold bind in Hr.
  destruct (Hm s) as (n1 & Ht1 & _).
  destruct (m s) as [[a|e] s1] eqn:Hs; [|discriminate Hr]; simpl in Ht1.
  destruct (Hf a s1 b s' Hr) as (n2 & Ht2 & Hi2).
  exists (n1 ++ n2); rewrite Ht2, Ht1, app_assoc; split; [reflexivity|].
  apply Exists_app; right; exact Hi2.
Qed.

Lemma delivers_P_gather_run {A} P (tasks : list (M A)) order done i t :
  Forall (emits (fun _ => True)) tasks -> In i order -> nth_error tasks i = Some t ->
  delivers_P P t -> delivers_P P (gather_run tasks order done).
Proof.
  intros Ht Hin Hi Hd; revert done; induction order as [|j order IH]; intro done;
    [destruct Hin|]; simpl.
  destruct (Nat.eq_dec j i) as [<-|Hne].
  - rewrite Hi; apply delivers_P_bind_l; [exact Hd|].
    intro; apply emits_gather_run, Ht.
  - destruct Hin as [Heq|Hin]; [contradiction|].
    destruct (nth_error tasks j) as [t'|] eqn:Hj; [|apply IH, Hin].
    apply delivers_P_bind_r; [|intro; apply IH, Hin].
    eapply Forall_forall; [exact Ht|]; eapply nth_error_In; exact Hj.
Qed.

Lemma delivers_P_gather {A} P E (dflt : A) tasks i t :
  Forall (emits (fun _ => True)) tasks -> nth_error tasks i = Some t ->
  delivers_P P t -> delivers_P P (gather E dflt tasks).
Proof.
  intros Ht Hi Hd; unfold gather; apply delivers_P_bind_r; [apply emits_next_gather|].
  intro k; apply delivers_P_bind_l; [|intro; apply emits_ret].
  eapply delivers_P_gather_run; [exact Ht| |exact Hi|exact Hd].
  apply completion_order_complete, nth_error_Some; rewrite Hi; discriminate.
Qed.

Lemma delivers_P_of_delivers {A} (P : event -> Prop) ev (m : M A) :
  P ev -> delivers ev m -> delivers_P P m.
Proof.
  intros HP Hd s a s' Hr; destruct (Hd s a s' Hr) as (n & Ht & Hi).
  exists n; split; [exact Ht | apply Exists_exists; eauto].
Qed.

Lemma delivers_P_manage_tmp_dir {A} P (body : string -> M A) :
  (forall d, delivers_P P (body d)) -> delivers_P P (manage_tmp_dir body).
Proof.
  intros Hb s a s' Hr.
  set (d := tmp_dir_name (ntmp s)) in *.
  set (s1 := snd (mkdtemp s)).
  assert (Hk : mkdtemp s = (Ok (ntmp s, d), s1)) by reflexivity.
  assert (Ht1 : trace s1 = trace s ++ [EvMkdtemp (ntmp s) d]) by reflexivity.
  unfold manage_tmp_dir in Hr; rewrite (bind_Ok _ _ _ _ _ Hk) in Hr; cbv beta iota in Hr.
  unfold try_finally in Hr.
  destruct (body d s1) as [r s2] eqn:Hbd; rewrite rmtree_ignore_errors_run in Hr; simpl in Hr.
  inversion Hr; subst r s'.
  destruct (Hb d s1 a s2 Hbd) as (n & Ht & Hi).
  exists ([EvMkdtemp (ntmp s) d] ++ n ++ [EvRmtree (ntmp s) d]); simpl.
  rewrite Ht, Ht1, <- !app_assoc; split; [reflexivity|].
  apply Exists_cons_tl, Exists_app; left; exact Hi.
Qed.

Lemma delivers_P_catch_raise {A} P (m : M A) (f : exc -> exc) :
  delivers_P P m -> delivers_P P (catch m (fun e => raise (f e))).
Proof.
  intros Hm s a s' Hr; unfold catch in Hr.
  destruct (m s) as [[a'|e] s1] eqn:Hs; inversion Hr; subst.
  exact (Hm s a s' Hs).
Qed.

Lemma delivers_pack_and_upload_genotype E src url :
  delivers_P (tar_put_to E url) (pack_and_upload_genotype E src url).
Proof.
  unfold pack_and_upload_genotype; apply delivers_P_manage_tmp_dir; intro d.
  apply delivers_P_bind_r; [apply emits_True_wb, wb_make_archive|]; intro a.
  eapply delivers_P_of_delivers; [|apply delivers_upload_file_streamed].
  exists a; reflexivity.
Qed.

Lemma delivers_pack_and_upload_genotypes E pairs src url :
  In (src, url) pairs -> delivers_P (tar_put_to E url) (pack_and_upload_genotypes E pairs).
Proof.
  intro Hin; unfold pack_and_upload_genotypes.
  apply delivers_P_bind_l; [|intro; apply emits_ret].
  destruct (In_nth_error _ _ Hin) as (i & Hi).
  eapply delivers_P_gather.
  - apply Forall_map_intro; intros [s0 u]; apply emits_True_wb.
    unfold pack_and_upload_genotype; apply wb_manage_tmp_dir; intro d.
    apply wb_bind; [apply wb_make_archive|intro; apply quiet_wb, quiet_upload_file_streamed].
  - rewrite nth_error_map, Hi; reflexivity.
  - apply delivers_pack_and_upload_genotype.
Qed.

Lemma wb_module_initialize E m : wb (module_initialize E m).
Proof. unfold module_initialize; wb_solve. Qed.

Lemma wb_module_generate E ps cs : wb (module_generate E ps cs).
Proof. unfold module_generate; wb_solve. Qed.

Lemma delivers_P_handle_initialize E req P :
  (forall c d, delivers_P P (initialize_body E c req d)) ->
  delivers_P P (handle_initialize E req).
Proof.
  intros Hb; unfold handle_initialize.
  apply delivers_P_bind_r; [apply emits_True_wb, quiet_wb, quiet_get_config|]; intro c.
  destruct (negb _); [intros s a s' H; discriminate H|].
  apply delivers_P_bind_l; [|intro; apply emits_ret].
  apply delivers_P_manage_tmp_dir; intro d.
  apply delivers_P_catch_raise, Hb.
Qed.

(** X9: when [handle_initialize] succeeds, it answers one entry per root
    individual, in request order and with no parents, and on the way it has
    called the module's initialize and PUT a tar archive to the
    [genotype_put_url] of every root individual. *)
Theorem initialize_success_uploads E req s outs :
  fst (handle_initialize E req s) = Ok outs ->
  outs = map (fun r => mkout (root_id r) []) (init_root_individuals req) /\
  exists new, trace (snd (handle_initialize E req s)) = trace s ++ new /\
    (exists m, In (EvModuleInitialize m) new) /\
    forall r, In r (init_root_individuals req) ->
      exists a, In (EvPut (root_genotype_put_url r) a
                   [("Content-Type", "application/x-tar");
                    ("Content-Length", py_str_of_nat (size_of E a))]%string) new.
Proof.
  intro Hok.
  destruct (handle_initialize E req s) as [r s'] eqn:Hr; simpl in Hok |- *; subst r.
  split.
  - unfold handle_initialize in Hr.
    apply bind_Ok_inv in Hr as (c & s1 & _ & Hr).
    destruct (negb _); [discriminate Hr|].
    apply bind_Ok_inv in Hr as (u & s2 & _ & Hr).
    unfold ret in Hr; inversion Hr; reflexivity.
  - assert (Hmod : delivers_P (fun ev => exists m, ev = EvModuleInitialize m)
                     (handle_initialize E req)).
    { apply delivers_P_handle_initialize; intros c d; unfold initialize_body.
      apply delivers_P_bind_r; [apply emits_True_wb, wb_make_root_dirs|]; intro m.
      apply delivers_P_bind_l; [|intro; apply emits_True_wb, wb_pack_and_upload_genotypes].
      unfold module_initialize; apply delivers_P_bind_l.
      - intros s0 a s1 H; inversion H; subst.
        exists [EvModuleInitialize m]; split; [reflexivity | left; eauto].
      - intros _; apply emits_True_wb; destruct (initialize_of E m); wb_solve. }
    destruct (Hmod s outs s' Hr) as (new & Ht & Hm).
    exists new; split; [exact Ht|]; split.
    + apply Exists_exists in Hm as (ev & Hin & m & ->); eauto.
    + intros r0 Hin.
      assert (Hput : delivers_P (tar_put_to E (root_genotype_put_url r0))
                       (handle_initialize E req)).
      { apply delivers_P_handle_initialize; intros c d; unfold initialize_body.
        apply delivers_P_bind_r; [apply emits_True_wb, wb_make_root_dirs|]; intro m.
        apply delivers_P_bind_r; [apply emits_True_wb, wb_module_initialize|]; intros _.
        apply delivers_pack_and_upload_genotypes with (src := os_path_join d (root_key r0)).
        apply in_map_iff; exists r0; auto. }
      destruct (Hput s outs s' Hr) as (new' & Ht' & Hp).
      rewrite Ht in Ht'; apply app_inv_head in Ht'; subst new'.
      apply Exists_exists in Hp as (ev & Hev & a & ->); eauto.
Qed.

Lemma delivers_P_handle_generate E req P :
  (forall c d, delivers_P P (generate_body E c req d)) ->
  delivers_P P (handle_generate E req).
Proof.
  intros Hb; unfold handle_generate.
  apply delivers_P_bind_r; [apply emits_True_wb, wb_attempt, quiet_wb, quiet_get_config|].
  intros [c|[]]; try (intros s a s' H; discriminate H).
  apply delivers_P_bind_l.
  - apply delivers_P_manage_tmp_dir; intro d; apply delivers_P_catch_raise, Hb.
  - intro pm; apply emits_pure, pure_generate_response.
Qed.

Lemma wb_handle_generate E req : wb (handle_generate E req).
Proof. unfold handle_generate; wb_solve; apply wb_manage_tmp_dir; intro d; wb_solve. Qed.

(** X10: when [handle_generate] succeeds, it has PUT a tar archive to the
    [genotype_put_url] of every child individual. *)
Theorem generate_success_uploads E req s outs :
  fst (handle_generate E req s) = Ok outs ->
  exists new, trace (snd (handle_generate E req s)) = trace s ++ new /\
    forall ch, In ch (gen_child_individuals req) ->
      exists a, In (EvPut (child_genotype_put_url ch) a
                   [("Content-Type", "application/x-tar");
                    ("Content-Length", py_str_of_nat (size_of E a))]%string) new.
Proof.
  intro Hok.
  destruct (handle_generate E req s) as [r s'] eqn:Hr; simpl in Hok |- *; subst r.
  assert (Hgen : forall ch, In ch (gen_child_individuals req) ->
            delivers_P (tar_put_to E (child_genotype_put_url ch)) (handle_generate E req)).
  { intros ch Hin; apply delivers_P_handle_generate; intros c d; unfold generate_body.
    apply delivers_P_bind_r; [apply emits_True_wb; wb_solve|]; intro pairs.
    apply delivers_P_bind_r; [apply emits_True_wb, wb_download_and_unpack_genotypes|]; intro rs.
    apply delivers_P_bind_r; [apply emits_pure, pure_valid_parent_results|]; intro vs.
    apply delivers_P_bind_r; [apply emits_True_wb, wb_make_child_dirs|]; intro m.
    apply delivers_P_bind_r; [apply emits_True_wb, wb_module_generate|]; intro pm.
    apply delivers_P_bind_l; [|intro; apply emits_ret].
    apply delivers_pack_and_upload_genotypes
      with (src := os_path_join (os_path_join d "children") (child_id ch)).
    apply in_map_iff; exists ch; auto. }
  destruct (gen_child_individuals req) as [|ch0 chs] eqn:Hc.
  - destruct (wb_trace _ s _ _ (wb_handle_generate E req) Hr) as (n & Ht).
    exists n; split; [exact Ht | intros ch []].
  - destruct (Hgen ch0 (or_introl eq_refl) s outs s' Hr) as (new & Ht & _).
    exists new; split; [exact Ht|]; intros ch Hin.
    destruct (Hgen ch Hin s outs s' Hr) as (new' & Ht' & Hp).
    rewrite Ht in Ht'; apply app_inv_head in Ht'; subst new'.
    apply Exists_exists in Hp as (ev & Hev & a & ->); eauto.
Qed.

(** X11: a config name that starts with a slash is read as that absolute
    path, whatever the configs directory is: [os.path.join] discards the
    directory, and the config found there is the one returned. *)
Theorem get_config_absolute_name E dir name s :
  configs_dir E = Some dir -> starts_with_slash name = true ->
  trace (snd (get_config_from_request E name s)) = trace s ++ [EvReadConfig name] /\
  fs (snd (get_config_from_request E name s)) = fs s /\
  (forall c, config_of E name = CfgLoaded c -> fst (get_config_from_request E name s) = Ok c).
Proof.
  intros Hd Hn.
  assert (Hj : os_path_join dir name = name) by (unfold os_path_join; rewrite Hn; reflexivity).
  unfold get_config_from_request; rewrite Hd, Hj; unfold bind, emit; simpl.
  destruct (config_of E name) eqn:Hc; simpl; repeat split; try reflexivity;
    intros c' Hc'; inversion Hc'; reflexivity.
Qed.

(** X12: [download_file_streamed] changes the file system at most at the
    target path; without a response or with a non-2xx status it changes
    nothing; with a 2xx status and no parent directory it changes nothing
    and raises [FileNotFoundError] (the parent is missing) or
    [NotADirectoryError] (the parent is a file); with a 2xx status, a parent
    directory and a target that is not a directory it leaves a file at the
    target and succeeds exactly when the body is read without error. *)
Theorem download_file_streamed_fs E url p s :
  (forall q, q <> p -> fs (snd (download_file_streamed E url p s)) q = fs s q) /\
  (match get_of E url with
   | GetNoResponse _ => True
   | GetResponse st _ => is_success st = false
   end -> fs (snd (download_file_streamed E url p s)) = fs s) /\
  (forall st be, get_of E url = GetResponse st be -> is_success st = true ->
     (parent_node (fs s) p = Absent ->
        fst (download_file_streamed E url p s) = Err (FileNotFoundError p) /\
        fs (snd (download_file_streamed E url p s)) = fs s) /\
     (parent_node (fs s) p = File ->
        fst (download_file_streamed E url p s) = Err (NotADirectoryError p) /\
        fs (snd (download_file_streamed E url p s)) = fs s)) /\
  (forall st be, get_of E url = GetResponse st be -> is_success st = true ->
     parent_node (fs s) p = Dir -> fs s p <> Dir ->
     fs (snd (download_file_streamed E url p s)) p = File /\
     (fst (download_file_streamed E url p s) = Ok tt <-> be = None)).
Proof.
  unfold download_file_streamed, emit, raise_for_status, open_for_write,
    get_fs, set_node, ret, raise, bind; simpl.
  destruct (get_of E url) as [st be|e]; simpl.
  2:{ split; [reflexivity | split; [reflexivity | split; intros st be H; discriminate H]]. }
  destruct (is_success st) eqn:Hs; simpl.
  2:{ split; [reflexivity | split; [reflexivity|]].
      split; intros st' be' H Hs'; inversion H; subst; congruence. }
  destruct (parent_node (fs s) p) eqn:Hpn; simpl.
  1,2: split; [reflexivity | split; [intro H; discriminate H|]].
  1,2: split; [intros st' be' _ _; split; intro H; discriminate H
                || (split; reflexivity) |].
  1,2: intros st' be' _ _ H; discriminate H.
  destruct (fs s p) eqn:Hp; simpl.
  3:{ split; [reflexivity | split; [intro H; discriminate H|]].
      split; [intros st' be' _ _; split; intro H; discriminate H|].
      intros st' be' _ _ _ Hd; contradiction. }
  all: split; [intros q Hq; apply String.eqb_neq in Hq; destruct be; simpl; rewrite Hq; reflexivity|].
  all: split; [intro H; discriminate H|].
  all: split; [intros st' be' _ _; split; intro H; discriminate H|].
  all: intros st' be' Heq _ _ _; inversion Heq; subst.
  all: destruct be'; simpl; rewrite String.eqb_refl; split; [reflexivity| |reflexivity|].
  all: split; intro H; congruence.
Qed.

Section Extra_witnesses.
Local Open Scope string_scope.

Lemma initialize_success_uploads_witness :
  let E := sample_env (CfgLoaded sample_config) in
  let req := mkinit "c" [mkroot "r1" "a" "q1"; mkroot "r2" "b" "q2"] in
  fst (handle_initialize E req sample_state) = Ok [mkout "r1" []; mkout "r2" []] /\
  exists new, trace (snd (handle_initialize E req sample_state)) = (trace sample_state ++ new)%list /\
    exists a, In (EvPut "q2" a [("Content-Type", "application/x-tar");
                                ("Content-Length", "42")]) new.
Proof.
  intros E req.
  assert (Hok : fst (handle_initialize E req sample_state) = Ok [mkout "r1" []; mkout "r2" []])
    by (vm_compute; reflexivity).
  split; [exact Hok|].
  destruct (initialize_success_uploads E req sample_state _ Hok) as (_ & new & Ht & _ & Hput).
  exists new; split; [exact Ht|].
  exact (Hput (mkroot "r2" "b" "q2") (or_intror (or_introl eq_refl))).
Defined.

Lemma generate_success_uploads_witness :
  let E := sample_env (CfgLoaded sample_config) in
  let req := mkgen "c" [mkparent "p1" "u1"; mkparent "p2" "u2"]
                       [mkchild "c1" "q1"; mkchild "c2" "q2"; mkchild "c3" "q3"] in
  fst (handle_generate E req sample_state) =
    Ok [mkout "c1" ["p1"]; mkout "c2" ["p2"]; mkout "c3" ["p1"; "p2"]] /\
  exists new, trace (snd (handle_generate E req sample_state)) = (trace sample_state ++ new)%list /\
    exists a, In (EvPut "q3" a [("Content-Type", "application/x-tar");
                                ("Content-Length", "42")]) new.
Proof.
  intros E req.
  assert (Hok : fst (handle_generate E req sample_state) =
                Ok [mkout "c1" ["p1"]; mkout "c2" ["p2"]; mkout "c3" ["p1"; "p2"]])
    by (vm_compute; reflexivity).
  split; [exact Hok|].
  destruct (generate_success_uploads E req sample_state _ Hok) as (new & Ht & Hput).
  exists new; split; [exact Ht|].
  exact (Hput (mkchild "c3" "q3") (or_intror (or_intror (or_introl eq_refl)))).
Defined.

Lemma get_config_absolute_name_witness :
  let E := sample_env (CfgLoaded sample_config) in
  trace (snd (get_config_from_request E "/etc/other.yaml" sample_state)) =
    [EvReadConfig "/etc/other.yaml"] /\
  fst (get_config_from_request E "/etc/other.yaml" sample_state) = Ok sample_config.
Proof.
  intro E.
  destruct (get_config_absolute_name E "/cfg" "/etc/other.yaml" sample_state)
    as (Ht & _ & Hc); [reflexivity | reflexivity |].
  split; [exact Ht | apply Hc; reflexivity].
Defined.

Lemma download_file_streamed_fs_witness :
  let E := sample_env (CfgLoaded sample_config) in
  fs (snd (download_file_streamed E "u1" "/w/f" sample_dirs_state)) "/w/f" = File /\
  fst (download_file_streamed E "u1" "/w/f" sample_dirs_state) = Ok tt /\
  fst (download_file_streamed E "u1" "/w/f" sample_state) = Err (FileNotFoundError "/w/f") /\
  fs (snd (download_file_streamed E "bad" "/w/f" sample_dirs_state)) = fs sample_dirs_state.
Proof.
  intro E.
  destruct (download_file_streamed_fs E "u1" "/w/f" sample_dirs_state) as (_ & _ & _ & H).
  destruct (H 200%Z None) as [H1 H2]; [reflexivity | reflexivity | reflexivity | discriminate |].
  split; [exact H1 | split; [apply H2; reflexivity|]].
  split.
  - destruct (download_file_streamed_fs E "u1" "/w/f" sample_state) as (_ & _ & H4 & _).
    exact (proj1 (proj1 (H4 200%Z None eq_refl eq_refl) eq_refl)).
  - destruct (download_file_streamed_fs E "bad" "/w/f" sample_dirs_state) as (_ & H3 & _).
    apply H3; reflexivity.
Defined.

End Extra_witnesses.

(** X14: the config route reads the same file as [get_config_from_request]
    and ends in the same state; it returns the same config when the load
    succeeds, but where [get_config_from_request] raises an HTTPException
    (500 for a missing configs directory, 404 for a missing file, 400 for an
    invalid one) [handle_config] lets the original exception through
    instead. *)
Theorem handle_config_raw_errors E n s :
  snd (handle_config E n s) = snd (get_config_from_request E n s) /\
  match fst (handle_config E n s) with
  | inl c => fst (get_config_from_request E n s) = Ok c
  | inr ConfigAttributeError =>
      fst (get_config_from_request E n s) =
        Err (HTTPException 500
          "Module is not properly configured. Missing app.state.configs_dir.")
  | inr ConfigFileNotFoundError =>
      fst (get_config_from_request E n s) =
        Err (HTTPException 404 ("Config file '" ++ n ++ "' not found.")%string)
  | inr (ConfigLoadError m) =>
      fst (get_config_from_request E n s) =
        Err (HTTPException 400 ("Failed to load or validate config file: " ++ m)%string)
  end.
Proof.
  unfold handle_config, get_config_from_request.
  destruct (configs_dir E) as [dir|]; [|split; reflexivity].
  unfold bind, emit; simpl.
  destruct (config_of E (os_path_join dir n)); split; reflexivity.
Qed.
